(** * Data transformation component of the network-security ETL pipeline

    A shallow embedding of
    [networksecurity/components/data_transformation.py] together with the
    parts of pandas and scikit-learn that the component calls, and of the
    three tasks of [dags/etlpipeline.py], followed by the properties of the
    column profiler, the target normaliser, the fit/apply engine and the
    DAG.

    Conventions of the embedding.
    - A float64 cell is an exact rational, one of the two infinities, or
      NaN; arithmetic on finite cells is exact (rounding is not modelled).
    - A [DataFrame] is the ordered list of its named columns; a column is a
      [Series] that carries its dtype in its constructor.
    - Python exceptions are values of [exn]; fallible code lives in the
      [result] monad.  [raise NetworkSecurityException(e, sys)] is the
      constructor [NetworkSecurityException] applied to the caught [e].
    - [run] is the body of the method between the two reads and the
      writes: it takes the two frames read and returns what is persisted.
      The ingestion component is left out: it is made of calls to the
      database, the file system and the random split. *)

From Stdlib Require Import Reals Qreals Lra.
From Stdlib Require Import List ZArith QArith Qabs Bool String Ascii Lia Lqa Sorted.
Import ListNotations.

Local Open Scope string_scope.
Local Open Scope list_scope.

(* ===================================================================== *)
(** * Exceptions and the error monad                                      *)
(* ===================================================================== *)

(** What pandas, numpy and scikit-learn raise on the paths taken by the
    component. *)
Inductive library_error :=
  | KeyError (column : string)        (* frame[...] on an absent or ambiguous label *)
  | TypeError                         (* ufunc / reduction on a non-numeric column *)
  | ValueError_not_numeric            (* could not convert string to float *)
  | ValueError_infinity               (* Input contains infinity *)
  | ValueError_no_samples             (* Found array with 0 sample(s) *)
  | ValueError_no_features            (* Found array with 0 feature(s) *)
  | ValueError_unseen_labels          (* y contains previously unseen labels *)
  | ValueError_n_features             (* X has n features, but ... is expecting m *)
  | ValueError_dtype_mismatch.        (* column dtype differs from fit time *)

Inductive exn :=
  | Message (text : string)
  | LibraryError (e : library_error)
  | NetworkSecurityException (cause : exn).

Inductive result (A : Type) :=
  | Ok (a : A)
  | Raise (e : exn).
Arguments Ok {A} a.
Arguments Raise {A} e.

Definition bind {A B} (m : result A) (k : A -> result B) : result B :=
  match m with
  | Ok a => k a
  | Raise e => Raise e
  end.

Notation "x <- m ;; k" := (bind m (fun x => k))
  (at level 61, m at next level, right associativity).
Notation "' p <- m ;; k" := (bind m (fun p => k))
  (at level 61, p pattern, m at next level, right associativity).

(** [try: body except Exception as e: raise NetworkSecurityException(e, sys)] *)
Definition try_wrap {A} (body : result A) : result A :=
  match body with
  | Ok a => Ok a
  | Raise e => Raise (NetworkSecurityException e)
  end.

(** The innermost cause of a chain of wrappers. *)
Fixpoint root_cause (e : exn) : exn :=
  match e with
  | NetworkSecurityException c => root_cause c
  | _ => e
  end.

(** [filter] for a fallible predicate: a list comprehension whose
    condition may raise. *)
Fixpoint filterM {A} (p : A -> result bool) (l : list A) : result (list A) :=
  match l with
  | [] => Ok []
  | x :: t =>
      b <- p x ;;
      r <- filterM p t ;;
      Ok (if b then x :: r else r)
  end.

Fixpoint mapM {A B} (f : A -> result B) (l : list A) : result (list B) :=
  match l with
  | [] => Ok []
  | x :: t =>
      y <- f x ;;
      r <- mapM f t ;;
      Ok (y :: r)
  end.

Definition mem (c : string) (l : list string) : bool :=
  existsb (String.eqb c) l.

(* ===================================================================== *)
(** * pandas                                                              *)
(* ===================================================================== *)

Module Pandas.

(** A float64 value. *)
Inductive float64 :=
  | Fin (q : Q)
  | PInf
  | NInf
  | NaN.

(** The dtypes of the model.  [int64] also stands for the other integer
    widths, which behave alike here. *)
Inductive dtype :=
  | int64 | float64_ | bool_ | object_ | category | datetime64.

(** A column with its values.  [None] is the missing marker of the
    non-numeric dtypes (NaN in an object column, NaT for a timestamp);
    timestamps are kept as ISO-8601 text. *)
Inductive Series :=
  | IntSeries (v : list Z)
  | FloatSeries (v : list float64)
  | BoolSeries (v : list bool)
  | ObjectSeries (v : list (option string))
  | CategorySeries (v : list (option string))
  | DatetimeSeries (v : list (option string)).

Definition dtype_of (s : Series) : dtype :=
  match s with
  | IntSeries _ => int64
  | FloatSeries _ => float64_
  | BoolSeries _ => bool_
  | ObjectSeries _ => object_
  | CategorySeries _ => category
  | DatetimeSeries _ => datetime64
  end.

Definition size (s : Series) : nat :=
  match s with
  | IntSeries v => List.length v
  | FloatSeries v => List.length v
  | BoolSeries v => List.length v
  | ObjectSeries v | CategorySeries v | DatetimeSeries v => List.length v
  end.

(** A frame: its columns in order, each under its label.  The columns of
    a frame have the same number of rows; the model does not enforce it and
    reads the number of rows off one column where a check needs it. *)
Definition DataFrame := list (string * Series).

Definition columns (X : DataFrame) : list string := map fst X.

(** [X[c]]: the column labelled [c].  A label that is absent raises
    KeyError; a label carried by several columns selects a frame, on
    which the Series operations of the component fail. *)
Definition getitem (X : DataFrame) (c : string) : result Series :=
  match filter (fun p => String.eqb (fst p) c) X with
  | [(_, s)] => Ok s
  | _ => Raise (LibraryError (KeyError c))
  end.

(** [X.drop(columns=[c])] *)
Definition drop (X : DataFrame) (c : string) : DataFrame :=
  filter (fun p => negb (String.eqb (fst p) c)) X.

(** The selectors of [select_dtypes] used by the component. *)
Inductive selector := sel_object | sel_category | sel_number | sel_bool.

(** numpy's scalar hierarchy: int64 and float64 are [np.number], bool is
    not. *)
Definition selects (sel : selector) (d : dtype) : bool :=
  match sel, d with
  | sel_object, object_ => true
  | sel_category, category => true
  | sel_number, int64 => true
  | sel_number, float64_ => true
  | sel_bool, bool_ => true
  | _, _ => false
  end.

Definition select_dtypes (include : list selector) (X : DataFrame) : DataFrame :=
  filter (fun p => existsb (fun sel => selects sel (dtype_of (snd p))) include) X.

(** [pd.api.types.is_numeric_dtype] *)
Definition is_numeric_dtype (s : Series) : bool :=
  match dtype_of s with
  | int64 | float64_ | bool_ => true
  | _ => false
  end.

(** The float64 view of a numeric column ([astype("f8")]). *)
Definition of_bool (b : bool) : float64 := Fin (if b then 1 else 0).

Definition as_float (s : Series) : option (list float64) :=
  match s with
  | IntSeries v => Some (map (fun z => Fin (inject_Z z)) v)
  | FloatSeries v => Some v
  | BoolSeries v => Some (map of_bool v)
  | _ => None
  end.

Definition isfinite (x : float64) : bool :=
  match x with Fin _ => true | _ => false end.

Definition isnan (x : float64) : bool :=
  match x with NaN => true | _ => false end.

Definition is_some {A} (o : option A) : bool :=
  match o with Some _ => true | None => false end.

(** [np.isfinite(s)]: defined on numbers, booleans and timestamps (NaT
    is not finite), a TypeError on object data. *)
Definition np_isfinite (s : Series) : result (list bool) :=
  match s with
  | DatetimeSeries v => Ok (map is_some v)
  | _ =>
      match as_float s with
      | Some v => Ok (map isfinite v)
      | None => Raise (LibraryError TypeError)
      end
  end.

Definition any (l : list bool) : bool := existsb (fun b => b) l.

(** The values of a non-numeric column. *)
Definition as_object (s : Series) : option (list (option string)) :=
  match s with
  | ObjectSeries v | CategorySeries v | DatetimeSeries v => Some v
  | _ => None
  end.

(** [s.dropna()] *)
Definition dropna (s : Series) : Series :=
  match s with
  | IntSeries v => IntSeries v
  | FloatSeries v => FloatSeries (filter (fun x => negb (isnan x)) v)
  | BoolSeries v => BoolSeries v
  | ObjectSeries v => ObjectSeries (filter is_some v)
  | CategorySeries v => CategorySeries (filter is_some v)
  | DatetimeSeries v => DatetimeSeries (filter is_some v)
  end.

(** ** Sample skewness ([nanops.nanskew]) *)

(** The statistic is [n * sqrt(n-1) / (n-2) * m3 / m2**1.5], which is not
    rational.  It is kept exactly as its sign together with its square;
    a comparison of its magnitude with a non-negative rational is then a
    comparison of squares. *)
Inductive skewness :=
  | SkewNaN
  | SkewRoot (sign : comparison) (square : Q).

Definition Qsum (l : list Q) : Q := fold_right Qplus 0%Q l.

(** The non-NaN values when they are all finite. *)
Fixpoint finite_values (l : list float64) : option (list Q) :=
  match l with
  | [] => Some []
  | Fin q :: t =>
      match finite_values t with
      | Some r => Some (q :: r)
      | None => None
      end
  | NaN :: t => finite_values t
  | _ :: _ => None
  end.

Definition Qlt_bool (a b : Q) : bool := negb (Qle_bool b a).

(** [_zero_out_fperr]: magnitudes below 1e-14 count as zero. *)
Definition zero_out_fperr (x : Q) : Q :=
  if Qlt_bool (Qabs x) (1 # 100000000000000) then 0%Q else x.

Definition Qsign (x : Q) : comparison := (x ?= 0)%Q.

(** The sums of the squares and of the cubes of the centred values, each
    through [_zero_out_fperr]: [m2] and [m3] of [nanskew]. *)
Definition moments (xs : list Q) : Q * Q :=
  let count := inject_Z (Z.of_nat (List.length xs)) in
  let mean := (Qsum xs / count)%Q in
  let adjusted := map (fun x => (x - mean)%Q) xs in
  let adjusted2 := map (fun a => (a * a)%Q) adjusted in
  let adjusted3 := map (fun a => (a * a * a)%Q) adjusted in
  (zero_out_fperr (Qsum adjusted2), zero_out_fperr (Qsum adjusted3)).

(** [nanskew(values, skipna=True)].  The NaN cells are masked out.  An
    infinite cell makes the mean infinite or NaN, hence some centred
    value NaN, hence the result NaN.  On finite values the result is
    [(count * (count - 1) ** 0.5 / (count - 2)) * (m3 / m2 ** 1.5)],
    replaced by 0 when [m2] is 0 and by NaN below three values. *)
Definition nanskew (values : list float64) : skewness :=
  match finite_values values with
  | None => SkewNaN
  | Some xs =>
      let count := inject_Z (Z.of_nat (List.length xs)) in
      let m2 := fst (moments xs) in
      let m3 := snd (moments xs) in
      if (List.length xs <? 3)%nat then SkewNaN
      else if Qeq_bool m2 0 then SkewRoot Eq 0
      else SkewRoot (Qsign m3)
             ((count * count * (count - 1) / ((count - 2) * (count - 2)))
              * ((m3 * m3) / (m2 * m2 * m2)))%Q
  end.

(** [s.skew()] *)
Definition skew (s : Series) : result skewness :=
  match as_float s with
  | Some v => Ok (nanskew v)
  | None => Raise (LibraryError TypeError)
  end.

(** [abs(x)] *)
Definition abs (x : skewness) : skewness :=
  match x with
  | SkewNaN => SkewNaN
  | SkewRoot Eq sq => SkewRoot Eq sq
  | SkewRoot _ sq => SkewRoot Gt sq
  end.

(** [x > t] for a threshold [t >= 0]; false on NaN. *)
Definition gt (x : skewness) (t : Q) : bool :=
  match x with
  | SkewRoot Gt sq => Qlt_bool (t * t) sq
  | _ => false
  end.

(** ** [Series.replace] and [Series.nunique] *)

(** [s.replace(-1, 0)]: the cells equal to the number -1 become 0; text
    and booleans are never equal to -1. *)
Definition replace_m1_0 (s : Series) : Series :=
  match s with
  | IntSeries v => IntSeries (map (fun z => if (z =? -1)%Z then 0%Z else z) v)
  | FloatSeries v =>
      FloatSeries (map (fun x =>
                          match x with
                          | Fin q => if Qeq_bool q (-1) then Fin 0 else Fin q
                          | _ => x
                          end) v)
  | _ => s
  end.

(** The first occurrences, in order. *)
Fixpoint distinct {A} (eqb : A -> A -> bool) (l : list A) : list A :=
  match l with
  | [] => []
  | x :: t => x :: filter (fun y => negb (eqb x y)) (distinct eqb t)
  end.

Definition float_eqb (x y : float64) : bool :=
  match x, y with
  | Fin a, Fin b => Qeq_bool a b
  | PInf, PInf | NInf, NInf => true
  | _, _ => false
  end.

Definition somes {A} (l : list (option A)) : list A :=
  flat_map (fun o => match o with Some a => [a] | None => [] end) l.

(** [s.nunique()]: the number of distinct non-missing values. *)
Definition nunique (s : Series) : nat :=
  match s with
  | IntSeries v => List.length (distinct Z.eqb v)
  | FloatSeries v =>
      List.length (distinct float_eqb (filter (fun x => negb (isnan x)) v))
  | BoolSeries v => List.length (distinct Bool.eqb v)
  | ObjectSeries v | CategorySeries v | DatetimeSeries v =>
      List.length (distinct String.eqb (somes v))
  end.

End Pandas.

(* ===================================================================== *)
(** * scikit-learn                                                        *)
(* ===================================================================== *)

Module Sklearn.
Import Pandas.

(** A 2-D float array, kept as the list of its feature columns. *)
Definition matrix := list (list float64).

(** The same for an object array after imputation (no missing cell). *)
Definition text_matrix := list (list string).

Definition isinf (x : float64) : bool :=
  match x with PInf | NInf => true | _ => false end.

(** [check_array(X, force_all_finite="allow-nan")] on an array with
    [n_features = len X]: infinities are refused, at least one sample and
    one feature are required. *)
Definition check_array (X : matrix) : result unit :=
  if existsb (existsb isinf) X then Raise (LibraryError ValueError_infinity)
  else
    match X with
    | [] => Raise (LibraryError ValueError_no_features)
    | c :: _ =>
        if (List.length c =? 0)%nat then Raise (LibraryError ValueError_no_samples)
        else Ok tt
    end.

Definition check_n_features {A B} (fitted : list A) (X : list B) : result unit :=
  if (List.length fitted =? List.length X)%nat then Ok tt
  else Raise (LibraryError ValueError_n_features).

(** ** The numeric estimators *)

(** Modelled from the spec: the constant
    [DATA_TRANSFORMATION_IMPUTER_PARAMS] of
    [networksecurity.constant.training_pipeline], the keyword arguments of
    [KNNImputer], is defined outside the component; the design gives it a
    fixed neighbour count and a fixed distance-weighting scheme.  Every
    other argument of the imputer is at its default. *)
Record knn_params := { n_neighbors : nat; weights : string }.

Inductive estimator :=
  | KNNImputer (params : knn_params)
  | SimpleImputer_mean
  | PowerTransformer_yeo_johnson
  | StandardScaler.

Inductive fitted_estimator :=
  | KNNImputer_ (params : knn_params) (_fit_X : matrix)
  | SimpleImputer_ (statistics_ : list float64)
  | PowerTransformer_ (fit_columns : matrix)
  | StandardScaler_ (fit_columns : matrix).

(** The finite cells of a column. *)
Definition finite_cells (c : list float64) : list Q :=
  flat_map (fun x => match x with Fin q => [q] | _ => [] end) c.

(** Column mean over the non-missing cells; NaN when there is none. *)
Definition nanmean (c : list float64) : float64 :=
  match finite_cells c with
  | [] => NaN
  | xs => Fin (Qsum xs / inject_Z (Z.of_nat (List.length xs)))
  end.

(** A column that is entirely missing at fit time is discarded by the
    imputers ([keep_empty_features] is left at its default). *)
Definition all_missing (c : list float64) : bool := forallb isnan c.

Fixpoint keep {A} (mask : list bool) (l : list A) : list A :=
  match mask, l with
  | b :: m, x :: t => if b then x :: keep m t else keep m t
  | _, _ => []
  end.

Fixpoint mapi_from {A B} (i : nat) (f : nat -> A -> B) (l : list A) : list B :=
  match l with
  | [] => []
  | x :: t => f i x :: mapi_from (S i) f t
  end.

Definition mapi {A B} (f : nat -> A -> B) (l : list A) : list B := mapi_from 0 f l.

(** The numerical kernels of the library, whose values are not rational
    (square roots, logarithms, a numerical optimisation): the value
    imputed by the nearest-neighbour estimator fitted on [_fit_X] for
    cell [(row, col)] of [X]; the Yeo-Johnson transform (with its
    built-in standardisation) fitted on a column; the standard score
    with the mean and deviation of a fit column. *)
Record Kernels := {
  knn_value : knn_params -> matrix -> matrix -> nat -> nat -> Q;
  yeo_johnson : list float64 -> Q -> Q;
  standard_score : list float64 -> Q -> Q
}.

Section Estimators.

Variable K : Kernels.

Definition lift (f : Q -> Q) (x : float64) : float64 :=
  match x with
  | Fin q => Fin (f q)
  | _ => x
  end.

Definition fit_step (e : estimator) (X : matrix) : result fitted_estimator :=
  _ <- check_array X ;;
  Ok match e with
     | KNNImputer params => KNNImputer_ params X
     | SimpleImputer_mean => SimpleImputer_ (map nanmean X)
     | PowerTransformer_yeo_johnson => PowerTransformer_ X
     | StandardScaler => StandardScaler_ X
     end.

Definition transform_step (f : fitted_estimator) (X : matrix) : result matrix :=
  _ <- check_array X ;;
  match f with
  | KNNImputer_ params fit_X =>
      _ <- check_n_features fit_X X ;;
      let valid_mask := map (fun c => negb (all_missing c)) fit_X in
      let filled :=
        mapi (fun col c =>
                mapi (fun row x =>
                        if isnan x then Fin (knn_value K params fit_X X row col) else x)
                     c) X in
      Ok (keep valid_mask filled)
  | SimpleImputer_ statistics =>
      _ <- check_n_features statistics X ;;
      let valid_mask := map (fun s => negb (isnan s)) statistics in
      let filled :=
        map (fun sc => map (fun x => if isnan x then fst sc else x) (snd sc))
            (combine statistics X) in
      Ok (keep valid_mask filled)
  | PowerTransformer_ fit_columns =>
      _ <- check_n_features fit_columns X ;;
      Ok (map (fun fc => map (lift (yeo_johnson K (fst fc))) (snd fc))
              (combine fit_columns X))
  | StandardScaler_ fit_columns =>
      _ <- check_n_features fit_columns X ;;
      Ok (map (fun fc => map (lift (standard_score K (fst fc))) (snd fc))
              (combine fit_columns X))
  end.

(** [Pipeline.fit_transform], which is what [ColumnTransformer.fit]
    runs: every step is fitted on, and then applied to, the output of
    the steps before it. *)
Fixpoint fit_steps (steps : list (string * estimator)) (X : matrix)
  : result (list fitted_estimator) :=
  match steps with
  | [] => Ok []
  | (_, e) :: rest =>
      f <- fit_step e X ;;
      Xt <- transform_step f X ;;
      fs <- fit_steps rest Xt ;;
      Ok (f :: fs)
  end.

(** [Pipeline.transform] *)
Fixpoint transform_steps (fs : list fitted_estimator) (X : matrix) : result matrix :=
  match fs with
  | [] => Ok X
  | f :: rest =>
      Xt <- transform_step f X ;;
      transform_steps rest Xt
  end.

(** ** The categorical estimators *)

Fixpoint insert_sorted (x : string) (l : list string) : list string :=
  match l with
  | [] => [x]
  | y :: t =>
      match String.compare x y with
      | Lt => x :: l
      | Eq => l
      | Gt => y :: insert_sorted x t
      end
  end.

(** [sorted(set(values))] *)
Definition unique_sorted (l : list string) : list string :=
  fold_right insert_sorted [] l.

Definition occurrences (v : string) (l : list string) : nat :=
  List.length (filter (String.eqb v) l).

(** [SimpleImputer(strategy="most_frequent")]: the most frequent
    non-missing value, the smallest one on a tie; missing when the
    column has no value. *)
Definition most_frequent (c : list (option string)) : option string :=
  let vals := somes c in
  fold_left (fun best v =>
               match best with
               | None => Some v
               | Some b =>
                   if (occurrences b vals <? occurrences v vals)%nat
                   then Some v else Some b
               end)
            (unique_sorted vals) None.

Definition check_object_array {A} (X : list (list A)) : result unit :=
  match X with
  | [] => Raise (LibraryError ValueError_no_features)
  | c :: _ =>
      if (List.length c =? 0)%nat then Raise (LibraryError ValueError_no_samples)
      else Ok tt
  end.

Definition fill (statistic : option string) (c : list (option string)) : list string :=
  match statistic with
  | Some m => map (fun o => match o with Some v => v | None => m end) c
  | None => []
  end.

(** [SimpleImputer.transform]: columns without a statistic are dropped,
    the missing cells of the others are filled. *)
Definition impute_mode (statistics : list (option string))
           (X : list (list (option string))) : result text_matrix :=
  _ <- check_object_array X ;;
  _ <- check_n_features statistics X ;;
  Ok (keep (map is_some statistics)
           (map (fun sc => fill (fst sc) (snd sc)) (combine statistics X))).

(** One indicator column per fitted category; a value that is not a
    fitted category sets none of them ([handle_unknown="ignore"]). *)
Definition indicator (category : string) (c : list string) : list float64 :=
  map (fun v => Fin (if String.eqb v category then 1 else 0)) c.

Definition onehot_column (categories : list string) (c : list string) : matrix :=
  map (fun k => indicator k c) categories.

(** [OneHotEncoder.transform] *)
Definition onehot (categories_ : list (list string)) (X : text_matrix) : result matrix :=
  _ <- check_object_array X ;;
  _ <- check_n_features categories_ X ;;
  Ok (flat_map (fun kc => onehot_column (fst kc) (snd kc)) (combine categories_ X)).

Record fitted_categorical := {
  statistics_ : list (option string);
  categories_ : list (list string)
}.

Definition fit_categorical (X : list (list (option string))) : result fitted_categorical :=
  _ <- check_object_array X ;;
  let statistics := map most_frequent X in
  Xt <- impute_mode statistics X ;;
  _ <- check_object_array Xt ;;
  let categories := map unique_sorted Xt in
  _ <- onehot categories Xt ;;
  Ok {| statistics_ := statistics; categories_ := categories |}.

Definition transform_categorical (f : fitted_categorical)
           (X : list (list (option string))) : result matrix :=
  Xt <- impute_mode (statistics_ f) X ;;
  onehot (categories_ f) Xt.

(** ** [ColumnTransformer] *)

(** A sub-pipeline: a list of named numeric steps, or the categorical
    pipeline [impute_mode] (most frequent value) then [onehot]
    ([OneHotEncoder(handle_unknown="ignore", sparse=True)]). *)
Inductive Pipeline :=
  | Numeric (steps : list (string * estimator))
  | Categorical.

Record ColumnTransformer := {
  transformers : list (string * Pipeline * list string);
  remainder : string;
  sparse_threshold : Q
}.

Inductive fitted_pipeline :=
  | Numeric_ (steps : list fitted_estimator)
  | Categorical_ (f : fitted_categorical).

Definition FittedColumnTransformer := list (string * fitted_pipeline * list string).

(** [X[cols]] as a float array, for a numeric sub-pipeline. *)
Definition numeric_block (X : DataFrame) (cols : list string) : result matrix :=
  mapM (fun c =>
          s <- getitem X c ;;
          match as_float s with
          | Some v => Ok v
          | None => Raise (LibraryError ValueError_not_numeric)
          end) cols.

(** [X[cols]] as an object array, for the categorical sub-pipeline.
    What the encoder does with a column that is not text at apply time
    depends on the other columns of the block; such a frame breaks the
    schema invariant of the component and is refused here. *)
Definition object_block (X : DataFrame) (cols : list string)
  : result (list (list (option string))) :=
  mapM (fun c =>
          s <- getitem X c ;;
          match s with
          | ObjectSeries v | CategorySeries v => Ok v
          | _ => Raise (LibraryError ValueError_dtype_mismatch)
          end) cols.

Definition fit_pipeline (p : Pipeline) (X : DataFrame) (cols : list string)
  : result fitted_pipeline :=
  match p with
  | Numeric steps =>
      B <- numeric_block X cols ;;
      fs <- fit_steps steps B ;;
      Ok (Numeric_ fs)
  | Categorical =>
      B <- object_block X cols ;;
      f <- fit_categorical B ;;
      Ok (Categorical_ f)
  end.

Definition transform_pipeline (p : fitted_pipeline) (X : DataFrame) (cols : list string)
  : result matrix :=
  match p with
  | Numeric_ fs =>
      B <- numeric_block X cols ;;
      transform_steps fs B
  | Categorical_ f =>
      B <- object_block X cols ;;
      transform_categorical f B
  end.

(** [ColumnTransformer.fit] *)
Definition fit (ct : ColumnTransformer) (X : DataFrame) : result FittedColumnTransformer :=
  mapM (fun t =>
          let '(name, p, cols) := t in
          f <- fit_pipeline p X cols ;;
          Ok (name, f, cols))
       (transformers ct).

(** [ColumnTransformer.transform]: the blocks of the sub-pipelines side
    by side, in the order of the transformers; columns of [X] that no
    transformer names are dropped. *)
Definition transform (fct : FittedColumnTransformer) (X : DataFrame) : result matrix :=
  blocks <- mapM (fun t =>
                    let '(_, f, cols) := t in
                    transform_pipeline f X cols) fct ;;
  Ok (List.concat blocks).

End Estimators.

(** ** [LabelEncoder] *)

Definition is_none {A} (o : option A) : bool := negb (is_some o).

(** [classes_]: the sorted distinct labels, a missing label last. *)
Definition LabelEncoder_fit (y : list (option string)) : list (option string) :=
  map Some (unique_sorted (somes y)) ++ (if existsb is_none y then [None] else []).

Definition label_eqb (a b : option string) : bool :=
  match a, b with
  | Some x, Some y => String.eqb x y
  | None, None => true
  | _, _ => false
  end.

Fixpoint index_of (classes : list (option string)) (v : option string) : option Z :=
  match classes with
  | [] => None
  | k :: t =>
      if label_eqb k v then Some 0%Z
      else match index_of t v with
           | Some i => Some (Z.succ i)
           | None => None
           end
  end.

(** [LabelEncoder.transform] on text labels: the position of each label
    in [classes_]; a label that is not a class is an error. *)
Definition LabelEncoder_transform (classes : list (option string))
           (y : list (option string)) : result (list Z) :=
  mapM (fun v =>
          match index_of classes v with
          | Some i => Ok i
          | None => Raise (LibraryError ValueError_unseen_labels)
          end) y.

End Sklearn.

(* ===================================================================== *)
(** * The component: [DataTransformation]                                 *)
(* ===================================================================== *)

Module DataTransformation.
Import Pandas Sklearn.

(** What a run persists: the fitted transformation
    ([transformed_object_file_path] and [final_model/preprocessor.pkl]),
    the two arrays (the transformed features, densified, with the label as
    last column; kept here as the pair of the features and the label
    column) and, when one was fitted, the label encoder
    ([final_model/label_encoder.pkl]). *)
Record Persisted := {
  preprocessor_fitted : FittedColumnTransformer;
  train_arr : matrix * Series;
  test_arr : matrix * Series;
  y_encoder : option (list (option string))
}.

Section Component.

(** The two constants of [networksecurity.constant.training_pipeline],
    which the component imports, and the numerical kernels of the
    library. *)
Variable TARGET_COLUMN : string.
Variable DATA_TRANSFORMATION_IMPUTER_PARAMS : knn_params.
Variable K : Kernels.

Definition _is_binary_or_numeric_target (y : Series) : bool :=
  if is_numeric_dtype y then true
  else (nunique y <=? 2)%nat.

Definition skew_threshold : Q := 1.

(** The condition of the comprehension that builds [skewed]:
    [np.isfinite(X[c]).any() and abs(pd.Series(X[c]).dropna().skew()) > skew_threshold] *)
Definition is_skewed (X : DataFrame) (c : string) : result bool :=
  s <- getitem X c ;;
  finite <- np_isfinite s ;;
  if any finite then
    sk <- skew (dropna s) ;;
    Ok (gt (abs sk) skew_threshold)
  else Ok false.

(** The column profile: the lists [skewed], [regular] and [obj_cols]
    at the head of [_build_transformer]. *)
Definition profile (X : DataFrame) : result (list string * list string * list string) :=
  let obj_cols := columns (select_dtypes [sel_object; sel_category] X) in
  let num_cols := columns (select_dtypes [sel_number; sel_bool] X) in
  skewed <- filterM (is_skewed X) num_cols ;;
  let regular := filter (fun c => negb (mem c skewed)) num_cols in
  Ok (skewed, regular, obj_cols).

Definition numeric_knn : Pipeline :=
  Numeric [("impute_knn", KNNImputer DATA_TRANSFORMATION_IMPUTER_PARAMS);
           ("scale", StandardScaler)].

Definition numeric_normal : Pipeline :=
  Numeric [("impute_mean", SimpleImputer_mean);
           ("scale", StandardScaler)].

Definition numeric_skewed : Pipeline :=
  Numeric [("impute_mean", SimpleImputer_mean);
           ("yeojohnson", PowerTransformer_yeo_johnson);
           ("scale", StandardScaler)].

Definition categorical : Pipeline := Categorical.

Definition nonempty {A} (l : list A) : bool :=
  match l with [] => false | _ => true end.

Definition no_valid_feature_columns : exn :=
  NetworkSecurityException
    (Message "No valid feature columns found for transformation.").

Definition _build_transformer (X : DataFrame) : result ColumnTransformer :=
  try_wrap (
    '(skewed, regular, obj_cols) <- profile X ;;
    let transformers :=
      (if nonempty skewed then [("num_skewed", numeric_skewed, skewed)] else [])
      ++ (if nonempty regular then [("num_regular", numeric_knn, regular)] else [])
      ++ (if nonempty obj_cols then [("cat", categorical, obj_cols)] else []) in
    if nonempty transformers then
      Ok {| transformers := transformers;
            remainder := "drop";
            sparse_threshold := 1 |}
    else Raise no_valid_feature_columns).

(** The columns that [remainder="drop"] discards: those that no
    transformer names. *)
Definition dropped_columns (ct : ColumnTransformer) (X : DataFrame) : list string :=
  filter (fun c => negb (existsb (fun t => mem c (snd t)) (transformers ct)))
         (columns X).

Definition missing_target_column : exn :=
  NetworkSecurityException
    (Message ("Missing target column '" ++ TARGET_COLUMN ++ "' in input files.")).

(** Lines 100-103: the sentinel remap, guarded by the dtype of the
    training labels. *)
Definition normalize_labels (y_train y_test : Series) : Series * Series :=
  if is_numeric_dtype y_train
  then (replace_m1_0 y_train, replace_m1_0 y_test)
  else (y_train, y_test).

(** [y_encoder.transform(y_test)] for an encoder fitted on the labels
    of [y_train]: a test column of another kind (numbers against text,
    timestamps against text) shares no label with the classes. *)
Definition same_kind (a b : Series) : bool :=
  match dtype_of a, dtype_of b with
  | datetime64, datetime64 => true
  | (object_ | category), (object_ | category) => true
  | _, _ => false
  end.

Definition transform_labels (classes : list (option string)) (y_train y_test : Series)
  : result (list Z) :=
  match as_object y_test with
  | Some v =>
      if same_kind y_train y_test then LabelEncoder_transform classes v
      else if (size y_test =? 0)%nat then Ok []
           else Raise (LibraryError ValueError_unseen_labels)
  | None =>
      if (size y_test =? 0)%nat then Ok []
      else Raise (LibraryError ValueError_unseen_labels)
  end.

(** The body shared by the two encoding branches:
    [LabelEncoder()], [fit_transform(y_train)], [transform(y_test)].  Both
    branches are entered with labels that are not numeric, so the last
    case is never taken. *)
Definition encode (y_train y_test : Series)
  : result (Series * Series * option (list (option string))) :=
  match as_object y_train with
  | Some labels =>
      let classes := LabelEncoder_fit labels in
      codes_train <- LabelEncoder_transform classes labels ;;
      codes_test <- transform_labels classes y_train y_test ;;
      Ok (IntSeries codes_train, IntSeries codes_test, Some classes)
  | None => Raise (LibraryError TypeError)
  end.

(** Lines 110-122. *)
Definition encode_target (y_train y_test : Series)
  : result (Series * Series * option (list (option string))) :=
  if negb (_is_binary_or_numeric_target y_train) then
    encode y_train y_test
  else
    if negb (is_numeric_dtype y_train) then
      encode y_train y_test
    else Ok (y_train, y_test, None).

(** [run], on the two frames that [_read_csv] returns for the validated
    train and test files. *)
Definition run (train_df test_df : DataFrame) : result Persisted :=
  try_wrap (
    if negb (mem TARGET_COLUMN (columns train_df))
       || negb (mem TARGET_COLUMN (columns test_df))
    then Raise missing_target_column
    else
      y_train <- getitem train_df TARGET_COLUMN ;;
      y_test <- getitem test_df TARGET_COLUMN ;;
      let '(y_train, y_test) := normalize_labels y_train y_test in
      let X_train := drop train_df TARGET_COLUMN in
      let X_test := drop test_df TARGET_COLUMN in
      preprocessor <- _build_transformer X_train ;;
      '(y_train, y_test, y_encoder) <- encode_target y_train y_test ;;
      preprocessor_fitted <- fit K preprocessor X_train ;;
      X_train_t <- transform K preprocessor_fitted X_train ;;
      X_test_t <- transform K preprocessor_fitted X_test ;;
      Ok {| preprocessor_fitted := preprocessor_fitted;
            train_arr := (X_train_t, y_train);
            test_arr := (X_test_t, y_test);
            y_encoder := y_encoder |}).

End Component.

End DataTransformation.

(* ===================================================================== *)
(** * The DAG: [ml_data_pipeline]                                         *)
(* ===================================================================== *)

Module EtlPipeline.
Import Pandas Sklearn DataTransformation.

(** The values that the tasks exchange: paths, flags and [None]. *)
Inductive value :=
  | VStr (s : string)
  | VBool (b : bool)
  | VNone.

(** [bool(v)] *)
Definition truth (v : value) : bool :=
  match v with
  | VStr s => negb (String.eqb s "")
  | VBool b => b
  | VNone => false
  end.

(** A dict with text keys, as a task returns it and as [xcom_pull] hands
    it to the next task. *)
Definition dict := list (string * value).

Inductive task_error :=
  | DictKeyError (key : string)          (* d[key] on an absent key *)
  | AttributeError (attribute : string)  (* an attribute that the object lacks *)
  | CallTypeError (attribute : string)   (* a call without the arguments, or of a non-callable *)
  | ComponentError (e : exn).            (* what a component raises *)

Inductive outcome (A : Type) :=
  | Returned (a : A)
  | Failed (e : task_error).
Arguments Returned {A} a.
Arguments Failed {A} e.

Definition and_then {A B} (m : outcome A) (k : A -> outcome B) : outcome B :=
  match m with
  | Returned a => k a
  | Failed e => Failed e
  end.

Definition of_result {A} (m : result A) : outcome A :=
  match m with
  | Ok a => Returned a
  | Raise e => Failed (ComponentError e)
  end.

(** [d[key]] *)
Definition dict_getitem (d : dict) (key : string) : outcome value :=
  match find (fun kv => String.eqb (fst kv) key) d with
  | Some kv => Returned (snd kv)
  | None => Failed (DictKeyError key)
  end.

(** [d.get(key, default)] *)
Definition dict_get (d : dict) (key : string) (default : value) : value :=
  match find (fun kv => String.eqb (fst kv) key) d with
  | Some kv => snd kv
  | None => default
  end.

(** Modelled from the spec: the artifact and configuration records of
    [networksecurity.entity], which are defined outside the three source
    files; the fields are those of the design's external interfaces and of
    the call sites. *)
Record DataIngestionArtifact := {
  trained_file_path : value;
  test_file_path : value
}.

Record DataValidationArtifact := {
  validation_status : value;
  valid_train_file_path : value;
  valid_test_file_path : value;
  invalid_train_file_path : value;
  invalid_test_file_path : value;
  drift_report_file_path : value
}.

Record DataTransformationConfig := {
  cfg_transformed_object_file_path : value;
  cfg_transformed_train_file_path : value;
  cfg_transformed_test_file_path : value
}.

Record DataTransformationArtifact := {
  transformed_object_file_path : value;
  transformed_train_file_path : value;
  transformed_test_file_path : value
}.

(** What the class [DataTransformation] defines, and the two attributes
    that [__init__] sets.  The names that every object inherits are left
    out. *)
Inductive attribute :=
  | attr_init
  | attr_read_csv
  | attr_is_binary_or_numeric_target
  | attr_build_transformer
  | attr_run
  | attr_val
  | attr_cfg.

Definition DataTransformation_attributes : list (string * attribute) :=
  [("__init__", attr_init);
   ("_read_csv", attr_read_csv);
   ("_is_binary_or_numeric_target", attr_is_binary_or_numeric_target);
   ("_build_transformer", attr_build_transformer);
   ("run", attr_run);
   ("val", attr_val);
   ("cfg", attr_cfg)].

(** [getattr(transformer, name)] *)
Definition getattr (name : string) : outcome attribute :=
  match find (fun na => String.eqb (fst na) name) DataTransformation_attributes with
  | Some na => Returned (snd na)
  | None => Failed (AttributeError name)
  end.

Section Dag.

(** The constants and kernels of the component; what [pd.read_csv]
    returns for a path; and the stages that lie outside the source files:
    the outcome of the ingestion component, of the validation component on
    an ingestion artifact, and of building the transformation
    configuration. *)
Variable TARGET_COLUMN : string.
Variable DATA_TRANSFORMATION_IMPUTER_PARAMS : knn_params.
Variable K : Kernels.
Variable read_csv : value -> result DataFrame.
Variable initiate_data_ingestion : result DataIngestionArtifact.
Variable initiate_data_validation : DataIngestionArtifact -> result DataValidationArtifact.
Variable DataTransformationConfig_ : result DataTransformationConfig.

(** [DataTransformation._read_csv] *)
Definition _read_csv (path : value) : result DataFrame :=
  try_wrap (read_csv path).

(** [DataTransformation.run] on an instance: the two reads, the run on
    the frames, and the artifact with the three configured paths. *)
Definition run_component (val : DataValidationArtifact) (cfg : DataTransformationConfig)
  : result DataTransformationArtifact :=
  match _read_csv (valid_train_file_path val) with
  | Raise e => Raise (NetworkSecurityException e)
  | Ok train_df =>
      match _read_csv (valid_test_file_path val) with
      | Raise e => Raise (NetworkSecurityException e)
      | Ok test_df =>
          _ <- run TARGET_COLUMN DATA_TRANSFORMATION_IMPUTER_PARAMS K train_df test_df ;;
          Ok {| transformed_object_file_path := cfg_transformed_object_file_path cfg;
                transformed_train_file_path := cfg_transformed_train_file_path cfg;
                transformed_test_file_path := cfg_transformed_test_file_path cfg |}
      end
  end.

(** [transformer.<attribute>()]: only [run] takes no argument besides
    the instance. *)
Definition call (name : string) (a : attribute)
           (val : DataValidationArtifact) (cfg : DataTransformationConfig)
  : outcome DataTransformationArtifact :=
  match a with
  | attr_run => of_result (run_component val cfg)
  | _ => Failed (CallTypeError name)
  end.

Definition run_data_ingestion : outcome dict :=
  and_then (of_result initiate_data_ingestion) (fun art =>
  Returned [("train_csv", trained_file_path art);
            ("test_csv", test_file_path art)]).

Definition run_data_validation (ingest : dict) : outcome dict :=
  and_then (dict_getitem ingest "train_csv") (fun train_csv =>
  and_then (dict_getitem ingest "test_csv") (fun test_csv =>
  let di_art := {| trained_file_path := train_csv; test_file_path := test_csv |} in
  and_then (of_result (initiate_data_validation di_art)) (fun dv_art =>
  Returned [("valid_train_csv", valid_train_file_path dv_art);
            ("valid_test_csv", valid_test_file_path dv_art);
            ("drift_report", drift_report_file_path dv_art);
            ("validation_status", VBool (truth (validation_status dv_art)))]))).

(** The artifact that [run_data_transformation] rebuilds from the dict of
    the validation task. *)
Definition rebuild_validation_artifact (val : dict) : outcome DataValidationArtifact :=
  let status := VBool (truth (dict_get val "validation_status" (VBool true))) in
  and_then (dict_getitem val "valid_train_csv") (fun valid_train =>
  and_then (dict_getitem val "valid_test_csv") (fun valid_test =>
  and_then (dict_getitem val "drift_report") (fun drift_report =>
  Returned {| validation_status := status;
              valid_train_file_path := valid_train;
              valid_test_file_path := valid_test;
              invalid_train_file_path := VNone;
              invalid_test_file_path := VNone;
              drift_report_file_path := drift_report |}))).

Definition run_data_transformation (val : dict) : outcome dict :=
  and_then (rebuild_validation_artifact val) (fun dv_art =>
  and_then (of_result DataTransformationConfig_) (fun dt_config =>
  and_then (getattr "initiate_data_transformation") (fun method =>
  and_then (call "initiate_data_transformation" method dv_art dt_config) (fun dt_art =>
  Returned [("transformed_train", transformed_train_file_path dt_art);
            ("transformed_test", transformed_test_file_path dt_art);
            ("preprocessor_pkl", transformed_object_file_path dt_art)])))).

(** [task_data_ingestion >> task_data_validation >> task_data_transformation]:
    a task runs when the one before it has returned, on the dict that it
    returned. *)
Definition ml_data_pipeline : outcome dict :=
  and_then run_data_ingestion (fun ingest =>
  and_then (run_data_validation ingest) (fun val =>
  run_data_transformation val)).

End Dag.

End EtlPipeline.

(* ===================================================================== *)
(** * Properties                                                          *)
(* ===================================================================== *)

Import Pandas Sklearn DataTransformation.
Import EtlPipeline.

(** ** Vocabulary of the statements *)

(** *** The column profile *)

(** The value of a fallible test, [false] when it raises. *)
Definition holds {A} (p : A -> result bool) (x : A) : bool :=
  match p x with
  | Ok b => b
  | Raise _ => false
  end.

(** The two selections at the head of [_build_transformer]. *)
Definition obj_cols (X : DataFrame) : list string :=
  columns (select_dtypes [sel_object; sel_category] X).

Definition num_cols (X : DataFrame) : list string :=
  columns (select_dtypes [sel_number; sel_bool] X).

(** The dtypes of a feature frame: text or categorical, fixed point,
    floating point, boolean.  [pd.read_csv], through which every frame of
    [run] arrives, infers no other dtype. *)
Definition feature_dtype (d : dtype) : bool :=
  match d with
  | int64 | float64_ | bool_ | object_ | category => true
  | datetime64 => false
  end.

(** A feature frame: the column labels are distinct ([pd.read_csv] renames
    a repeated label) and every column has a feature dtype. *)
Definition feature_frame (X : DataFrame) : Prop :=
  NoDup (columns X) /\ Forall (fun p => feature_dtype (dtype_of (snd p)) = true) X.

Definition disjoint (a b : list string) : Prop :=
  forall c, In c a -> ~ In c b.

(** The sample skewness of the non-missing values of a numeric column. *)
Definition sample_skewness (s : Series) : skewness :=
  match as_float (dropna s) with
  | Some v => nanskew v
  | None => SkewNaN
  end.

(** The statistic of [nanskew] over the reals, for [m2 > 0]:
    [(count * (count - 1) ** 0.5 / (count - 2)) * (m3 / m2 ** 1.5)]. *)
Definition skew_real (count m2 m3 : R) : R :=
  (count * sqrt (count - 1) / (count - 2) * (m3 / (m2 * sqrt m2)))%R.

(** *** Errors, pipelines and labels *)

(** The error kinds of the design's taxonomy, read off the cause that the
    component wraps. *)
Definition NoFeatureColumnsError (e : exn) : Prop :=
  root_cause e = Message "No valid feature columns found for transformation.".

Definition UnseenLabelError (e : exn) : Prop :=
  root_cause e = LibraryError ValueError_unseen_labels.

(** A numeric sub-pipeline that imputes and then standard-scales. *)
Definition imputes_and_scales (steps : list (string * estimator)) : Prop :=
  (In SimpleImputer_mean (map snd steps) \/
   exists params, In (KNNImputer params) (map snd steps)) /\
  In StandardScaler (map snd steps).

(** The remap of one label cell in the words of the design: the sentinel
    -1 becomes 0 and every other value is kept. *)
Definition remap_cell (x : float64) : float64 :=
  match x with
  | Fin q => if Qeq_bool q (-1) then Fin 0 else x
  | _ => x
  end.

(** Lexicographic order on text, and on labels with the missing label
    last. *)
Definition string_lt (a b : string) : Prop := String.compare a b = Lt.

Definition label_lt (a b : option string) : Prop :=
  match a, b with
  | Some x, Some y => string_lt x y
  | Some _, None => True
  | None, _ => False
  end.

(** Every label of the test column occurs in the training column, and its
    negation.  Labels of columns of different kinds (numbers against text,
    timestamps against text) are never equal. *)
Definition all_labels_seen (y_train y_test : Series) : Prop :=
  match as_object y_train, as_object y_test with
  | Some l, Some w =>
      if same_kind y_train y_test then forall v, In v w -> In v l
      else size y_test = 0%nat
  | _, _ => size y_test = 0%nat
  end.

Definition some_label_unseen (y_train y_test : Series) : Prop :=
  match as_object y_train, as_object y_test with
  | Some l, Some w =>
      if same_kind y_train y_test then exists v, In v w /\ ~ In v l
      else size y_test <> 0%nat
  | _, _ => size y_test <> 0%nat
  end.

(** *** Shapes of the transformed arrays *)

(** The number of columns that a mask keeps. *)
Definition count_true (mask : list bool) : nat :=
  List.length (filter (fun b => b) mask).

(** No cell of an array is missing. *)
Definition no_missing (M : matrix) : Prop :=
  Forall (Forall (fun x => isnan x = false)) M.

(** The width of the one-hot part: the fit-time category counts of the
    categorical columns, summed. *)
Definition onehot_width (fct : FittedColumnTransformer) : nat :=
  list_sum
    (flat_map (fun t =>
                 match snd (fst t) with
                 | Categorical_ f => map (@List.length string) (categories_ f)
                 | Numeric_ _ => []
                 end) fct).

(** The number of columns that a fitted step returns. *)
Definition out_width (f : fitted_estimator) : nat :=
  match f with
  | KNNImputer_ _ fit_X => count_true (map (fun c => negb (all_missing c)) fit_X)
  | SimpleImputer_ statistics => count_true (map (fun s => negb (isnan s)) statistics)
  | PowerTransformer_ fit_columns => List.length fit_columns
  | StandardScaler_ fit_columns => List.length fit_columns
  end.

(** A numeric column of the frame with at least one non-missing value. *)
Definition observed (X : DataFrame) (c : string) : bool :=
  match getitem X c with
  | Ok s =>
      match as_float s with
      | Some v => negb (all_missing v)
      | None => false
      end
  | Raise _ => false
  end.

Definition observed_numeric_columns (X : DataFrame) : list string :=
  filter (observed X) (num_cols X).

(** What the categorical sub-pipeline computes on a block of text columns:
    the columns that have a fit-time statistic, their missing cells filled
    with it; then the indicator columns of the fit-time categories. *)
Definition imputed (statistics : list (option string)) (X : list (list (option string)))
  : text_matrix :=
  keep (map is_some statistics)
       (map (fun sc => fill (fst sc) (snd sc)) (combine statistics X)).

Definition onehot_blocks (categories : list (list string)) (Xt : text_matrix) : matrix :=
  flat_map (fun kc => onehot_column (fst kc) (snd kc)) (combine categories Xt).

(** The expected width of the block of a fitted transformer, and the
    numeric columns that a fitted transformation names. *)
Definition block_width (X : DataFrame) (ft : string * fitted_pipeline * list string) : nat :=
  match snd (fst ft) with
  | Numeric_ _ => List.length (filter (observed X) (snd ft))
  | Categorical_ f => list_sum (map (@List.length string) (categories_ f))
  end.

Definition numeric_columns (fct : FittedColumnTransformer) : list string :=
  flat_map (fun ft =>
              match snd (fst ft) with
              | Numeric_ _ => snd ft
              | Categorical_ _ => []
              end) fct.

(** The sub-pipelines that [_build_transformer] uses. *)
Definition built_pipeline (params : knn_params) (p : Pipeline) : Prop :=
  p = numeric_skewed \/ p = numeric_knn params \/ p = categorical.

(** A fitted transformer is the fit of a transformer on [X]. *)
Definition fitted_from (K : Kernels) (X : DataFrame)
           (t : string * Pipeline * list string)
           (ft : string * fitted_pipeline * list string) : Prop :=
  fst (fst ft) = fst (fst t) /\ snd ft = snd t /\
  fit_pipeline K (snd (fst t)) X (snd t)
  = Ok (snd (fst ft)).

(** The columns of a text block that have a fit-time statistic, each with
    that statistic; and the output of the categorical sub-pipeline written
    column by column: for every such column, the indicators of its
    fit-time categories on the column with its missing cells filled. *)
Fixpoint kept_columns (statistics : list (option string))
         (X : list (list (option string))) : list (string * list (option string)) :=
  match statistics, X with
  | Some m :: st, col :: t => (m, col) :: kept_columns st t
  | None :: st, _ :: t => kept_columns st t
  | _, _ => []
  end.

Definition categorical_output (f : fitted_categorical)
           (X : list (list (option string))) : matrix :=
  flat_map (fun kc => onehot_column (fst kc) (fill (Some (fst (snd kc))) (snd (snd kc))))
           (combine (categories_ f) (kept_columns (statistics_ f) X)).

(** *** Failures of a run *)

(** The third error kind of the design's taxonomy, and a failure whose
    cause is an error of pandas, numpy or scikit-learn. *)
Definition MissingTargetColumnError (TARGET_COLUMN : string) (e : exn) : Prop :=
  root_cause e = Message ("Missing target column '" ++ TARGET_COLUMN ++ "' in input files.").

Definition LibraryFailure (e : exn) : Prop :=
  exists cause, root_cause e = LibraryError cause.

(** A computation that raises nothing but library errors. *)
Definition raises_library {A} (m : result A) : Prop :=
  forall e, m = Raise e -> exists cause, e = LibraryError cause.

(** *** Samples, rows and codes *)


(** A frame all of whose columns have [n] rows, and an array all of whose
    columns have [n] entries. *)
Definition rectangular (n : nat) (X : DataFrame) : Prop :=
  forall c s, In (c, s) X -> size s = n.

Definition rows (n : nat) (M : matrix) : Prop :=
  Forall (fun col => List.length col = n) M.

(** The row [i] of a block of columns. *)
Definition row (i : nat) (M : matrix) : list (option float64) :=
  map (fun col => nth_error col i) M.

(** A row of [n] zeros. *)
Definition zeros (n : nat) : list (option float64) := repeat (Some (Fin 0)) n.

(** [classes_[code]]: what [LabelEncoder.inverse_transform] reads. *)
Definition decode (classes : list (option string)) (code : Z) : option (option string) :=
  if (code <? 0)%Z then None else nth_error classes (Z.to_nat code).

(** *** Sample data *)

(** A frame as [pd.read_csv] returns it: an integer, a float (with a
    missing cell), a boolean and a text column. *)
Definition sample_frame : DataFrame :=
  [("url_length", IntSeries [12; 15; 11; 14; 13; 90]%Z);
   ("ratio", FloatSeries [Fin (1 # 2); NaN; Fin (3 # 2); Fin 1; Fin (3 # 4); Fin 1]);
   ("has_ip", BoolSeries [true; false; false; true; false; false]);
   ("protocol",
    ObjectSeries [Some "http"; Some "https"; None; Some "https"; Some "ftp"; Some "https"])].

Definition sample_params : knn_params := {| n_neighbors := 3; weights := "uniform" |}.

(** Kernels for the examples: the imputed value is 0, the two rescalings
    leave a value as it is. *)
Definition sample_kernels : Kernels :=
  {| knn_value := fun _ _ _ _ _ => 0;
     yeo_johnson := fun _ x => x;
     standard_score := fun _ x => x |}.

(** A frame whose first column is empty in the file: [pd.read_csv] reads it
    as a float column of missing cells. *)
Definition sparse_frame : DataFrame :=
  [("empty", FloatSeries [NaN; NaN; NaN]);
   ("size", IntSeries [1; 2; 3]%Z);
   ("kind", ObjectSeries [Some "x"; Some "y"; Some "x"])].

(** Train and test files for the examples: the features of [sample_frame]
    with a numeric label, two test files, and the same with a text label. *)
Definition sample_train : DataFrame :=
  sample_frame ++ [("Result", IntSeries [-1; 1; 1; -1; 1; -1]%Z)].

Definition sample_test_features : DataFrame :=
  [("url_length", IntSeries [20; 30]%Z);
   ("ratio", FloatSeries [NaN; Fin 2]);
   ("has_ip", BoolSeries [true; false]);
   ("protocol", ObjectSeries [Some "gopher"; Some "http"])].

Definition sample_test : DataFrame :=
  sample_test_features ++ [("Result", IntSeries [1; -1]%Z)].

Definition sample_test_other : DataFrame :=
  [("url_length", IntSeries [7; 8; 9]%Z);
   ("ratio", FloatSeries [Fin 3; Fin 4; NaN]);
   ("has_ip", BoolSeries [false; false; true]);
   ("protocol", ObjectSeries [None; Some "ftp"; Some "ftp"]);
   ("Result", IntSeries [1; 1; 1]%Z)].

Definition text_labels : Series :=
  ObjectSeries [Some "phishing"; Some "benign"; Some "benign";
                Some "phishing"; Some "benign"; Some "phishing"].

Definition text_train : DataFrame := sample_frame ++ [("Result", text_labels)].

Definition text_test : DataFrame :=
  sample_test_features ++ [("Result", ObjectSeries [Some "benign"; Some "suspicious"])].

(** The transformation built for [sample_frame]. *)
Definition sample_transformer : ColumnTransformer :=
  {| transformers :=
       [("num_skewed", numeric_skewed, ["url_length"]);
        ("num_regular", numeric_knn sample_params, ["ratio"; "has_ip"]);
        ("cat", categorical, ["protocol"])];
     remainder := "drop";
     sparse_threshold := 1 |}.

(** A test file whose labels all occur in [text_train]; a training file
    with an infinite rate; the artifacts of an ingestion and of a
    validation. *)
Definition text_test_seen : DataFrame :=
  sample_test_features ++ [("Result", ObjectSeries [Some "benign"; Some "phishing"])].

Definition infinite_train : DataFrame :=
  [("rate", FloatSeries [Fin 1; PInf; Fin 2; Fin 50]);
   ("Result", IntSeries [1; -1; 1; -1]%Z)].

Definition sample_ingestion_artifact : DataIngestionArtifact :=
  {| trained_file_path := VStr "Artifacts/data_ingestion/ingested/train.csv";
     test_file_path := VStr "Artifacts/data_ingestion/ingested/test.csv" |}.

Definition sample_validation_artifact : DataValidationArtifact :=
  {| validation_status := VBool false;
     valid_train_file_path := VStr "Artifacts/data_validation/validated/train.csv";
     valid_test_file_path := VStr "Artifacts/data_validation/validated/test.csv";
     invalid_train_file_path := VStr "Artifacts/data_validation/invalid/train.csv";
     invalid_test_file_path := VNone;
     drift_report_file_path := VStr "Artifacts/data_validation/drift_report/report.yaml" |}.

(** *** Tactics *)

(** Inversion of a [bind] that returned. *)
Ltac bind_inv H :=
  match type of H with
  | bind ?m _ = Ok _ =>
      let E := fresh "E" in
      destruct m eqn:E; [cbn [bind] in H | discriminate H]
  end.

(** ** The error monad and list helpers *)

Lemma mem_In (c : string) (l : list string) : mem c l = true <-> In c l.
Proof.
  unfold mem. rewrite existsb_exists. split.
  - intros [x [Hx Heq]]. apply String.eqb_eq in Heq. now subst.
  - intros H. exists c. split; [assumption | apply String.eqb_refl].
Qed.

Lemma mem_false (c : string) (l : list string) : mem c l = false <-> ~ In c l.
Proof.
  rewrite <- mem_In. destruct (mem c l); split; intro H; congruence.
Qed.

Lemma filterM_ok {A} (p : A -> result bool) (l : list A) :
  (forall x, In x l -> exists b, p x = Ok b) ->
  filterM p l = Ok (filter (holds p) l).
Proof.
  induction l as [| x t IH]; intros Hall; simpl.
  - reflexivity.
  - destruct (Hall x (or_introl eq_refl)) as [b Hb].
    unfold holds at 1. rewrite Hb. simpl.
    rewrite IH by (intros y Hy; apply Hall; now right).
    simpl. reflexivity.
Qed.

Lemma mapM_ok_length {A B} (f : A -> result B) (l : list A) (r : list B) :
  mapM f l = Ok r -> List.length r = List.length l.
Proof.
  revert r. induction l as [| x t IH]; intros r H; simpl in H.
  - now inversion H.
  - destruct (f x); simpl in H; [| discriminate].
    destruct (mapM f t); simpl in H; [| discriminate].
    inversion H; subst. simpl. f_equal. now apply IH.
Qed.

(** ** Frames *)

Lemma in_columns (X : DataFrame) (c : string) :
  In c (columns X) <-> exists s, In (c, s) X.
Proof.
  unfold columns. rewrite in_map_iff. split.
  - intros [[c' s] [Heq Hin]]. simpl in Heq. subst. now exists s.
  - intros [s Hin]. now exists (c, s).
Qed.

Lemma in_select_dtypes (include : list selector) (X : DataFrame) (c : string) (s : Series) :
  In (c, s) (select_dtypes include X) <->
  In (c, s) X /\ existsb (fun sel => selects sel (dtype_of s)) include = true.
Proof. unfold select_dtypes. now rewrite filter_In. Qed.

Lemma NoDup_columns_filter (f : string * Series -> bool) (X : DataFrame) :
  NoDup (columns X) -> NoDup (columns (filter f X)).
Proof.
  unfold columns. induction X as [| [c s] t IH]; simpl; intros H.
  - constructor.
  - inversion H as [| ? ? Hnotin Hnd]; subst.
    destruct (f (c, s)); simpl; [constructor |]; auto.
    intros Hin. apply Hnotin.
    apply in_map_iff in Hin. destruct Hin as [p [Hp Hin]].
    apply filter_In in Hin. apply in_map_iff. exists p. tauto.
Qed.

Lemma NoDup_columns_unique (X : DataFrame) (c : string) (s s' : Series) :
  NoDup (columns X) -> In (c, s) X -> In (c, s') X -> s = s'.
Proof.
  unfold columns. induction X as [| [c0 s0] t IH]; simpl; intros Hnd H1 H2.
  - contradiction.
  - inversion Hnd as [| ? ? Hnotin Hnd']; subst.
    destruct H1 as [H1 | H1], H2 as [H2 | H2].
    + congruence.
    + inversion H1; subst. exfalso. apply Hnotin.
      apply in_map_iff. now exists (c, s').
    + inversion H2; subst. exfalso. apply Hnotin.
      apply in_map_iff. now exists (c, s).
    + now apply IH.
Qed.

Lemma getitem_NoDup (X : DataFrame) (c : string) (s : Series) :
  NoDup (columns X) -> In (c, s) X -> getitem X c = Ok s.
Proof.
  unfold getitem, columns. induction X as [| [c0 s0] t IH]; simpl; intros Hnd Hin.
  - contradiction.
  - inversion Hnd as [| ? ? Hnotin Hnd']; subst.
    destruct Hin as [Heq | Hin].
    + inversion Heq; subst. rewrite String.eqb_refl.
      assert (Hnil : filter (fun p : string * Series => String.eqb (fst p) c) t = []).
      { clear - Hnotin. induction t as [| [c1 s1] t IH]; simpl; [reflexivity |].
        simpl in Hnotin. destruct (String.eqb_spec c1 c) as [-> | Hne].
        - exfalso. apply Hnotin. now left.
        - apply IH. intros H. apply Hnotin. now right. }
      now rewrite Hnil.
    + destruct (String.eqb_spec c0 c) as [-> | Hne].
      * exfalso. apply Hnotin. apply in_map_iff. now exists (c, s).
      * now apply IH.
Qed.

Lemma getitem_In (X : DataFrame) (c : string) (s : Series) :
  getitem X c = Ok s -> In (c, s) X.
Proof.
  unfold getitem. intros H.
  destruct (filter (fun p : string * Series => String.eqb (fst p) c) X)
    as [| [c0 s0] [| ? ?]] eqn:Hf; try discriminate.
  inversion H; subst.
  assert (Hin : In (c0, s) (filter (fun p : string * Series => String.eqb (fst p) c) X))
    by (rewrite Hf; now left).
  apply filter_In in Hin. destruct Hin as [Hin Heq]. simpl in Heq.
  apply String.eqb_eq in Heq. now subst.
Qed.

Lemma getitem_unique (X : DataFrame) (c : string) (s s' : Series) :
  getitem X c = Ok s -> In (c, s') X -> s' = s.
Proof.
  unfold getitem. intros H Hin.
  destruct (filter (fun p : string * Series => String.eqb (fst p) c) X)
    as [| [c0 s0] [| ? ?]] eqn:Hf; try discriminate.
  inversion H; subst.
  assert (Hin' : In (c, s') (filter (fun p : string * Series => String.eqb (fst p) c) X)).
  { apply filter_In. split; [assumption | apply String.eqb_refl]. }
  rewrite Hf in Hin'. destruct Hin' as [Heq | []]. congruence.
Qed.

Lemma filterM_inv {A} (p : A -> result bool) (l r : list A) :
  filterM p l = Ok r ->
  (forall x, In x l -> exists b, p x = Ok b) /\ r = filter (holds p) l.
Proof.
  revert r. induction l as [| x t IH]; intros r H; simpl in H.
  - inversion H. split; [intros ? [] | reflexivity].
  - destruct (p x) as [b |] eqn:Hb; simpl in H; [| discriminate].
    destruct (filterM p t) as [r' |] eqn:Hr; simpl in H; [| discriminate].
    destruct (IH r' eq_refl) as [Hall Heq]. inversion H; subst. split.
    + intros y [<- | Hy]; [now exists b | now apply Hall].
    + simpl. replace (holds p x) with b by (unfold holds; now rewrite Hb).
      reflexivity.
Qed.

(** ** The column profiler *)

Lemma in_num_cols (X : DataFrame) (c : string) :
  In c (num_cols X) <->
  exists s, In (c, s) X /\ is_numeric_dtype s = true.
Proof.
  unfold num_cols. rewrite in_columns. split.
  - intros [s Hs]. apply in_select_dtypes in Hs. destruct Hs as [Hin Hsel].
    exists s. split; [assumption |]. unfold is_numeric_dtype.
    destruct (dtype_of s); simpl in Hsel; congruence.
  - intros [s [Hin Hnum]]. exists s. apply in_select_dtypes. split; [assumption |].
    unfold is_numeric_dtype in Hnum. destruct (dtype_of s); simpl; congruence.
Qed.

Lemma in_obj_cols (X : DataFrame) (c : string) :
  In c (obj_cols X) <->
  exists s, In (c, s) X /\ (dtype_of s = object_ \/ dtype_of s = category).
Proof.
  unfold obj_cols. rewrite in_columns. split.
  - intros [s Hs]. apply in_select_dtypes in Hs. destruct Hs as [Hin Hsel].
    exists s. split; [assumption |].
    destruct (dtype_of s); simpl in Hsel; try discriminate; auto.
  - intros [s [Hin Hd]]. exists s. apply in_select_dtypes. split; [assumption |].
    destruct Hd as [-> | ->]; reflexivity.
Qed.

Lemma as_float_numeric (s : Series) :
  is_numeric_dtype s = true -> exists v, as_float s = Some v.
Proof. destruct s; simpl; intros H; try discriminate; eauto. Qed.

Lemma is_numeric_dropna (s : Series) :
  is_numeric_dtype (dropna s) = is_numeric_dtype s.
Proof. now destruct s. Qed.

Lemma is_skewed_defined (X : DataFrame) (c : string) (s : Series) :
  getitem X c = Ok s -> is_numeric_dtype s = true ->
  exists b, is_skewed X c = Ok b.
Proof.
  intros Hget Hnum. unfold is_skewed. rewrite Hget. simpl.
  unfold np_isfinite, skew.
  destruct (as_float_numeric s Hnum) as [v Hv].
  destruct (as_float_numeric (dropna s)) as [w Hw];
    [now rewrite is_numeric_dropna |].
  rewrite Hv, Hw.
  destruct s; simpl in *; try discriminate;
    match goal with |- context [if ?b then _ else _] => destruct b end; eauto.
Qed.

(** The three lists of a profile, without the monad. *)
Lemma profile_inv (X : DataFrame) (skewed regular objs : list string) :
  profile X = Ok (skewed, regular, objs) ->
  (forall c, In c (num_cols X) -> exists b, is_skewed X c = Ok b) /\
  skewed = filter (holds (is_skewed X)) (num_cols X) /\
  regular = filter (fun c => negb (mem c skewed)) (num_cols X) /\
  objs = obj_cols X.
Proof.
  unfold profile. fold (num_cols X). fold (obj_cols X). intros H.
  destruct (filterM (is_skewed X) (num_cols X)) as [sk |] eqn:Hf; simpl in H;
    [| discriminate].
  inversion H; subst. apply filterM_inv in Hf. tauto.
Qed.

Lemma profile_defined (X : DataFrame) :
  NoDup (columns X) ->
  exists skewed regular, profile X = Ok (skewed, regular, obj_cols X).
Proof.
  intros Hnd. unfold profile. fold (num_cols X). fold (obj_cols X).
  rewrite filterM_ok.
  - simpl. eauto.
  - intros c Hc. apply in_num_cols in Hc. destruct Hc as [s [Hin Hnum]].
    apply (is_skewed_defined X c s); [| assumption].
    now apply getitem_NoDup.
Qed.

Lemma filter_none {A} (f : A -> bool) (l : list A) :
  (forall x, In x l -> f x = false) -> filter f l = [].
Proof.
  induction l as [| x t IH]; simpl; intros H; [reflexivity |].
  rewrite (H x (or_introl eq_refl)). apply IH. intros y Hy. apply H. now right.
Qed.

Lemma num_obj_disjoint (X : DataFrame) :
  NoDup (columns X) -> disjoint (num_cols X) (obj_cols X).
Proof.
  intros Hnd c Hnum Hobj.
  apply in_num_cols in Hnum. destruct Hnum as [s [Hs Hn]].
  apply in_obj_cols in Hobj. destruct Hobj as [s' [Hs' Ho]].
  assert (s = s') by (eapply NoDup_columns_unique; eauto). subst s'.
  unfold is_numeric_dtype in Hn. destruct Ho as [Ho | Ho]; rewrite Ho in Hn; discriminate.
Qed.

Lemma feature_column_selected (X : DataFrame) (c : string) :
  Forall (fun p => feature_dtype (dtype_of (snd p)) = true) X ->
  In c (columns X) -> In c (num_cols X) \/ In c (obj_cols X).
Proof.
  intros Hall Hc. apply in_columns in Hc. destruct Hc as [s Hs].
  rewrite Forall_forall in Hall. specialize (Hall _ Hs). simpl in Hall.
  destruct (dtype_of s) eqn:Hd; try discriminate.
  - left. apply in_num_cols. exists s. unfold is_numeric_dtype. now rewrite Hd.
  - left. apply in_num_cols. exists s. unfold is_numeric_dtype. now rewrite Hd.
  - left. apply in_num_cols. exists s. unfold is_numeric_dtype. now rewrite Hd.
  - right. apply in_obj_cols. exists s. auto.
  - right. apply in_obj_cols. exists s. auto.
Qed.

Lemma num_cols_columns (X : DataFrame) (c : string) :
  In c (num_cols X) -> In c (columns X).
Proof.
  intros H. apply in_num_cols in H. destruct H as [s [Hs _]].
  apply in_columns. now exists s.
Qed.

Lemma obj_cols_columns (X : DataFrame) (c : string) :
  In c (obj_cols X) -> In c (columns X).
Proof.
  intros H. apply in_obj_cols in H. destruct H as [s [Hs _]].
  apply in_columns. now exists s.
Qed.

(** The transformers that [_build_transformer] assembles from a profile. *)
Lemma build_transformer_inv (params : knn_params) (X : DataFrame)
      (skewed regular objs : list string) (ct : ColumnTransformer) :
  profile X = Ok (skewed, regular, objs) ->
  _build_transformer params X = Ok ct ->
  transformers ct =
    (if nonempty skewed then [("num_skewed", numeric_skewed, skewed)] else [])
    ++ (if nonempty regular then [("num_regular", numeric_knn params, regular)] else [])
    ++ (if nonempty objs then [("cat", categorical, objs)] else []).
Proof.
  intros Hp Hb. unfold _build_transformer in Hb. rewrite Hp in Hb. simpl in Hb.
  match type of Hb with
  | try_wrap (if ?b then _ else _) = _ => destruct b; simpl in Hb
  end; [| discriminate].
  inversion Hb. reflexivity.
Qed.

Lemma in_group_named (params : knn_params) (X : DataFrame)
      (skewed regular objs : list string) (ct : ColumnTransformer) (c : string) :
  profile X = Ok (skewed, regular, objs) ->
  _build_transformer params X = Ok ct ->
  In c skewed \/ In c regular \/ In c objs ->
  existsb (fun t => mem c (snd t)) (transformers ct) = true.
Proof.
  intros Hp Hb Hc. rewrite (build_transformer_inv params X _ _ _ ct Hp Hb).
  rewrite !existsb_app.
  assert (Hne : forall l : list string, In c l -> nonempty l = true)
    by (intros [| ? ?] H; [contradiction | reflexivity]).
  destruct Hc as [Hc | [Hc | Hc]]; rewrite (Hne _ Hc); apply mem_In in Hc;
    cbn [existsb snd]; rewrite Hc; now rewrite ?orb_true_r.
Qed.

(** C1. Column profiling is exhaustive and disjoint: on a feature frame the
    profiler succeeds, the lists [skewed], [regular] and [obj_cols] are
    pairwise disjoint and without repetition, a column is in one of them
    exactly when it is a column of the frame, and the transformation built
    from them drops no column. *)
Theorem profile_partitions_columns (params : knn_params) (X : DataFrame) :
  feature_frame X ->
  exists skewed regular objs,
    profile X = Ok (skewed, regular, objs) /\
    (forall c, In c (columns X) <-> In c skewed \/ In c regular \/ In c objs) /\
    disjoint skewed regular /\ disjoint skewed objs /\ disjoint regular objs /\
    NoDup (skewed ++ regular ++ objs) /\
    (forall ct, _build_transformer params X = Ok ct -> dropped_columns ct X = []).
Proof.
  intros [Hnd Hall].
  destruct (profile_defined X Hnd) as [skewed [regular Hp]].
  exists skewed, regular, (obj_cols X). split; [exact Hp |].
  destruct (profile_inv X _ _ _ Hp) as [_ [Hsk [Hrg _]]].
  assert (Hsk_num : forall c, In c skewed -> In c (num_cols X)).
  { intros c Hc. rewrite Hsk in Hc. now apply filter_In in Hc. }
  assert (Hrg_num : forall c, In c regular -> In c (num_cols X)).
  { intros c Hc. rewrite Hrg in Hc. now apply filter_In in Hc. }
  assert (Hsr : disjoint skewed regular).
  { intros c Hs Hr. rewrite Hrg in Hr. apply filter_In in Hr.
    destruct Hr as [_ Hr]. apply mem_In in Hs. rewrite Hs in Hr. discriminate. }
  assert (Hso : disjoint skewed (obj_cols X)).
  { intros c Hs. apply (num_obj_disjoint X Hnd). auto. }
  assert (Hro : disjoint regular (obj_cols X)).
  { intros c Hr. apply (num_obj_disjoint X Hnd). auto. }
  assert (Hcover : forall c, In c (columns X) <->
                             In c skewed \/ In c regular \/ In c (obj_cols X)).
  { intros c. split.
    - intros Hc. destruct (feature_column_selected X c Hall Hc) as [Hn | Ho]; [| auto].
      destruct (mem c skewed) eqn:Hm.
      + left. now apply mem_In.
      + right. left. rewrite Hrg. apply filter_In. split; [assumption |].
        now rewrite Hm.
    - intros [Hc | [Hc | Hc]].
      + apply num_cols_columns. auto.
      + apply num_cols_columns. auto.
      + now apply obj_cols_columns. }
  assert (Hnd_num : NoDup (num_cols X)) by (now apply NoDup_columns_filter).
  assert (Hnd_obj : NoDup (obj_cols X)) by (now apply NoDup_columns_filter).
  repeat split; try assumption; try apply Hcover.
  - apply NoDup_app.
    + rewrite Hsk. now apply NoDup_filter.
    + apply NoDup_app; [rewrite Hrg; now apply NoDup_filter | assumption | exact Hro].
    + intros c Hs Hin. apply in_app_or in Hin. destruct Hin as [Hin | Hin].
      * exact (Hsr c Hs Hin).
      * exact (Hso c Hs Hin).
  - intros ct Hb. unfold dropped_columns. apply filter_none.
    intros c Hc. apply Hcover in Hc.
    now rewrite (in_group_named params X _ _ _ ct c Hp Hb Hc).
Qed.

Lemma sample_frame_is_feature_frame : feature_frame sample_frame.
Proof.
  split.
  - unfold sample_frame, columns. simpl.
    repeat constructor; simpl; intuition discriminate.
  - repeat constructor.
Qed.

Lemma profile_partitions_columns_witness :
  feature_frame sample_frame /\
  exists skewed regular objs,
    profile sample_frame = Ok (skewed, regular, objs) /\
    (forall c, In c (columns sample_frame) <->
               In c skewed \/ In c regular \/ In c objs) /\
    disjoint skewed regular /\ disjoint skewed objs /\ disjoint regular objs /\
    NoDup (skewed ++ regular ++ objs) /\
    (forall ct, _build_transformer sample_params sample_frame = Ok ct ->
                dropped_columns ct sample_frame = []).
Proof.
  split.
  - exact sample_frame_is_feature_frame.
  - exact (profile_partitions_columns sample_params sample_frame
             sample_frame_is_feature_frame).
Defined.

(** A timestamp column is selected by neither [select_dtypes] call: it is
    in no group, and [remainder="drop"] discards it.  Such a column cannot
    come out of [pd.read_csv] as [_read_csv] calls it. *)
Example datetime_column_is_dropped :
  let X := [("seen", DatetimeSeries [Some "2024-01-01"; None]);
            ("n", IntSeries [1; 2]%Z)] in
  profile X = Ok ([], ["n"], []) /\
  exists ct, _build_transformer sample_params X = Ok ct /\
             dropped_columns ct X = ["seen"].
Proof.
  split; [reflexivity |]. eexists. split; reflexivity.
Qed.

(** ** The skewness rule *)

Lemma existsb_map {A B} (f : A -> B) (p : B -> bool) (l : list A) :
  existsb p (map f l) = existsb (fun x => p (f x)) l.
Proof. induction l as [| x t IH]; simpl; [reflexivity | now rewrite IH]. Qed.

Lemma existsb_filter_false {A} (p f : A -> bool) (l : list A) :
  existsb p l = false -> existsb p (filter f l) = false.
Proof.
  induction l as [| x t IH]; simpl; [reflexivity |].
  intros H. apply orb_false_iff in H. destruct H as [Hx Ht].
  destruct (f x); simpl; [rewrite Hx |]; auto.
Qed.

Lemma finite_values_no_finite (v : list float64) :
  existsb isfinite v = false ->
  finite_values v = None \/ finite_values v = Some [].
Proof.
  induction v as [| x t IH]; simpl; intros H; [now right |].
  destruct x; simpl in H; try discriminate; auto.
Qed.

(** Without a finite value the skewness is NaN: the guard
    [np.isfinite(X[c]).any()] never decides the comparison. *)
Lemma nanskew_no_finite (v : list float64) :
  existsb isfinite v = false -> nanskew v = SkewNaN.
Proof.
  intros H. unfold nanskew.
  destruct (finite_values_no_finite v H) as [-> | ->]; reflexivity.
Qed.

Lemma filter_map_true {A B} (f : A -> B) (p : B -> bool) (l : list A) :
  (forall x, p (f x) = true) -> filter p (map f l) = map f l.
Proof.
  intros H. induction l as [| x t IH]; simpl; [reflexivity |].
  now rewrite H, IH.
Qed.

Lemma as_float_dropna (s : Series) (v : list float64) :
  as_float s = Some v ->
  as_float (dropna s) = Some (filter (fun x => negb (isnan x)) v).
Proof.
  destruct s; simpl; intros H; inversion H; subst; try reflexivity.
  - now rewrite filter_map_true.
  - rewrite filter_map_true; [reflexivity | now intros []].
Qed.

Lemma is_skewed_rule (X : DataFrame) (c : string) (s : Series) :
  getitem X c = Ok s -> is_numeric_dtype s = true ->
  is_skewed X c = Ok (gt (abs (sample_skewness s)) skew_threshold).
Proof.
  intros Hget Hnum. unfold is_skewed, sample_skewness. rewrite Hget. simpl.
  destruct (as_float_numeric s Hnum) as [v Hv].
  assert (Hfin : np_isfinite s = Ok (map isfinite v)).
  { unfold np_isfinite. rewrite Hv. destruct s; simpl in *; try reflexivity; discriminate. }
  rewrite Hfin. simpl. unfold skew. rewrite (as_float_dropna s v Hv).
  unfold any. rewrite existsb_map.
  destruct (existsb (fun x => isfinite x) v) eqn:Hany; simpl; [reflexivity |].
  rewrite nanskew_no_finite; [reflexivity |].
  now apply existsb_filter_false.
Qed.

(** A column with an infinite value has a finite value too, so the guard
    lets it through; its skewness is NaN and it is regular. *)
Example infinite_value_is_regular :
  profile [("rate", FloatSeries [Fin 1; PInf; Fin 2; Fin 50])] = Ok ([], ["rate"], []) /\
  sample_skewness (FloatSeries [Fin 1; PInf; Fin 2; Fin 50]) = SkewNaN.
Proof. split; reflexivity. Qed.



(** *** The exact representation of the statistic

    [nanskew] keeps the statistic as a sign and a square.  The comparison
    of its magnitude with a threshold is the comparison of the real
    number that pandas computes. *)

Lemma finite_values_map_Fin (xs : list Q) : finite_values (map Fin xs) = Some xs.
Proof. induction xs as [| x t IH]; simpl; [reflexivity | now rewrite IH]. Qed.

Lemma Qsum_squares_nonneg (l : list Q) : (0 <= Qsum (map (fun a => a * a) l))%Q.
Proof.
  unfold Qsum. induction l as [| a t IH]; simpl; [apply Qle_refl |].
  assert (0 <= a * a)%Q by Lqa.nra. Lqa.lra.
Qed.

Lemma zero_out_fperr_nonneg (x : Q) : (0 <= x)%Q -> (0 <= zero_out_fperr x)%Q.
Proof. intros H. unfold zero_out_fperr. destruct (Qlt_bool _ _); [apply Qle_refl | exact H]. Qed.

Lemma moments_m2_nonneg (xs : list Q) : (0 <= fst (moments xs))%Q.
Proof. unfold moments. simpl. apply zero_out_fperr_nonneg, Qsum_squares_nonneg. Qed.

Lemma Qlt_bool_iff (a b : Q) : Qlt_bool a b = true <-> (a < b)%Q.
Proof.
  unfold Qlt_bool. rewrite negb_true_iff. split.
  - intros H. apply Qnot_le_lt. intros Hle. apply Qle_bool_iff in Hle. congruence.
  - intros H. destruct (Qle_bool b a) eqn:E; [| reflexivity].
    apply Qle_bool_iff in E. exfalso. now apply (Qlt_not_le a b).
Qed.

Lemma Q2R_inject_Z (z : Z) : Q2R (inject_Z z) = IZR z.
Proof. unfold Q2R. simpl. Lra.lra. Qed.

Lemma skew_real_square (n m2 m3 : R) :
  (2 < n)%R -> (0 < m2)%R ->
  (skew_real n m2 m3 * skew_real n m2 m3
   = n * n * (n - 1) / ((n - 2) * (n - 2)) * (m3 * m3 / (m2 * m2 * m2)))%R.
Proof.
  intros Hn Hm. unfold skew_real.
  assert (H1 : (sqrt (n - 1) * sqrt (n - 1) = n - 1)%R) by (apply sqrt_sqrt; Lra.lra).
  assert (H2 : (sqrt m2 * sqrt m2 = m2)%R) by (apply sqrt_sqrt; Lra.lra).
  assert (H3 : (0 < sqrt m2)%R) by (now apply sqrt_lt_R0).
  set (a := sqrt (n - 1)) in *. set (b := sqrt m2) in *.
  replace (n * a / (n - 2) * (m3 / (m2 * b)) * (n * a / (n - 2) * (m3 / (m2 * b))))%R
    with (n * n * (a * a) / ((n - 2) * (n - 2)) * (m3 * m3 / (m2 * m2 * (b * b))))%R
    by (field; repeat split; Lra.lra).
  now rewrite H1, H2.
Qed.

Lemma square_lt_abs (a g : R) : (0 <= a)%R -> ((a * a < g * g)%R <-> (a < Rabs g)%R).
Proof.
  intros Ha. unfold Rabs. destruct (Rcase_abs g); split; intros H; Lra.nra.
Qed.

(** On at least three finite values with a non-zero second moment, the
    magnitude of the modelled skewness exceeds [t] exactly when the
    magnitude of the real statistic does. *)
Lemma nanskew_is_sample_skewness (xs : list Q) (t : Q) :
  (3 <= List.length xs)%nat ->
  ~ (fst (moments xs) == 0)%Q ->
  (0 <= t)%Q ->
  (gt (abs (nanskew (map Fin xs))) t = true <->
   (Q2R t < Rabs (skew_real (IZR (Z.of_nat (List.length xs)))
                            (Q2R (fst (moments xs)))
                            (Q2R (snd (moments xs)))))%R).
Proof.
  intros Hlen Hm2 Ht. unfold nanskew. rewrite finite_values_map_Fin.
  destruct (Nat.ltb_spec (List.length xs) 3) as [Hlt | _]; [lia |].
  destruct (Qeq_bool (fst (moments xs)) 0) eqn:Hz;
    [apply Qeq_bool_iff in Hz; contradiction |].
  clear Hz.
  pose proof (moments_m2_nonneg xs) as Hnn.
  set (m2 := fst (moments xs)) in *. set (m3 := snd (moments xs)) in *.
  set (n := inject_Z (Z.of_nat (List.length xs))).
  assert (Hn : (3 <= n)%Q).
  { unfold n. rewrite <- (Zle_Qle 3). lia. }
  assert (Hm2pos : (0 < m2)%Q).
  { apply Qle_lt_or_eq in Hnn. destruct Hnn as [H | H]; [exact H |].
    exfalso. apply Hm2. now symmetry. }
  assert (HnR : Q2R n = IZR (Z.of_nat (List.length xs))) by apply Q2R_inject_Z.
  assert (Hn2 : (2 < Q2R n)%R).
  { apply Rlt_le_trans with (Q2R 3).
    - unfold Q2R. simpl. Lra.lra.
    - now apply Qle_Rle. }
  assert (Hm2R : (0 < Q2R m2)%R).
  { replace 0%R with (Q2R 0) by (unfold Q2R; simpl; Lra.lra). now apply Qlt_Rlt. }
  assert (HtR : (0 <= Q2R t)%R).
  { replace 0%R with (Q2R 0) by (unfold Q2R; simpl; Lra.lra). now apply Qle_Rle. }
  assert (Hsq : Q2R ((n * n * (n - 1) / ((n - 2) * (n - 2)))
                     * ((m3 * m3) / (m2 * m2 * m2)))
                = (skew_real (Q2R n) (Q2R m2) (Q2R m3)
                   * skew_real (Q2R n) (Q2R m2) (Q2R m3))%R).
  { rewrite (skew_real_square _ _ _ Hn2 Hm2R).
    rewrite Q2R_mult, !Q2R_div, !Q2R_mult, !Q2R_minus.
    - replace (Q2R 1) with 1%R by (unfold Q2R; simpl; Lra.lra).
      replace (Q2R 2) with 2%R by (unfold Q2R; simpl; Lra.lra).
      reflexivity.
    - intros H. assert (H0 : (0 < m2 * m2 * m2)%Q)
        by (repeat apply Qmult_lt_0_compat; assumption).
      rewrite H in H0. now apply (Qlt_irrefl 0).
    - intros H. assert (H0 : (0 < (n - 2) * (n - 2))%Q)
        by (apply Qmult_lt_0_compat; Lqa.lra).
      rewrite H in H0. now apply (Qlt_irrefl 0). }
  rewrite <- HnR.
  unfold Qsign. destruct (m3 ?= 0)%Q eqn:Hs; cbn [abs gt].
  - apply Qeq_alt in Hs.
    assert (H0 : Q2R m3 = 0%R).
    { rewrite (Qeq_eqR _ _ Hs). unfold Q2R. simpl. Lra.lra. }
    split; [discriminate |].
    unfold skew_real. rewrite H0.
    replace (Q2R n * sqrt (Q2R n - 1) / (Q2R n - 2) * (0 / (Q2R m2 * sqrt (Q2R m2))))%R
      with 0%R.
    + rewrite Rabs_R0. Lra.lra.
    + unfold Rdiv. now rewrite Rmult_0_l, Rmult_0_r.
  - rewrite Qlt_bool_iff, <- square_lt_abs, <- Hsq, <- Q2R_mult by assumption.
    split; [apply Qlt_Rlt | apply Rlt_Qlt].
  - rewrite Qlt_bool_iff, <- square_lt_abs, <- Hsq, <- Q2R_mult by assumption.
    split; [apply Qlt_Rlt | apply Rlt_Qlt].
Qed.

(** ** Building the transformation *)

(** C9. Zero usable feature columns is a hard error: when the three groups
    of the profile are empty, [_build_transformer] raises the exception
    whose cause is the message "No valid feature columns found for
    transformation."; when one group is non-empty it returns a
    transformation. *)
Theorem empty_profile_raises (params : knn_params) (X : DataFrame)
        (skewed regular objs : list string) :
  profile X = Ok (skewed, regular, objs) ->
  (skewed = [] /\ regular = [] /\ objs = [] ->
   exists e, _build_transformer params X = Raise e /\ NoFeatureColumnsError e) /\
  (skewed <> [] \/ regular <> [] \/ objs <> [] ->
   exists ct, _build_transformer params X = Ok ct).
Proof.
  intros Hp. unfold _build_transformer. rewrite Hp. simpl. split.
  - intros [-> [-> ->]]. simpl. eexists. split; reflexivity.
  - intros H.
    destruct skewed as [| a ?]; [destruct regular as [| b ?];
                                 [destruct objs as [| d ?] |] |];
      simpl; eauto.
    destruct H as [H | [H | H]]; now elim H.
Qed.

Lemma empty_profile_raises_witness :
  profile [] = Ok ([], [], []) /\
  ((@nil string = [] /\ @nil string = [] /\ @nil string = [] ->
    exists e, _build_transformer sample_params [] = Raise e /\ NoFeatureColumnsError e) /\
   (@nil string <> [] \/ @nil string <> [] \/ @nil string <> [] ->
    exists ct, _build_transformer sample_params [] = Ok ct)).
Proof.
  split.
  - reflexivity.
  - exact (empty_profile_raises sample_params [] [] [] [] eq_refl).
Defined.

(** C10. A boolean column is numeric: it is in [skewed] or in [regular],
    never in [obj_cols]; in the transformation it belongs to a numeric
    sub-pipeline that imputes and standard-scales, and to no categorical
    one. *)
Theorem bool_column_is_numeric (params : knn_params) (X : DataFrame)
        (skewed regular objs : list string) (c : string) (v : list bool) :
  profile X = Ok (skewed, regular, objs) ->
  In (c, BoolSeries v) X ->
  (In c skewed \/ In c regular) /\
  ~ In c objs /\
  forall ct, _build_transformer params X = Ok ct ->
    (exists name steps cols,
        In (name, Numeric steps, cols) (transformers ct) /\
        In c cols /\ imputes_and_scales steps) /\
    (forall name cols, In (name, Categorical, cols) (transformers ct) -> ~ In c cols).
Proof.
  intros Hp Hin.
  destruct (profile_inv X _ _ _ Hp) as [Hdef [Hsk [Hrg Hobj]]].
  assert (Hc : In c (num_cols X)).
  { apply in_num_cols. exists (BoolSeries v). split; [assumption | reflexivity]. }
  assert (Hgroup : In c skewed \/ In c regular).
  { destruct (mem c skewed) eqn:Hm.
    - left. now apply mem_In.
    - right. rewrite Hrg. apply filter_In. split; [assumption | now rewrite Hm]. }
  assert (Hnot : ~ In c objs).
  { intros Ho. rewrite Hobj in Ho. apply in_obj_cols in Ho.
    destruct Ho as [s' [Hs' Hd]].
    destruct (Hdef c Hc) as [b Hb]. unfold is_skewed in Hb.
    destruct (getitem X c) as [s0 |] eqn:Hg; [| discriminate].
    rewrite (getitem_unique X c s0 s' Hg Hs') in Hd.
    rewrite <- (getitem_unique X c s0 (BoolSeries v) Hg Hin) in Hd.
    simpl in Hd. destruct Hd; discriminate. }
  split; [exact Hgroup |]. split; [exact Hnot |].
  intros ct Hb. pose proof (build_transformer_inv params X _ _ _ ct Hp Hb) as Ht.
  split.
  - destruct Hgroup as [Hs | Hr].
    + exists "num_skewed", [("impute_mean", SimpleImputer_mean);
                            ("yeojohnson", PowerTransformer_yeo_johnson);
                            ("scale", StandardScaler)], skewed.
      split; [| split; [assumption |]].
      * rewrite Ht. destruct skewed; [contradiction |]. simpl. now left.
      * unfold imputes_and_scales. simpl. tauto.
    + exists "num_regular", [("impute_knn", KNNImputer params);
                             ("scale", StandardScaler)], regular.
      split; [| split; [assumption |]].
      * rewrite Ht. apply in_or_app. right. apply in_or_app. left.
        destruct regular; [contradiction |]. simpl. now left.
      * unfold imputes_and_scales. simpl. split; [right; exists params |]; tauto.
  - intros name cols Hcat. rewrite Ht in Hcat.
    apply in_app_or in Hcat. destruct Hcat as [Hcat | Hcat].
    { destruct (nonempty skewed); simpl in Hcat; [| contradiction].
      destruct Hcat as [Hcat | []]. discriminate. }
    apply in_app_or in Hcat. destruct Hcat as [Hcat | Hcat].
    { destruct (nonempty regular); simpl in Hcat; [| contradiction].
      destruct Hcat as [Hcat | []]. discriminate. }
    destruct (nonempty objs); simpl in Hcat; [| contradiction].
    destruct Hcat as [Hcat | []]. inversion Hcat; subst. exact Hnot.
Qed.

Lemma bool_column_is_numeric_witness :
  profile sample_frame = Ok (["url_length"], ["ratio"; "has_ip"], ["protocol"]) /\
  In ("has_ip", BoolSeries [true; false; false; true; false; false]) sample_frame /\
  ((In "has_ip" ["url_length"] \/ In "has_ip" ["ratio"; "has_ip"]) /\
   ~ In "has_ip" ["protocol"] /\
   forall ct, _build_transformer sample_params sample_frame = Ok ct ->
     (exists name steps cols,
         In (name, Numeric steps, cols) (transformers ct) /\
         In "has_ip" cols /\ imputes_and_scales steps) /\
     (forall name cols,
         In (name, Categorical, cols) (transformers ct) -> ~ In "has_ip" cols)).
Proof.
  assert (Hp : profile sample_frame
               = Ok (["url_length"], ["ratio"; "has_ip"], ["protocol"]))
    by (vm_compute; reflexivity).
  assert (Hin : In ("has_ip", BoolSeries [true; false; false; true; false; false])
                   sample_frame)
    by (simpl; auto).
  split; [exact Hp |]. split; [exact Hin |].
  exact (bool_column_is_numeric sample_params sample_frame _ _ _ _ _ Hp Hin).
Defined.

(** ** Lexicographic order and the label encoder *)

Lemma ascii_compare_lt_trans (a b c : ascii) :
  Ascii.compare a b = Lt -> Ascii.compare b c = Lt -> Ascii.compare a c = Lt.
Proof.
  unfold Ascii.compare. rewrite !N.compare_lt_iff. apply N.lt_trans.
Qed.

Lemma string_compare_refl (a : string) : String.compare a a = Eq.
Proof.
  induction a as [| x t IH]; simpl; [reflexivity |].
  unfold Ascii.compare. now rewrite N.compare_refl.
Qed.

Lemma string_lt_trans (a b c : string) :
  string_lt a b -> string_lt b c -> string_lt a c.
Proof.
  unfold string_lt. revert b c.
  induction a as [| x a IH]; intros [| y b] [| z c]; simpl; try congruence.
  destruct (Ascii.compare x y) eqn:Hxy; try discriminate.
  - apply Ascii.compare_eq_iff in Hxy. subst y.
    destruct (Ascii.compare x z); try congruence. apply IH.
  - intros _. destruct (Ascii.compare y z) eqn:Hyz; try discriminate.
    + apply Ascii.compare_eq_iff in Hyz. subst z. now rewrite Hxy.
    + intros _. now rewrite (ascii_compare_lt_trans x y z Hxy Hyz).
Qed.

Lemma string_lt_irrefl (a : string) : ~ string_lt a a.
Proof. unfold string_lt. rewrite string_compare_refl. discriminate. Qed.

Lemma string_compare_gt (a b : string) :
  String.compare a b = Gt -> string_lt b a.
Proof.
  unfold string_lt. intros H. rewrite String.compare_antisym, H. reflexivity.
Qed.


Lemma label_lt_irrefl (a : option string) : ~ label_lt a a.
Proof. destruct a; simpl; [apply string_lt_irrefl | tauto]. Qed.

Lemma insert_sorted_In (x y : string) (l : list string) :
  In y (insert_sorted x l) <-> y = x \/ In y l.
Proof.
  induction l as [| z t IH]; simpl.
  - intuition.
  - destruct (String.compare x z) eqn:Hc; simpl.
    + apply String.compare_eq_iff in Hc. subst z. intuition.
    + intuition.
    + rewrite IH. intuition.
Qed.

Lemma insert_sorted_sorted (x : string) (l : list string) :
  StronglySorted string_lt l -> StronglySorted string_lt (insert_sorted x l).
Proof.
  induction l as [| z t IH]; simpl; intros Hs.
  - repeat constructor.
  - apply StronglySorted_inv in Hs. destruct Hs as [Hs Hall].
    destruct (String.compare x z) eqn:Hc.
    + now constructor.
    + constructor; [now constructor |].
      constructor; [exact Hc |].
      rewrite Forall_forall in *. intros w Hw.
      apply (string_lt_trans x z w Hc). now apply Hall.
    + constructor; [now apply IH |].
      rewrite Forall_forall in *. intros w Hw.
      apply insert_sorted_In in Hw. destruct Hw as [-> | Hw].
      * now apply string_compare_gt.
      * now apply Hall.
Qed.

Lemma unique_sorted_In (y : string) (l : list string) :
  In y (unique_sorted l) <-> In y l.
Proof.
  unfold unique_sorted. induction l as [| x t IH]; simpl; [tauto |].
  rewrite insert_sorted_In, IH. intuition.
Qed.

Lemma unique_sorted_sorted (l : list string) :
  StronglySorted string_lt (unique_sorted l).
Proof.
  unfold unique_sorted. induction l as [| x t IH]; simpl.
  - constructor.
  - now apply insert_sorted_sorted.
Qed.

Lemma somes_In {A} (x : A) (l : list (option A)) :
  In x (somes l) <-> In (Some x) l.
Proof.
  unfold somes. rewrite in_flat_map. split.
  - intros [[y |] [Hin Hy]]; simpl in Hy; [| contradiction].
    destruct Hy as [-> | []]. exact Hin.
  - intros H. exists (Some x). simpl. auto.
Qed.

Lemma exists_none_In {A} (l : list (option A)) :
  existsb is_none l = true <-> In None l.
Proof.
  rewrite existsb_exists. split.
  - intros [[y |] [Hin Hy]]; [discriminate | exact Hin].
  - intros H. exists None. auto.
Qed.

(** The classes of a fitted encoder are the training labels... *)
Lemma LabelEncoder_fit_In (v : option string) (y : list (option string)) :
  In v (LabelEncoder_fit y) <-> In v y.
Proof.
  unfold LabelEncoder_fit. rewrite in_app_iff, in_map_iff. split.
  - intros [[x [<- Hx]] | H].
    + now apply somes_In, unique_sorted_In.
    + destruct (existsb is_none y) eqn:He; [| contradiction].
      destruct H as [<- | []]. now apply exists_none_In.
  - destruct v as [x |]; intros H.
    + left. exists x. split; [reflexivity |]. now apply unique_sorted_In, somes_In.
    + right. apply exists_none_In in H. rewrite H. now left.
Qed.

(** ... in lexicographic order, the missing label last. *)
Lemma LabelEncoder_fit_sorted (y : list (option string)) :
  StronglySorted label_lt (LabelEncoder_fit y).
Proof.
  unfold LabelEncoder_fit.
  generalize (unique_sorted_sorted (somes y)).
  generalize (unique_sorted (somes y)) as l.
  induction l as [| x t IH]; simpl; intros Hs.
  - destruct (existsb is_none y); repeat constructor.
  - apply StronglySorted_inv in Hs. destruct Hs as [Hs Hall].
    constructor; [now apply IH |].
    apply Forall_app. split.
    + rewrite Forall_forall in *. intros w Hw. apply in_map_iff in Hw.
      destruct Hw as [z [<- Hz]]. simpl. now apply Hall.
    + destruct (existsb is_none y); repeat constructor.
Qed.

Lemma label_eqb_eq (a b : option string) : label_eqb a b = true <-> a = b.
Proof.
  destruct a as [x |], b as [y |]; simpl; try (split; congruence).
  rewrite String.eqb_eq. split; congruence.
Qed.

Lemma index_of_Some (classes : list (option string)) (v : option string) :
  In v classes <-> exists i, index_of classes v = Some i.
Proof.
  induction classes as [| k t IH]; simpl.
  - split; [tauto | intros [i H]; discriminate].
  - destruct (label_eqb k v) eqn:He.
    + apply label_eqb_eq in He. split; eauto.
    + assert (k <> v) by (intros E; apply label_eqb_eq in E; congruence).
      split.
      * intros [E | Hin]; [contradiction |]. apply IH in Hin.
        destruct Hin as [i Hi]. rewrite Hi. eauto.
      * intros [i Hi]. right. apply IH.
        destruct (index_of t v); [eauto | discriminate].
Qed.

Lemma index_of_nonneg (classes : list (option string)) (v : option string) (i : Z) :
  index_of classes v = Some i -> (0 <= i)%Z.
Proof.
  revert i. induction classes as [| k t IH]; simpl; intros i H; [discriminate |].
  destruct (label_eqb k v).
  - inversion H. lia.
  - destruct (index_of t v) as [j |]; [| discriminate].
    inversion H. specialize (IH j eq_refl). lia.
Qed.


Lemma mapM_ok {A B} (f : A -> result B) (l : list A) :
  (forall x, In x l -> exists y, f x = Ok y) -> exists r, mapM f l = Ok r.
Proof.
  induction l as [| x t IH]; simpl; intros H; [eauto |].
  destruct (H x (or_introl eq_refl)) as [y ->]. simpl.
  destruct IH as [r ->]; [intros z Hz; apply H; now right |]. simpl. eauto.
Qed.

Lemma mapM_raise {A B} (f : A -> result B) (l : list A) (e : exn) :
  (forall x, In x l -> (exists y, f x = Ok y) \/ f x = Raise e) ->
  (exists x, In x l /\ f x = Raise e) ->
  mapM f l = Raise e.
Proof.
  induction l as [| x t IH]; simpl; intros Hall [z [Hz Hr]]; [contradiction |].
  destruct (Hall x (or_introl eq_refl)) as [[y Hy] | Hx].
  - rewrite Hy. simpl. rewrite IH; [reflexivity | |].
    + intros w Hw. apply Hall. now right.
    + destruct Hz as [-> | Hz]; [congruence | eauto].
  - now rewrite Hx.
Qed.

Lemma LabelEncoder_transform_seen (classes y : list (option string)) :
  (forall v, In v y -> In v classes) ->
  exists codes, LabelEncoder_transform classes y = Ok codes.
Proof.
  intros H. apply mapM_ok. intros v Hv.
  destruct (proj1 (index_of_Some classes v) (H v Hv)) as [i ->]. eauto.
Qed.

Lemma LabelEncoder_transform_unseen (classes y : list (option string)) :
  (exists v, In v y /\ ~ In v classes) ->
  LabelEncoder_transform classes y = Raise (LibraryError ValueError_unseen_labels).
Proof.
  intros [v [Hv Hn]]. apply mapM_raise.
  - intros w _. destruct (index_of classes w); eauto.
  - exists v. split; [assumption |].
    destruct (index_of classes v) eqn:Hi; [| reflexivity].
    exfalso. apply Hn. apply index_of_Some. eauto.
Qed.

(** ** The target normaliser *)

Lemma replace_m1_0_cells (y : Series) (v : list float64) :
  as_float y = Some v -> as_float (replace_m1_0 y) = Some (map remap_cell v).
Proof.
  destruct y as [l | l | l | l | l | l]; simpl; intros H; inversion H; subst; clear H.
  - apply f_equal. rewrite !map_map. apply map_ext. intros z. simpl.
    unfold Qeq_bool. simpl. rewrite Z.mul_1_r.
    now destruct (z =? -1)%Z.
  - apply f_equal. apply map_ext. now intros [q | | |].
  - apply f_equal. rewrite map_map. apply map_ext. now intros [].
Qed.

Lemma replace_m1_0_dtype (y : Series) : dtype_of (replace_m1_0 y) = dtype_of y.
Proof. now destruct y. Qed.

Lemma replace_m1_0_non_numeric (y : Series) :
  is_numeric_dtype y = false -> replace_m1_0 y = y.
Proof. destruct y; simpl; intros H; try reflexivity; discriminate. Qed.

(** C4. The sentinel remap: when the training label column has a numeric
    dtype, the normalised train and test label columns keep their dtype and
    hold, cell by cell, 0 where the column held -1 and the old value
    elsewhere; a test column that holds no numbers is returned as it is. *)
Theorem label_sentinel_remap (y_train y_test : Series) :
  is_numeric_dtype y_train = true ->
  exists y_train' y_test',
    normalize_labels y_train y_test = (y_train', y_test') /\
    dtype_of y_train' = dtype_of y_train /\
    dtype_of y_test' = dtype_of y_test /\
    (forall v, as_float y_train = Some v ->
               as_float y_train' = Some (map remap_cell v)) /\
    (forall v, as_float y_test = Some v ->
               as_float y_test' = Some (map remap_cell v)) /\
    (is_numeric_dtype y_test = false -> y_test' = y_test).
Proof.
  intros Hnum. exists (replace_m1_0 y_train), (replace_m1_0 y_test).
  unfold normalize_labels. rewrite Hnum.
  repeat split; auto using replace_m1_0_dtype, replace_m1_0_cells,
                  replace_m1_0_non_numeric.
Qed.

Lemma label_sentinel_remap_witness :
  is_numeric_dtype (IntSeries [-1; 1; -1; 1]%Z) = true /\
  normalize_labels (IntSeries [-1; 1; -1; 1]%Z) (IntSeries [1; -1]%Z)
    = (IntSeries [0; 1; 0; 1]%Z, IntSeries [1; 0]%Z) /\
  exists y_train' y_test',
    normalize_labels (IntSeries [-1; 1; -1; 1]%Z) (IntSeries [1; -1]%Z)
      = (y_train', y_test') /\
    dtype_of y_train' = dtype_of (IntSeries [-1; 1; -1; 1]%Z) /\
    dtype_of y_test' = dtype_of (IntSeries [1; -1]%Z) /\
    (forall v, as_float (IntSeries [-1; 1; -1; 1]%Z) = Some v ->
               as_float y_train' = Some (map remap_cell v)) /\
    (forall v, as_float (IntSeries [1; -1]%Z) = Some v ->
               as_float y_test' = Some (map remap_cell v)) /\
    (is_numeric_dtype (IntSeries [1; -1]%Z) = false -> y_test' = IntSeries [1; -1]%Z).
Proof.
  split; [reflexivity |]. split; [reflexivity |].
  exact (label_sentinel_remap (IntSeries [-1; 1; -1; 1]%Z) (IntSeries [1; -1]%Z) eq_refl).
Defined.

Lemma normalize_labels_numeric (y_train y_test : Series) :
  is_numeric_dtype (fst (normalize_labels y_train y_test)) = is_numeric_dtype y_train.
Proof.
  unfold normalize_labels. destruct (is_numeric_dtype y_train) eqn:H; simpl; [| exact H].
  unfold is_numeric_dtype in *. now rewrite replace_m1_0_dtype.
Qed.

Lemma as_object_non_numeric (y : Series) :
  is_numeric_dtype y = false -> exists labels, as_object y = Some labels.
Proof. destruct y; simpl; intros H; try discriminate; eauto. Qed.

Lemma encode_target_non_numeric (y_train y_test : Series) :
  is_numeric_dtype y_train = false ->
  encode_target y_train y_test = encode y_train y_test.
Proof.
  intros H. unfold encode_target, _is_binary_or_numeric_target. rewrite H. simpl.
  now destruct (nunique y_train <=? 2)%nat.
Qed.

Lemma encode_target_numeric (y_train y_test : Series) :
  is_numeric_dtype y_train = true ->
  encode_target y_train y_test = Ok (y_train, y_test, None).
Proof.
  intros H. unfold encode_target, _is_binary_or_numeric_target. now rewrite H.
Qed.

Lemma mapM_Forall2 {A B} (f : A -> result B) (l : list A) (r : list B) :
  mapM f l = Ok r -> Forall2 (fun x y => f x = Ok y) l r.
Proof.
  revert r. induction l as [| x t IH]; simpl; intros r H.
  - inversion H. constructor.
  - destruct (f x) as [y |] eqn:Hx; simpl in H; [| discriminate].
    destruct (mapM f t) as [r' |]; simpl in H; [| discriminate].
    inversion H; subst. constructor; auto.
Qed.

Lemma LabelEncoder_transform_codes (classes y : list (option string)) (codes : list Z) :
  LabelEncoder_transform classes y = Ok codes ->
  Forall2 (fun v i => index_of classes v = Some i) y codes.
Proof.
  intros H. apply mapM_Forall2 in H.
  induction H as [| v i y' codes' Hv _ IH]; constructor; [| exact IH].
  destruct (index_of classes v); inversion Hv; reflexivity.
Qed.


(** Two classes of text are encoded like any other text column. *)
Example two_class_text_labels_encoded :
  encode_target (ObjectSeries [Some "yes"; Some "no"; Some "yes"])
                (ObjectSeries [Some "no"; Some "yes"])
  = Ok (IntSeries [1; 0; 1]%Z, IntSeries [0; 1]%Z, Some [Some "no"; Some "yes"]).
Proof. reflexivity. Qed.

(** ** The run *)

Section RunProperties.

Variable TARGET_COLUMN : string.
Variable params : knn_params.
Variable K : Kernels.


(** The steps of a run that returns. *)
Lemma run_inv (train_df test_df : DataFrame) (p : Persisted) :
  run TARGET_COLUMN params K train_df test_df = Ok p ->
  exists y_train y_test ct,
    getitem train_df TARGET_COLUMN = Ok y_train /\
    getitem test_df TARGET_COLUMN = Ok y_test /\
    _build_transformer params (drop train_df TARGET_COLUMN) = Ok ct /\
    encode_target (fst (normalize_labels y_train y_test))
                  (snd (normalize_labels y_train y_test))
      = Ok (snd (train_arr p), snd (test_arr p), y_encoder p) /\
    fit K ct (drop train_df TARGET_COLUMN) = Ok (preprocessor_fitted p) /\
    transform K (preprocessor_fitted p) (drop train_df TARGET_COLUMN)
      = Ok (fst (train_arr p)) /\
    transform K (preprocessor_fitted p) (drop test_df TARGET_COLUMN)
      = Ok (fst (test_arr p)).
Proof.
  unfold run, try_wrap. intros H.
  destruct (negb (mem TARGET_COLUMN (columns train_df))
            || negb (mem TARGET_COLUMN (columns test_df))); [discriminate |].
  destruct (getitem train_df TARGET_COLUMN) as [y_train |]; [| discriminate].
  destruct (getitem test_df TARGET_COLUMN) as [y_test |]; [| discriminate].
  cbn [bind] in H.
  destruct (normalize_labels y_train y_test) as [y1 y2] eqn:Hn.
  destruct (_build_transformer params (drop train_df TARGET_COLUMN)) as [ct |] eqn:Hb;
    [| discriminate].
  cbn [bind] in H.
  destruct (encode_target y1 y2) as [[[a b] enc] |] eqn:He; [| discriminate].
  cbn [bind] in H.
  destruct (fit K ct (drop train_df TARGET_COLUMN))
    as [f |] eqn:Hf; [| discriminate].
  cbn [bind] in H.
  destruct (transform K f
                      (drop train_df TARGET_COLUMN)) as [Xt |] eqn:Ht; [| discriminate].
  cbn [bind] in H.
  destruct (transform K f
                      (drop test_df TARGET_COLUMN)) as [Xs |] eqn:Hs; [| discriminate].
  cbn [bind] in H. inversion H; subst; clear H. simpl.
  exists y_train, y_test, ct. rewrite Hn. simpl. repeat split; assumption.
Qed.

Lemma encode_target_train_only (y_train y1 y2 a1 b1 a2 b2 : Series)
      (e1 e2 : option (list (option string))) :
  encode_target y_train y1 = Ok (a1, b1, e1) ->
  encode_target y_train y2 = Ok (a2, b2, e2) ->
  a1 = a2 /\ e1 = e2.
Proof.
  intros H1 H2. destruct (is_numeric_dtype y_train) eqn:Hnum.
  - rewrite (encode_target_numeric _ _ Hnum) in H1.
    rewrite (encode_target_numeric _ _ Hnum) in H2.
    inversion H1; inversion H2; subst. auto.
  - rewrite (encode_target_non_numeric _ _ Hnum) in H1.
    rewrite (encode_target_non_numeric _ _ Hnum) in H2.
    unfold encode in H1, H2.
    destruct (as_object y_train) as [labels |]; [| discriminate].
    destruct (LabelEncoder_transform _ labels); simpl in H1, H2; [| discriminate].
    destruct (transform_labels _ y_train y1); simpl in H1; [| discriminate].
    destruct (transform_labels _ y_train y2); simpl in H2; [| discriminate].
    inversion H1; inversion H2; subst. auto.
Qed.

Lemma normalize_labels_train_only (y_train y1 y2 : Series) :
  fst (normalize_labels y_train y1) = fst (normalize_labels y_train y2).
Proof. unfold normalize_labels. now destruct (is_numeric_dtype y_train). Qed.

Lemma build_transformer_profile (X : DataFrame) (ct : ColumnTransformer) :
  _build_transformer params X = Ok ct ->
  exists skewed regular objs, profile X = Ok (skewed, regular, objs).
Proof.
  unfold _build_transformer. destruct (profile X) as [[[sk rg] ob] |]; [eauto |].
  discriminate.
Qed.

(** C2. No test-data leakage: two runs on the same training frame that
    return have the same column profile, the same fitted transformation,
    the same training array and the same label encoder, whatever the test
    frames; the fitted transformation is the fit of the transformation
    built from the training features, and the test features only go through
    its [transform]. *)
Theorem no_test_leakage (train_df test1 test2 : DataFrame) (p1 p2 : Persisted) :
  run TARGET_COLUMN params K train_df test1 = Ok p1 ->
  run TARGET_COLUMN params K train_df test2 = Ok p2 ->
  preprocessor_fitted p1 = preprocessor_fitted p2 /\
  train_arr p1 = train_arr p2 /\
  y_encoder p1 = y_encoder p2 /\
  (exists skewed regular objs ct,
      profile (drop train_df TARGET_COLUMN) = Ok (skewed, regular, objs) /\
      _build_transformer params (drop train_df TARGET_COLUMN) = Ok ct /\
      fit K ct (drop train_df TARGET_COLUMN) = Ok (preprocessor_fitted p1)) /\
  transform K (preprocessor_fitted p1) (drop test1 TARGET_COLUMN) = Ok (fst (test_arr p1)) /\
  transform K (preprocessor_fitted p1) (drop test2 TARGET_COLUMN) = Ok (fst (test_arr p2)).
Proof.
  intros H1 H2.
  destruct (run_inv _ _ _ H1) as (y & y1 & ct & Hy & _ & Hb & He1 & Hf1 & Ht1 & Hs1).
  destruct (run_inv _ _ _ H2) as (y' & y2 & ct' & Hy' & _ & Hb' & He2 & Hf2 & Ht2 & Hs2).
  rewrite Hy in Hy'. inversion Hy'; subst y'. clear Hy'.
  rewrite Hb in Hb'. inversion Hb'; subst ct'. clear Hb'.
  assert (Hfit : preprocessor_fitted p1 = preprocessor_fitted p2) by congruence.
  rewrite (normalize_labels_train_only y y2 y1) in He2.
  destruct (encode_target_train_only _ _ _ _ _ _ _ _ _ He1 He2) as [Hlab Henc].
  assert (Harr : train_arr p1 = train_arr p2).
  { rewrite <- Hfit in Ht2. rewrite Ht1 in Ht2. inversion Ht2 as [Hfst].
    destruct (train_arr p1), (train_arr p2). simpl in *. congruence. }
  destruct (build_transformer_profile _ _ Hb) as (sk & rg & ob & Hp).
  repeat split; try assumption.
  - exists sk, rg, ob, ct. auto.
  - now rewrite Hfit.
Qed.

(** C6. An unseen test label is a failure.  When the label-encoding path is
    taken (the label column is in both frames, the training labels are not
    numeric, the transformation was built): if some test label does not
    occur among the training labels the run raises the exception whose
    cause is the encoder's "previously unseen labels" error; if every test
    label occurs among the training labels, the encoding returns the coded
    train and test labels and the encoder. *)
Theorem unseen_test_label (train_df test_df : DataFrame) (y_train y_test : Series)
        (ct : ColumnTransformer) :
  getitem train_df TARGET_COLUMN = Ok y_train ->
  getitem test_df TARGET_COLUMN = Ok y_test ->
  is_numeric_dtype y_train = false ->
  _build_transformer params (drop train_df TARGET_COLUMN) = Ok ct ->
  (some_label_unseen y_train y_test ->
   encode_target y_train y_test = Raise (LibraryError ValueError_unseen_labels) /\
   exists e, run TARGET_COLUMN params K train_df test_df = Raise e /\ UnseenLabelError e) /\
  (all_labels_seen y_train y_test ->
   exists codes_train codes_test classes,
     encode_target y_train y_test
     = Ok (IntSeries codes_train, IntSeries codes_test, Some classes)).
Proof.
  intros Hy Hy' Hnum Hb.
  destruct (as_object_non_numeric y_train Hnum) as [labels Hl].
  destruct (LabelEncoder_transform_seen (LabelEncoder_fit labels) labels)
    as [codes Hc].
  { intros v Hv. now apply LabelEncoder_fit_In. }
  assert (Henc : encode_target y_train y_test =
                 (codes_test <- transform_labels (LabelEncoder_fit labels) y_train y_test ;;
                  Ok (IntSeries codes, IntSeries codes_test,
                      Some (LabelEncoder_fit labels)))).
  { rewrite (encode_target_non_numeric _ _ Hnum). unfold encode.
    now rewrite Hl, Hc. }
  split.
  - intros Hun.
    assert (Hraise : transform_labels (LabelEncoder_fit labels) y_train y_test
                     = Raise (LibraryError ValueError_unseen_labels)).
    { unfold some_label_unseen in Hun. unfold transform_labels. rewrite Hl in Hun.
      destruct (as_object y_test) as [w |].
      - destruct (same_kind y_train y_test).
        + apply LabelEncoder_transform_unseen.
          destruct Hun as [v [Hv Hn]]. exists v. split; [assumption |].
          now rewrite LabelEncoder_fit_In.
        + destruct (Nat.eqb_spec (size y_test) 0); [contradiction | reflexivity].
      - destruct (Nat.eqb_spec (size y_test) 0); [contradiction | reflexivity]. }
    assert (Het : encode_target y_train y_test
                  = Raise (LibraryError ValueError_unseen_labels))
      by (now rewrite Henc, Hraise).
    split; [exact Het |].
    unfold run.
    assert (Hm : mem TARGET_COLUMN (columns train_df) = true).
    { apply mem_In, in_columns. exists y_train. now apply getitem_In. }
    assert (Hm' : mem TARGET_COLUMN (columns test_df) = true).
    { apply mem_In, in_columns. exists y_test. now apply getitem_In. }
    rewrite Hm, Hm', Hy, Hy'. cbn [negb orb bind].
    unfold normalize_labels. rewrite Hnum. rewrite Hb. cbn [bind].
    rewrite Het. cbn [bind try_wrap].
    eexists. split; reflexivity.
  - intros Hseen. rewrite Henc.
    assert (Hok : exists codes_test,
               transform_labels (LabelEncoder_fit labels) y_train y_test = Ok codes_test).
    { unfold all_labels_seen in Hseen. unfold transform_labels. rewrite Hl in Hseen.
      destruct (as_object y_test) as [w |].
      - destruct (same_kind y_train y_test).
        + apply LabelEncoder_transform_seen. intros v Hv.
          apply LabelEncoder_fit_In. auto.
        + rewrite Hseen. simpl. eauto.
      - rewrite Hseen. simpl. eauto. }
    destruct Hok as [codes_test ->]. simpl. eauto.
Qed.

(** X8. In a run that returns on numeric training labels, the label
    columns are persisted with the sentinel -1 remapped to 0, train and
    test alike, and no encoder is persisted. *)
Lemma run_numeric_labels (train_df test_df : DataFrame) (p : Persisted)
      (y_train y_test : Series) :
  run TARGET_COLUMN params K train_df test_df = Ok p ->
  getitem train_df TARGET_COLUMN = Ok y_train ->
  getitem test_df TARGET_COLUMN = Ok y_test ->
  is_numeric_dtype y_train = true ->
  snd (train_arr p) = replace_m1_0 y_train /\
  snd (test_arr p) = replace_m1_0 y_test /\
  y_encoder p = None.
Proof.
  intros H Hy Hy' Hnum.
  destruct (run_inv _ _ _ H) as (y & y' & ct & Hy0 & Hy0' & _ & He & _).
  rewrite Hy in Hy0. rewrite Hy' in Hy0'. inversion Hy0; inversion Hy0'; subst y y'.
  unfold normalize_labels in He. rewrite Hnum in He. simpl in He.
  rewrite encode_target_numeric in He.
  - inversion He. auto.
  - unfold is_numeric_dtype in *. now rewrite replace_m1_0_dtype.
Qed.

(** In a run that returns, an encoder is persisted exactly when the
    training labels are not numeric. *)
Lemma run_encoder_iff (train_df test_df : DataFrame) (p : Persisted) (y_train : Series) :
  run TARGET_COLUMN params K train_df test_df = Ok p ->
  getitem train_df TARGET_COLUMN = Ok y_train ->
  (y_encoder p <> None <-> is_numeric_dtype y_train = false).
Proof.
  intros H Hy.
  destruct (run_inv _ _ _ H) as (y & y' & ct & Hy0 & _ & _ & He & _).
  rewrite Hy in Hy0. inversion Hy0; subst y.
  rewrite <- (normalize_labels_numeric y_train y').
  destruct (is_numeric_dtype (fst (normalize_labels y_train y'))) eqn:Hnum.
  - rewrite (encode_target_numeric _ _ Hnum) in He. inversion He.
    split; [congruence | discriminate].
  - rewrite (encode_target_non_numeric _ _ Hnum) in He. unfold encode in He.
    destruct (as_object _) as [labels |]; [| discriminate].
    destruct (LabelEncoder_transform _ labels); simpl in He; [| discriminate].
    destruct (transform_labels _ _ _); simpl in He; [| discriminate].
    inversion He. split; [reflexivity | discriminate].
Qed.


End RunProperties.

(** ** Shapes of the fitted estimators *)

Lemma keep_length {A} (mask : list bool) (l : list A) :
  List.length mask = List.length l ->
  List.length (keep mask l) = count_true mask.
Proof.
  unfold count_true. revert l.
  induction mask as [| b m IH]; intros [| x t] H; simpl in *; try discriminate;
    [reflexivity |].
  destruct b; simpl; rewrite IH; auto.
Qed.

Lemma keep_In {A} (mask : list bool) (l : list A) (x : A) :
  In x (keep mask l) -> In x l.
Proof.
  revert l. induction mask as [| b m IH]; intros [| y t] H; simpl in *;
    try contradiction.
  destruct b; simpl in H; [destruct H as [-> | H] |]; auto.
Qed.

(** A kept element together with its mask bit. *)
Lemma keep_In_combine {A B} (f : A -> bool) (g : A * B -> list Pandas.float64)
      (l : list A) (m : list B) (y : list Pandas.float64) :
  In y (keep (map f l) (map g (combine l m))) ->
  exists a b, In (a, b) (combine l m) /\ f a = true /\ y = g (a, b).
Proof.
  revert m. induction l as [| a l IH]; intros [| b m] H; simpl in *;
    try contradiction.
  destruct (f a) eqn:Hf.
  - destruct H as [<- | H].
    + exists a, b. auto.
    + destruct (IH m H) as (a' & b' & Hin & Hfa & Hy). exists a', b'. auto.
  - destruct (IH m H) as (a' & b' & Hin & Hfa & Hy). exists a', b'. auto.
Qed.

Lemma check_array_inv (X : matrix) (u : unit) :
  check_array X = Ok u ->
  X <> [] /\ existsb (existsb isinf) X = false.
Proof.
  unfold check_array. destruct (existsb (existsb isinf) X); [discriminate |].
  destruct X as [| c t]; [discriminate |]. intros _. split; [discriminate | reflexivity].
Qed.

Lemma check_n_features_inv {A B} (fitted : list A) (X : list B) (u : unit) :
  check_n_features fitted X = Ok u -> List.length fitted = List.length X.
Proof.
  unfold check_n_features.
  destruct (Nat.eqb_spec (List.length fitted) (List.length X)); [auto | discriminate].
Qed.

Section StepShapes.

Variable K : Kernels.


Lemma mapi_from_length {A B} (f : nat -> A -> B) (l : list A) (i : nat) :
  List.length (mapi_from i f l) = List.length l.
Proof.
  revert i. induction l as [| x t IH]; intros i; simpl; [reflexivity |].
  now rewrite IH.
Qed.

Lemma transform_step_width (f : fitted_estimator) (X Y : matrix) :
  transform_step K f X = Ok Y -> List.length Y = out_width f.
Proof.
  unfold transform_step. intros H.
  destruct (check_array X) as [u |]; [| discriminate]. cbn [bind] in H.
  destruct f as [p fit_X | stats | cols | cols]; cbn [out_width].
  - destruct (check_n_features fit_X X) as [u' |] eqn:Hn; [| discriminate].
    apply check_n_features_inv in Hn. cbn [bind] in H. inversion H; subst.
    apply keep_length. unfold mapi. now rewrite length_map, mapi_from_length.
  - destruct (check_n_features stats X) as [u' |] eqn:Hn; [| discriminate].
    apply check_n_features_inv in Hn. cbn [bind] in H. inversion H; subst.
    apply keep_length. rewrite !length_map, length_combine. lia.
  - destruct (check_n_features cols X) as [u' |] eqn:Hn; [| discriminate].
    apply check_n_features_inv in Hn. cbn [bind] in H. inversion H; subst.
    rewrite length_map, length_combine. lia.
  - destruct (check_n_features cols X) as [u' |] eqn:Hn; [| discriminate].
    apply check_n_features_inv in Hn. cbn [bind] in H. inversion H; subst.
    rewrite length_map, length_combine. lia.
Qed.

Lemma mapi_from_In {A B} (f : nat -> A -> B) (l : list A) (i : nat) (y : B) :
  In y (mapi_from i f l) -> exists j x, In x l /\ y = f j x.
Proof.
  revert i. induction l as [| x t IH]; intros i H; simpl in H; [contradiction |].
  destruct H as [<- | H].
  - exists i, x. simpl. auto.
  - destruct (IH _ H) as (j & x' & Hin & Hy). exists j, x'. simpl. auto.
Qed.

(** The imputers return arrays without a missing cell. *)
Lemma imputer_no_missing (f : fitted_estimator) (X Y : matrix) :
  (forall cols, f <> PowerTransformer_ cols) ->
  (forall cols, f <> StandardScaler_ cols) ->
  transform_step K f X = Ok Y -> no_missing Y.
Proof.
  unfold transform_step, no_missing. intros Hp Hs H.
  destruct (check_array X) as [u |]; [| discriminate]. cbn [bind] in H.
  destruct f as [p fit_X | stats | cols | cols].
  3: { exfalso. now apply (Hp cols). }
  3: { exfalso. now apply (Hs cols). }
  - destruct (check_n_features fit_X X) as [u' |]; [| discriminate].
    cbn [bind] in H. inversion H; subst. clear H.
    apply Forall_forall. intros c Hc. apply keep_In in Hc.
    unfold mapi in Hc. apply mapi_from_In in Hc.
    destruct Hc as (col & c0 & _ & ->).
    apply Forall_forall. intros x Hx. apply mapi_from_In in Hx.
    destruct Hx as (row & x0 & _ & ->).
    destruct (isnan x0) eqn:Hx0; [reflexivity | exact Hx0].
  - destruct (check_n_features stats X) as [u' |]; [| discriminate].
    cbn [bind] in H. inversion H; subst. clear H.
    apply Forall_forall. intros c Hc.
    apply (keep_In_combine (fun s => negb (isnan s))
             (fun sc => map (fun x => if isnan x then fst sc else x) (snd sc))) in Hc.
    destruct Hc as (st & c0 & _ & Hst & ->). simpl.
    apply Forall_forall. intros x Hx. apply in_map_iff in Hx.
    destruct Hx as (x0 & <- & _).
    destruct (isnan x0) eqn:Hx0; [now apply negb_true_iff | exact Hx0].
Qed.

Lemma lift_no_missing (g : list float64 -> Q -> Q) (cols X : matrix) :
  no_missing X ->
  no_missing (map (fun fc => map (lift (g (fst fc))) (snd fc)) (combine cols X)).
Proof.
  unfold no_missing. intros H. apply Forall_forall. intros c Hc.
  apply in_map_iff in Hc. destruct Hc as ([fc xc] & <- & Hin). simpl.
  apply in_combine_r in Hin. rewrite Forall_forall in H. specialize (H _ Hin).
  apply Forall_forall. intros x Hx. apply in_map_iff in Hx.
  destruct Hx as (x0 & <- & Hx0). rewrite Forall_forall in H.
  specialize (H _ Hx0). now destruct x0.
Qed.

(** The rescaling steps keep an array free of missing cells. *)
Lemma rescale_no_missing (f : fitted_estimator) (X Y : matrix) :
  no_missing X -> transform_step K f X = Ok Y -> no_missing Y.
Proof.
  intros HX H. destruct f as [p fit_X | stats | cols | cols];
    try (refine (imputer_no_missing _ X Y _ _ H); intros; discriminate).
  - unfold transform_step in H.
    destruct (check_array X) as [u |]; [| discriminate]. cbn [bind] in H.
    destruct (check_n_features cols X) as [u' |]; [| discriminate].
    cbn [bind] in H. inversion H; subst. now apply lift_no_missing.
  - unfold transform_step in H.
    destruct (check_array X) as [u |]; [| discriminate]. cbn [bind] in H.
    destruct (check_n_features cols X) as [u' |]; [| discriminate].
    cbn [bind] in H. inversion H; subst. now apply lift_no_missing.
Qed.

End StepShapes.

(** ** Shapes of the three sub-pipelines *)

Lemma finite_cells_nil (c : list float64) :
  existsb isinf c = false ->
  match finite_cells c with [] => true | _ :: _ => false end = all_missing c.
Proof.
  unfold all_missing. induction c as [| x t IH]; simpl; intros H; [reflexivity |].
  destruct x; simpl in *; try discriminate; auto.
Qed.

Lemma nanmean_isnan (c : list float64) :
  existsb isinf c = false -> isnan (nanmean c) = all_missing c.
Proof.
  intros H. rewrite <- (finite_cells_nil c H). unfold nanmean.
  now destruct (finite_cells c).
Qed.

Lemma nanmean_mask (B : matrix) :
  existsb (existsb isinf) B = false ->
  map (fun s => negb (isnan s)) (map nanmean B)
  = map (fun c => negb (all_missing c)) B.
Proof.
  intros H. rewrite map_map. apply map_ext_in. intros c Hc.
  rewrite nanmean_isnan; [reflexivity |].
  destruct (existsb isinf c) eqn:Hi; [| reflexivity].
  assert (existsb (existsb isinf) B = true); [| congruence].
  apply existsb_exists. eauto.
Qed.

Section PipelineShapes.

Variable K : Kernels.


Lemma fit_step_inv (e : estimator) (X : matrix) (f : fitted_estimator) :
  fit_step e X = Ok f ->
  existsb (existsb isinf) X = false /\
  f = match e with
      | KNNImputer params => KNNImputer_ params X
      | SimpleImputer_mean => SimpleImputer_ (map nanmean X)
      | PowerTransformer_yeo_johnson => PowerTransformer_ X
      | StandardScaler => StandardScaler_ X
      end.
Proof.
  unfold fit_step. intros H. bind_inv H.
  apply check_array_inv in E. inversion H. tauto.
Qed.

Lemma fit_steps_cons (name : string) (e : estimator) (rest : list (string * estimator))
      (X : matrix) (fs : list fitted_estimator) :
  fit_steps K ((name, e) :: rest) X = Ok fs ->
  exists f Xt fs',
    fit_step e X = Ok f /\ transform_step K f X = Ok Xt /\
    fit_steps K rest Xt = Ok fs' /\ fs = f :: fs'.
Proof.
  cbn [fit_steps]. intros H.
  bind_inv H. bind_inv H. bind_inv H. inversion H. eauto 10.
Qed.

Lemma transform_steps_cons (f : fitted_estimator) (rest : list fitted_estimator)
      (X out : matrix) :
  transform_steps K (f :: rest) X = Ok out ->
  exists Xt, transform_step K f X = Ok Xt /\ transform_steps K rest Xt = Ok out.
Proof.
  cbn [transform_steps]. intros H.
  bind_inv H. eauto.
Qed.

(** The skewed pipeline returns one column per fit column that is not
    entirely missing, and no missing cell. *)
Lemma numeric_skewed_shape (B B' out : matrix) (fs : list fitted_estimator) :
  fit_steps K [("impute_mean", SimpleImputer_mean);
              ("yeojohnson", PowerTransformer_yeo_johnson);
              ("scale", StandardScaler)] B = Ok fs ->
  transform_steps K fs B' = Ok out ->
  List.length out = count_true (map (fun c => negb (all_missing c)) B) /\
  no_missing out.
Proof.
  intros Hfit Htr.
  apply fit_steps_cons in Hfit. destruct Hfit as (f1 & X1 & fs1 & F1 & H1 & Hfit & ->).
  apply fit_steps_cons in Hfit. destruct Hfit as (f2 & X2 & fs2 & F2 & H2 & Hfit & ->).
  apply fit_steps_cons in Hfit. destruct Hfit as (f3 & X3 & fs3 & F3 & H3 & Hfit & ->).
  inversion Hfit; subst fs3; clear Hfit.
  apply fit_step_inv in F1, F2, F3.
  destruct F1 as [Hinf ->], F2 as [_ ->], F3 as [_ ->].
  apply transform_steps_cons in Htr. destruct Htr as (Y1 & T1 & Htr).
  apply transform_steps_cons in Htr. destruct Htr as (Y2 & T2 & Htr).
  apply transform_steps_cons in Htr. destruct Htr as (Y3 & T3 & Htr).
  inversion Htr; subst Y3; clear Htr.
  split.
  - rewrite (transform_step_width K _ _ _ T3). cbn [out_width].
    rewrite (transform_step_width K _ _ _ H2). cbn [out_width].
    rewrite (transform_step_width K _ _ _ H1). cbn [out_width].
    now rewrite nanmean_mask.
  - refine (rescale_no_missing K _ _ _ _ T3).
    refine (rescale_no_missing K _ _ _ _ T2).
    refine (imputer_no_missing K _ _ _ _ _ T1); intros; discriminate.
Qed.

(** So does the regular pipeline. *)
Lemma numeric_knn_shape (params : knn_params) (B B' out : matrix)
      (fs : list fitted_estimator) :
  fit_steps K [("impute_knn", KNNImputer params); ("scale", StandardScaler)] B = Ok fs ->
  transform_steps K fs B' = Ok out ->
  List.length out = count_true (map (fun c => negb (all_missing c)) B) /\
  no_missing out.
Proof.
  intros Hfit Htr.
  apply fit_steps_cons in Hfit. destruct Hfit as (f1 & X1 & fs1 & F1 & H1 & Hfit & ->).
  apply fit_steps_cons in Hfit. destruct Hfit as (f2 & X2 & fs2 & F2 & H2 & Hfit & ->).
  inversion Hfit; subst fs2; clear Hfit.
  apply fit_step_inv in F1, F2.
  destruct F1 as [Hinf ->], F2 as [_ ->].
  apply transform_steps_cons in Htr. destruct Htr as (Y1 & T1 & Htr).
  apply transform_steps_cons in Htr. destruct Htr as (Y2 & T2 & Htr).
  inversion Htr; subst Y2; clear Htr.
  split.
  - rewrite (transform_step_width K _ _ _ T2). cbn [out_width].
    now rewrite (transform_step_width K _ _ _ H1).
  - refine (rescale_no_missing K _ _ _ _ T2).
    refine (imputer_no_missing K _ _ _ _ _ T1); intros; discriminate.
Qed.

End PipelineShapes.

(** ** The categorical sub-pipeline *)

Lemma check_object_array_inv {A} (X : list (list A)) (u : unit) :
  check_object_array X = Ok u -> X <> [].
Proof. destruct X; [discriminate | intros _; discriminate]. Qed.


Lemma impute_mode_inv (statistics : list (option string))
      (X : list (list (option string))) (Xt : text_matrix) :
  impute_mode statistics X = Ok Xt ->
  List.length statistics = List.length X /\ Xt = imputed statistics X.
Proof.
  unfold impute_mode. intros H. bind_inv H. bind_inv H.
  apply check_n_features_inv in E0. inversion H. auto.
Qed.



Lemma keep_In_fill (statistics : list (option string))
      (X : list (list (option string))) (c : list string) :
  In c (imputed statistics X) ->
  exists m col, In (Some m, col) (combine statistics X) /\ c = fill (Some m) col.
Proof.
  unfold imputed. revert X.
  induction statistics as [| st l IH]; intros [| col X] H; simpl in *;
    try contradiction.
  destruct st as [m |]; simpl in H.
  - destruct H as [<- | H].
    + exists m, col. auto.
    + destruct (IH X H) as (m' & col' & Hin & Hc). exists m', col'. auto.
  - destruct (IH X H) as (m' & col' & Hin & Hc). exists m', col'. auto.
Qed.



Lemma onehot_inv (categories : list (list string)) (Xt : text_matrix) (out : matrix) :
  onehot categories Xt = Ok out ->
  List.length categories = List.length Xt /\ out = onehot_blocks categories Xt.
Proof.
  unfold onehot. intros H. bind_inv H. bind_inv H.
  apply check_n_features_inv in E0. inversion H. auto.
Qed.


Lemma onehot_blocks_length (categories : list (list string)) (Xt : text_matrix) :
  List.length categories = List.length Xt ->
  List.length (onehot_blocks categories Xt)
  = list_sum (map (@List.length string) categories).
Proof.
  unfold onehot_blocks. revert Xt.
  induction categories as [| k t IH]; intros [| c Xt] H; simpl in *;
    try discriminate; [reflexivity |].
  rewrite length_app, IH by lia. unfold onehot_column. now rewrite length_map.
Qed.

Lemma onehot_blocks_no_missing (categories : list (list string)) (Xt : text_matrix) :
  no_missing (onehot_blocks categories Xt).
Proof.
  unfold no_missing, onehot_blocks. apply Forall_forall. intros blk Hb.
  apply in_flat_map in Hb. destruct Hb as ([k c] & _ & Hb). simpl in Hb.
  unfold onehot_column in Hb. apply in_map_iff in Hb. destruct Hb as (cat & <- & _).
  unfold indicator. apply Forall_forall. intros x Hx.
  apply in_map_iff in Hx. destruct Hx as (v & <- & _). reflexivity.
Qed.


Lemma fit_categorical_inv (B : list (list (option string))) (f : fitted_categorical) :
  fit_categorical B = Ok f ->
  statistics_ f = map most_frequent B /\
  categories_ f = map unique_sorted (imputed (statistics_ f) B) /\
  imputed (statistics_ f) B <> [].
Proof.
  unfold fit_categorical. intros H. bind_inv H. bind_inv H. bind_inv H. bind_inv H.
  inversion H; subst f; clear H. simpl.
  apply impute_mode_inv in E0. destruct E0 as [_ ->].
  apply check_object_array_inv in E1. auto.
Qed.

Lemma transform_categorical_shape (f : fitted_categorical)
      (B' : list (list (option string))) (out : matrix) :
  transform_categorical f B' = Ok out ->
  List.length out = list_sum (map (@List.length string) (categories_ f)) /\
  no_missing out.
Proof.
  unfold transform_categorical. intros H. bind_inv H.
  apply onehot_inv in H. destruct H as [Hlen ->]. split.
  - now apply onehot_blocks_length.
  - apply onehot_blocks_no_missing.
Qed.


(** ** The composite transformation *)

Lemma numeric_block_observed (X : DataFrame) (cols : list string) (B : matrix) :
  numeric_block X cols = Ok B ->
  count_true (map (fun c => negb (all_missing c)) B)
  = List.length (filter (observed X) cols).
Proof.
  unfold numeric_block, count_true. revert B.
  induction cols as [| c t IH]; intros B H; simpl in H.
  - inversion H. reflexivity.
  - bind_inv H. bind_inv H. inversion H; subst B; clear H.
    unfold observed at 1. simpl.
    destruct (getitem X c) as [s |]; simpl in E; [| discriminate].
    destruct (as_float s) as [v |]; inversion E; subst a.
    specialize (IH a0 eq_refl).
    destruct (negb (all_missing v)); simpl; now rewrite IH.
Qed.

Section CompositeShapes.

Variable params : knn_params.
Variable K : Kernels.

Lemma fit_inv (ct : ColumnTransformer) (X : DataFrame) (fct : FittedColumnTransformer) :
  fit K ct X = Ok fct ->
  Forall2 (fitted_from K X) (transformers ct) fct.
Proof.
  unfold fit. intros H. apply mapM_Forall2 in H.
  induction H as [| [[name p] cols] ft T F Hft _ IH]; constructor; [| exact IH].
  bind_inv Hft. inversion Hft; subst ft. unfold fitted_from. simpl. auto.
Qed.

Lemma transform_inv (fct : FittedColumnTransformer) (X : DataFrame) (out : matrix) :
  transform K fct X = Ok out ->
  exists blocks,
    Forall2 (fun ft blk =>
               transform_pipeline K
                                  (snd (fst ft)) X (snd ft) = Ok blk)
            fct blocks /\
    out = List.concat blocks.
Proof.
  unfold transform. intros H. bind_inv H. inversion H; subst out; clear H.
  exists a. split; [| reflexivity]. apply mapM_Forall2 in E.
  induction E as [| [[name f] cols] blk F Bs Hb _ IH]; constructor; [exact Hb | exact IH].
Qed.

(** One block: its width and its cells. *)
Lemma block_shape (X X' : DataFrame) (t : string * Pipeline * list string)
      (ft : string * fitted_pipeline * list string) (blk : matrix) :
  built_pipeline params (snd (fst t)) ->
  fitted_from K X t ft ->
  transform_pipeline K (snd (fst ft)) X' (snd ft)
  = Ok blk ->
  List.length blk = block_width X ft /\ no_missing blk.
Proof.
  destruct t as [[name p] cols], ft as [[name' fp] cols'].
  unfold fitted_from, block_width. simpl.
  intros Hp (_ & -> & Hfit) Htr.
  destruct Hp as [-> | [-> | ->]]; unfold fit_pipeline in Hfit;
    cbn [numeric_skewed numeric_knn categorical] in Hfit;
    bind_inv Hfit; bind_inv Hfit; inversion Hfit; subst fp; clear Hfit;
    unfold transform_pipeline in Htr; bind_inv Htr.
  - rewrite <- (numeric_block_observed X cols a E).
    exact (numeric_skewed_shape K _ _ _ _ E0 Htr).
  - rewrite <- (numeric_block_observed X cols a E).
    exact (numeric_knn_shape K _ _ _ _ _ E0 Htr).
  - exact (transform_categorical_shape _ _ _ Htr).
Qed.

Lemma no_missing_app (M N : matrix) : no_missing M -> no_missing N -> no_missing (M ++ N).
Proof. unfold no_missing. intros. apply Forall_app. auto. Qed.

Lemma blocks_shape (X X' : DataFrame) (T : list (string * Pipeline * list string))
      (fct : FittedColumnTransformer) (blocks : list matrix) :
  Forall (fun t => built_pipeline params (snd (fst t))) T ->
  Forall2 (fitted_from K X) T fct ->
  Forall2 (fun ft blk =>
             transform_pipeline K
                                (snd (fst ft)) X' (snd ft) = Ok blk)
          fct blocks ->
  List.length (List.concat blocks) = list_sum (map (block_width X) fct) /\
  no_missing (List.concat blocks).
Proof.
  intros Hall Hfit. revert blocks.
  induction Hfit as [| t ft T F Hft _ IH]; intros blocks Htr.
  - inversion Htr. simpl. split; [reflexivity | constructor].
  - inversion Htr as [| ? blk ? Bs Hb Hrest]; subst. simpl.
    inversion Hall as [| ? ? Ht HT]; subst.
    destruct (block_shape X X' t ft blk Ht Hft Hb) as [Hw Hm].
    destruct (IH HT Bs Hrest) as [Hw' Hm'].
    rewrite length_app, Hw, Hw'. split; [reflexivity | now apply no_missing_app].
Qed.

Lemma block_width_sum (X : DataFrame) (fct : FittedColumnTransformer) :
  list_sum (map (block_width X) fct)
  = (onehot_width fct + List.length (filter (observed X) (numeric_columns fct)))%nat.
Proof.
  unfold onehot_width, numeric_columns.
  induction fct as [| [[name fp] cols] F IH]; simpl; [reflexivity |].
  unfold block_width at 1. simpl. rewrite IH.
  destruct fp as [fs | f]; simpl.
  - rewrite filter_app, length_app. lia.
  - rewrite list_sum_app. lia.
Qed.

Lemma fitted_numeric_columns (X : DataFrame) (T : list (string * Pipeline * list string))
      (fct : FittedColumnTransformer) :
  Forall2 (fitted_from K X) T fct ->
  numeric_columns fct
  = flat_map (fun t => match snd (fst t) with
                       | Numeric _ => snd t
                       | Categorical => []
                       end) T.
Proof.
  unfold numeric_columns.
  induction 1 as [| [[name p] cols] [[name' fp] cols'] T F Hft _ IH]; simpl;
    [reflexivity |].
  rewrite IH. f_equal. unfold fitted_from in Hft. simpl in Hft.
  destruct Hft as (_ & -> & Hfit). unfold fit_pipeline in Hfit.
  destruct p; bind_inv Hfit; bind_inv Hfit; inversion Hfit; reflexivity.
Qed.

End CompositeShapes.

Lemma filter_split_length {A} (p q : A -> bool) (l : list A) :
  (List.length (filter p (filter q l))
   + List.length (filter p (filter (fun x => negb (q x)) l)))%nat
  = List.length (filter p l).
Proof.
  induction l as [| x t IH]; simpl; [reflexivity |].
  destruct (q x), (p x) eqn:Hp; simpl; rewrite ?Hp; simpl; lia.
Qed.

Lemma profile_numeric_count (X : DataFrame) (skewed regular objs : list string)
      (p : string -> bool) :
  profile X = Ok (skewed, regular, objs) ->
  List.length (filter p (skewed ++ regular)) = List.length (filter p (num_cols X)).
Proof.
  intros Hp. destruct (profile_inv X _ _ _ Hp) as (_ & Hsk & Hrg & _).
  assert (Hrg' : regular
                 = filter (fun c => negb (holds (is_skewed X) c)) (num_cols X)).
  { rewrite Hrg. apply filter_ext_in. intros c Hc. f_equal.
    destruct (holds (is_skewed X) c) eqn:Hh.
    - apply mem_In. rewrite Hsk. apply filter_In. auto.
    - apply mem_false. rewrite Hsk, filter_In. intros [_ H]. congruence. }
  rewrite filter_app, length_app, Hrg'. rewrite Hsk at 1.
  apply filter_split_length.
Qed.

Lemma built_transformers (params : knn_params) (X : DataFrame)
      (skewed regular objs : list string) (ct : ColumnTransformer) :
  profile X = Ok (skewed, regular, objs) ->
  _build_transformer params X = Ok ct ->
  Forall (fun t => built_pipeline params (snd (fst t))) (transformers ct) /\
  flat_map (fun t => match snd (fst t) with
                     | Numeric _ => snd t
                     | Categorical => []
                     end) (transformers ct)
  = skewed ++ regular.
Proof.
  intros Hp Hb. rewrite (build_transformer_inv params X _ _ _ ct Hp Hb).
  unfold built_pipeline. split.
  - repeat (apply Forall_app; split);
      (match goal with |- Forall _ (if ?b then _ else _) => destruct b end;
       [constructor; [simpl; tauto | constructor] | constructor]).
  - destruct skewed, regular, objs; simpl; rewrite ?app_nil_r; reflexivity.
Qed.

(** C8 (as amended). The shape of the transformed output: when the
    transformation built and fitted on the training features is applied to
    a frame, the number of output columns is the sum of the fit-time
    category counts of the categorical columns plus the number of numeric
    columns that have at least one non-missing training value, and no
    output cell is missing. *)
Theorem transformed_shape (params : knn_params)
        (K : Kernels)
        (X X' : DataFrame) (ct : ColumnTransformer) (fct : FittedColumnTransformer)
        (out : matrix) :
  _build_transformer params X = Ok ct ->
  fit K ct X = Ok fct ->
  transform K fct X' = Ok out ->
  List.length out
  = (onehot_width fct + List.length (observed_numeric_columns X))%nat /\
  no_missing out.
Proof.
  intros Hb Hfit Htr.
  destruct (build_transformer_profile params X ct Hb) as (sk & rg & ob & Hp).
  destruct (built_transformers params X sk rg ob ct Hp Hb) as [Hall Hcols].
  pose proof (fit_inv K ct X fct Hfit) as HF.
  destruct (transform_inv K fct X' out Htr)
    as (blocks & HB & ->).
  destruct (blocks_shape params K
                         X X' _ fct blocks Hall HF HB) as [Hw Hm].
  split; [| exact Hm].
  rewrite Hw, block_width_sum.
  rewrite (fitted_numeric_columns K X _ fct HF).
  rewrite Hcols. unfold observed_numeric_columns.
  now rewrite (profile_numeric_count X sk rg ob (observed X) Hp).
Qed.

(** The frame [sparse_frame] has two numeric columns and two categories,
    and three output columns: the empty column is gone. *)
Example sparse_frame_widths :
  exists ct fct out,
    _build_transformer sample_params sparse_frame = Ok ct /\
    fit sample_kernels ct sparse_frame = Ok fct /\
    transform sample_kernels fct sparse_frame = Ok out /\
    List.length out = 3%nat /\
    onehot_width fct = 2%nat /\
    List.length (num_cols sparse_frame) = 2%nat /\
    List.length (obj_cols sparse_frame) = 1%nat.
Proof.
  do 3 eexists. split; [vm_compute; reflexivity |].
  split; [vm_compute; reflexivity |].
  split; [vm_compute; reflexivity |].
  repeat split.
Qed.

(** C8 as stated fails: the output does not have one column per numeric
    column when a numeric column is entirely missing in training. *)
Lemma output_width_counterexample :
  ~ (forall (params : knn_params) (K : Kernels)
            (X : DataFrame) (ct : ColumnTransformer) (fct : FittedColumnTransformer)
            (out : matrix),
        num_cols X <> [] -> obj_cols X <> [] ->
        _build_transformer params X = Ok ct ->
        fit K ct X = Ok fct ->
        transform K fct X = Ok out ->
        List.length out = (onehot_width fct + List.length (num_cols X))%nat).
Proof.
  intros H.
  destruct sparse_frame_widths as (ct & fct & out & Hb & Hf & Ht & Hw & Ho & Hn & _).
  specialize (H sample_params sample_kernels
                sparse_frame ct fct out).
  rewrite Hw, Ho, Hn in H.
  assert (3 = 2 + 2)%nat; [| discriminate].
  apply H; try assumption; discriminate.
Qed.

(** ** Unseen categories *)

Lemma imputed_kept (statistics : list (option string))
      (X : list (list (option string))) :
  imputed statistics X
  = map (fun mc => fill (Some (fst mc)) (snd mc)) (kept_columns statistics X).
Proof.
  unfold imputed. revert X.
  induction statistics as [| [m |] st IH]; intros [| col X]; simpl; try reflexivity.
  - now rewrite IH.
  - apply IH.
Qed.

Lemma onehot_blocks_map {A} (g : A -> list string) (categories : list (list string))
      (l : list A) :
  onehot_blocks categories (map g l)
  = flat_map (fun kc => onehot_column (fst kc) (g (snd kc))) (combine categories l).
Proof.
  unfold onehot_blocks. revert l.
  induction categories as [| k t IH]; intros [| x l]; simpl; try reflexivity.
  now rewrite IH.
Qed.

Lemma categorical_output_eq (f : fitted_categorical) (X : list (list (option string))) :
  onehot_blocks (categories_ f) (imputed (statistics_ f) X) = categorical_output f X.
Proof.
  unfold categorical_output. rewrite imputed_kept.
  exact (onehot_blocks_map (fun mc => fill (Some (fst mc)) (snd mc)) _ _).
Qed.

Lemma Forall2_In_r {A B} (R : A -> B -> Prop) (l : list A) (r : list B) (y : B) :
  Forall2 R l r -> In y r -> exists x, In x l /\ R x y.
Proof.
  induction 1 as [| a b l r Hab _ IH]; intros Hin; [contradiction |].
  destruct Hin as [<- | Hin].
  - exists a. simpl. auto.
  - destruct (IH Hin) as (x & Hx & HR). exists x. simpl. auto.
Qed.


(** ** The theorems at work on the sample files *)

Lemma sample_transformer_built :
  _build_transformer sample_params sample_frame = Ok sample_transformer.
Proof. vm_compute. reflexivity. Qed.

Lemma no_test_leakage_witness :
  exists p1 p2,
    run "Result" sample_params sample_kernels
        sample_train sample_test = Ok p1 /\
    run "Result" sample_params sample_kernels
        sample_train sample_test_other = Ok p2 /\
    (preprocessor_fitted p1 = preprocessor_fitted p2 /\
     train_arr p1 = train_arr p2 /\
     y_encoder p1 = y_encoder p2 /\
     (exists skewed regular objs ct,
         profile (drop sample_train "Result") = Ok (skewed, regular, objs) /\
         _build_transformer sample_params (drop sample_train "Result") = Ok ct /\
         fit sample_kernels ct
             (drop sample_train "Result") = Ok (preprocessor_fitted p1)) /\
     transform sample_kernels
               (preprocessor_fitted p1) (drop sample_test "Result")
     = Ok (fst (test_arr p1)) /\
     transform sample_kernels
               (preprocessor_fitted p1) (drop sample_test_other "Result")
     = Ok (fst (test_arr p2))).
Proof.
  do 2 eexists.
  split; [vm_compute; reflexivity |].
  split; [vm_compute; reflexivity |].
  apply (no_test_leakage "Result" sample_params sample_kernels
                         sample_train sample_test sample_test_other);
    vm_compute; reflexivity.
Defined.

Lemma unseen_test_label_witness :
  getitem text_train "Result" = Ok text_labels /\
  getitem text_test "Result" = Ok (ObjectSeries [Some "benign"; Some "suspicious"]) /\
  is_numeric_dtype text_labels = false /\
  _build_transformer sample_params (drop text_train "Result") = Ok sample_transformer /\
  some_label_unseen text_labels (ObjectSeries [Some "benign"; Some "suspicious"]) /\
  (some_label_unseen text_labels (ObjectSeries [Some "benign"; Some "suspicious"]) ->
   encode_target text_labels (ObjectSeries [Some "benign"; Some "suspicious"])
   = Raise (LibraryError ValueError_unseen_labels) /\
   exists e,
     run "Result" sample_params sample_kernels
         text_train text_test = Raise e /\
     UnseenLabelError e) /\
  (all_labels_seen text_labels (ObjectSeries [Some "benign"; Some "suspicious"]) ->
   exists codes_train codes_test classes,
     encode_target text_labels (ObjectSeries [Some "benign"; Some "suspicious"])
     = Ok (IntSeries codes_train, IntSeries codes_test, Some classes)).
Proof.
  assert (H1 : getitem text_train "Result" = Ok text_labels) by reflexivity.
  assert (H2 : getitem text_test "Result"
               = Ok (ObjectSeries [Some "benign"; Some "suspicious"])) by reflexivity.
  assert (H3 : is_numeric_dtype text_labels = false) by reflexivity.
  assert (H4 : _build_transformer sample_params (drop text_train "Result")
               = Ok sample_transformer) by (vm_compute; reflexivity).
  split; [exact H1 |]. split; [exact H2 |]. split; [exact H3 |]. split; [exact H4 |].
  split.
  - exists (Some "suspicious"). split; [simpl; auto |].
    simpl. intros H. repeat destruct H as [H | H]; try discriminate H; contradiction.
  - exact (unseen_test_label "Result" sample_params sample_kernels
                             text_train text_test _ _ _ H1 H2 H3 H4).
Defined.

Lemma transformed_shape_witness :
  exists fct out,
    _build_transformer sample_params sample_frame = Ok sample_transformer /\
    fit sample_kernels sample_transformer sample_frame
    = Ok fct /\
    transform sample_kernels fct sample_test_features
    = Ok out /\
    (List.length out
     = (onehot_width fct + List.length (observed_numeric_columns sample_frame))%nat /\
     no_missing out).
Proof.
  do 2 eexists.
  split; [exact sample_transformer_built |].
  split; [vm_compute; reflexivity |].
  split; [vm_compute; reflexivity |].
  apply (transformed_shape sample_params sample_kernels
                           sample_frame sample_test_features sample_transformer);
    [exact sample_transformer_built | vm_compute; reflexivity | vm_compute; reflexivity].
Defined.

(** The test file holds the protocol "gopher", which the training file does
    not: the three indicator columns (ftp, http, https) are 0 in that row. *)
Example gopher_is_all_zero :
  exists fct out,
    fit sample_kernels sample_transformer sample_frame
    = Ok fct /\
    transform sample_kernels fct sample_test_features
    = Ok out /\
    skipn 3 out = [[Fin 0; Fin 0]; [Fin 0; Fin 1]; [Fin 0; Fin 0]].
Proof.
  do 2 eexists. split; [vm_compute; reflexivity |].
  split; [vm_compute; reflexivity |]. reflexivity.
Qed.


(* ===================================================================== *)
(** * Further properties                                                  *)
(* ===================================================================== *)

(** ** What a run raises *)

Lemma raises_library_ok {A} (a : A) : raises_library (Ok a).
Proof. intros e H. discriminate. Qed.

Lemma raises_library_raise {A} (cause : library_error) :
  raises_library (@Raise A (LibraryError cause)).
Proof. intros e H. inversion H. eauto. Qed.

Lemma raises_library_bind {A B} (m : result A) (k : A -> result B) :
  raises_library m -> (forall a, m = Ok a -> raises_library (k a)) ->
  raises_library (bind m k).
Proof.
  intros Hm Hk e H. destruct m as [a | e']; simpl in H.
  - exact (Hk a eq_refl e H).
  - inversion H; subst. now apply Hm.
Qed.

Lemma raises_library_mapM {A B} (f : A -> result B) (l : list A) :
  (forall x, In x l -> raises_library (f x)) -> raises_library (mapM f l).
Proof.
  induction l as [| x t IH]; intros Hf; simpl.
  - apply raises_library_ok.
  - apply raises_library_bind; [apply Hf; now left |]. intros y _.
    apply raises_library_bind; [apply IH; intros; apply Hf; now right |].
    intros r _. apply raises_library_ok.
Qed.

Lemma raises_library_filterM {A} (p : A -> result bool) (l : list A) :
  (forall x, In x l -> raises_library (p x)) -> raises_library (filterM p l).
Proof.
  induction l as [| x t IH]; intros Hf; simpl.
  - apply raises_library_ok.
  - apply raises_library_bind; [apply Hf; now left |]. intros y _.
    apply raises_library_bind; [apply IH; intros; apply Hf; now right |].
    intros r _. apply raises_library_ok.
Qed.

Lemma raises_library_getitem (X : DataFrame) (c : string) : raises_library (getitem X c).
Proof.
  unfold getitem. destruct (filter _ X) as [| [c' s] [| ? ?]];
    try apply raises_library_raise. apply raises_library_ok.
Qed.

Create HintDb raises.
#[local] Hint Resolve raises_library_ok raises_library_raise raises_library_getitem : raises.

Lemma raises_library_profile (X : DataFrame) : raises_library (profile X).
Proof.
  unfold profile. apply raises_library_bind; [| auto with raises].
  apply raises_library_filterM. intros c _. unfold is_skewed.
  apply raises_library_bind; [auto with raises |]. intros s _.
  apply raises_library_bind.
  - unfold np_isfinite. destruct s; simpl; auto with raises.
  - intros finite _. destruct (any finite); [| auto with raises].
    apply raises_library_bind; [| auto with raises].
    unfold skew. destruct (as_float _); auto with raises.
Qed.

Lemma raises_library_check_array (X : matrix) : raises_library (check_array X).
Proof.
  unfold check_array. destruct (existsb _ X); [auto with raises |].
  destruct X as [| c t]; [auto with raises |]. destruct (_ =? _)%nat; auto with raises.
Qed.

Lemma raises_library_check_object_array {A} (X : list (list A)) :
  raises_library (check_object_array X).
Proof.
  unfold check_object_array.
  destruct X as [| c t]; [auto with raises |]. destruct (_ =? _)%nat; auto with raises.
Qed.

Lemma raises_library_check_n_features {A B} (f : list A) (X : list B) :
  raises_library (check_n_features f X).
Proof. unfold check_n_features. destruct (_ =? _)%nat; auto with raises. Qed.

Lemma raises_library_transform_step K (f : fitted_estimator) (X : matrix) :
  raises_library (transform_step K f X).
Proof.
  unfold transform_step. apply raises_library_bind; [apply raises_library_check_array |].
  intros _ _. destruct f;
    (apply raises_library_bind; [apply raises_library_check_n_features |]);
    intros; auto with raises.
Qed.

Lemma raises_library_fit_step (e : estimator) (X : matrix) :
  raises_library (fit_step e X).
Proof.
  unfold fit_step. apply raises_library_bind; [apply raises_library_check_array |].
  intros; auto with raises.
Qed.

Lemma raises_library_fit_steps K (steps : list (string * estimator)) (X : matrix) :
  raises_library (fit_steps K steps X).
Proof.
  revert X. induction steps as [| [n e] rest IH]; intros X; simpl; [auto with raises |].
  apply raises_library_bind; [apply raises_library_fit_step |]. intros f _.
  apply raises_library_bind; [apply raises_library_transform_step |]. intros Xt _.
  apply raises_library_bind; [apply IH |]. intros; auto with raises.
Qed.

Lemma raises_library_transform_steps K (fs : list fitted_estimator) (X : matrix) :
  raises_library (transform_steps K fs X).
Proof.
  revert X. induction fs as [| f rest IH]; intros X; simpl; [auto with raises |].
  apply raises_library_bind; [apply raises_library_transform_step |]. intros; apply IH.
Qed.

Lemma raises_library_impute_mode (st : list (option string)) (X : list (list (option string))) :
  raises_library (impute_mode st X).
Proof.
  unfold impute_mode.
  apply raises_library_bind; [apply raises_library_check_object_array |]. intros _ _.
  apply raises_library_bind; [apply raises_library_check_n_features |]. intros; auto with raises.
Qed.

Lemma raises_library_onehot (cats : list (list string)) (X : text_matrix) :
  raises_library (onehot cats X).
Proof.
  unfold onehot.
  apply raises_library_bind; [apply raises_library_check_object_array |]. intros _ _.
  apply raises_library_bind; [apply raises_library_check_n_features |]. intros; auto with raises.
Qed.

Lemma raises_library_numeric_block (X : DataFrame) (cols : list string) :
  raises_library (numeric_block X cols).
Proof.
  apply raises_library_mapM. intros c _.
  apply raises_library_bind; [auto with raises |]. intros s _.
  destruct (as_float s); auto with raises.
Qed.

Lemma raises_library_object_block (X : DataFrame) (cols : list string) :
  raises_library (object_block X cols).
Proof.
  apply raises_library_mapM. intros c _.
  apply raises_library_bind; [auto with raises |]. intros s _.
  destruct s; auto with raises.
Qed.

Lemma raises_library_fit K (ct : ColumnTransformer) (X : DataFrame) :
  raises_library (fit K ct X).
Proof.
  apply raises_library_mapM. intros [[name p] cols] _.
  apply raises_library_bind; [| intros; auto with raises].
  destruct p; simpl.
  - apply raises_library_bind; [apply raises_library_numeric_block |]. intros B _.
    apply raises_library_bind; [apply raises_library_fit_steps |]. intros; auto with raises.
  - apply raises_library_bind; [apply raises_library_object_block |]. intros B _.
    apply raises_library_bind; [| intros; auto with raises].
    unfold fit_categorical.
    apply raises_library_bind; [apply raises_library_check_object_array |]. intros _ _.
    apply raises_library_bind; [apply raises_library_impute_mode |]. intros Xt _.
    apply raises_library_bind; [apply raises_library_check_object_array |]. intros _ _.
    apply raises_library_bind; [apply raises_library_onehot |]. intros; auto with raises.
Qed.

Lemma raises_library_transform K (fct : FittedColumnTransformer) (X : DataFrame) :
  raises_library (transform K fct X).
Proof.
  unfold transform. apply raises_library_bind; [| intros; auto with raises].
  apply raises_library_mapM. intros [[name p] cols] _.
  destruct p; simpl.
  - apply raises_library_bind; [apply raises_library_numeric_block |]. intros B _.
    apply raises_library_transform_steps.
  - apply raises_library_bind; [apply raises_library_object_block |]. intros B _.
    unfold transform_categorical.
    apply raises_library_bind; [apply raises_library_impute_mode |]. intros.
    apply raises_library_onehot.
Qed.

Lemma raises_library_encode_target (y_train y_test : Series) :
  raises_library (encode_target y_train y_test).
Proof.
  assert (He : raises_library (encode y_train y_test)).
  { unfold encode. destruct (as_object y_train) as [labels |]; [| auto with raises].
    apply raises_library_bind.
    - apply raises_library_mapM. intros v _. destruct (index_of _ v); auto with raises.
    - intros codes _. apply raises_library_bind; [| intros; auto with raises].
      unfold transform_labels.
      destruct (as_object y_test) as [w |].
      + destruct (same_kind _ _).
        * apply raises_library_mapM. intros v _. destruct (index_of _ v); auto with raises.
        * destruct (_ =? _)%nat; auto with raises.
      + destruct (_ =? _)%nat; auto with raises. }
  unfold encode_target.
  destruct (negb (_is_binary_or_numeric_target y_train)); [exact He |].
  destruct (negb (is_numeric_dtype y_train)); [exact He | auto with raises].
Qed.

(** What [_build_transformer] raises. *)
Lemma build_transformer_raise_inv (params : knn_params) (X : DataFrame) (e : exn) :
  _build_transformer params X = Raise e ->
  (profile X = Raise (match e with NetworkSecurityException c => c | _ => e end) /\
   exists cause, e = NetworkSecurityException (LibraryError cause)) \/
  (e = NetworkSecurityException no_valid_feature_columns /\
   exists skewed regular objs,
     profile X = Ok (skewed, regular, objs) /\ skewed = [] /\ regular = [] /\ objs = []).
Proof.
  unfold _build_transformer, try_wrap. intros H.
  destruct (profile X) as [[[sk rg] ob] | e'] eqn:Hp; cbn [bind] in H.
  - right. destruct sk; [| discriminate]. destruct rg; [| discriminate].
    destruct ob; [| discriminate]. simpl in H. inversion H. split; [reflexivity |].
    now exists [], [], [].
  - left. inversion H; subst. destruct (raises_library_profile X e' Hp) as [c ->].
    split; [reflexivity | eauto].
Qed.

(** What [run] raises. *)
Lemma run_raise_inv (T : string) (params : knn_params) (K : Kernels)
      (train_df test_df : DataFrame) (e : exn) :
  run T params K train_df test_df = Raise e ->
  (e = NetworkSecurityException (missing_target_column T) /\
   (mem T (columns train_df) = false \/ mem T (columns test_df) = false)) \/
  (mem T (columns train_df) = true /\ mem T (columns test_df) = true /\
   (e = NetworkSecurityException (NetworkSecurityException no_valid_feature_columns) \/
    (exists cause, e = NetworkSecurityException (NetworkSecurityException (LibraryError cause))) \/
    exists cause, e = NetworkSecurityException (LibraryError cause))).
Proof.
  unfold run, try_wrap. intros H.
  destruct (mem T (columns train_df)) eqn:Hm; cbn [negb orb] in H;
    [| left; inversion H; auto].
  destruct (mem T (columns test_df)) eqn:Hm'; cbn [negb orb] in H;
    [| left; inversion H; auto].
  right. split; [reflexivity |]. split; [reflexivity |].
  match type of H with
  | match ?m with _ => _ end = _ => destruct m as [p | e'] eqn:Hbody; [discriminate |]
  end.
  inversion H; subst e; clear H.
  destruct (getitem train_df T) as [y |] eqn:Hy; cbn [bind] in Hbody;
    [| right; right; destruct (raises_library_getitem _ _ _ Hy) as [c Hc];
       exists c; congruence].
  destruct (getitem test_df T) as [y' |] eqn:Hy'; cbn [bind] in Hbody;
    [| right; right; destruct (raises_library_getitem _ _ _ Hy') as [c Hc];
       exists c; congruence].
  destruct (normalize_labels y y') as [y1 y2].
  destruct (_build_transformer params (drop train_df T)) as [ct | eb] eqn:Hb;
    cbn [bind] in Hbody.
  - right; right.
    assert (Hl : exists cause, e' = LibraryError cause);
      [| destruct Hl as [c ->]; eauto].
    revert e' Hbody.
    match goal with |- forall e, ?b = Raise e -> _ => change (raises_library b) end.
    apply raises_library_bind; [apply raises_library_encode_target |].
    intros [[a b] enc] _.
    apply raises_library_bind; [apply raises_library_fit |]. intros f _.
    apply raises_library_bind; [apply raises_library_transform |]. intros Xt _.
    apply raises_library_bind; [apply raises_library_transform |]. intros; auto with raises.
  - inversion Hbody; subst e'.
    destruct (build_transformer_raise_inv _ _ _ Hb) as [[_ [c ->]] | [-> _]]; eauto.
Qed.

(** X2. Every failure of a run on the two frames read is a
    [NetworkSecurityException], and its innermost cause is one of three: the
    missing-target message, the no-feature-columns message, or an error
    raised by pandas, numpy or scikit-learn. *)
Theorem run_error_taxonomy (T : string) (params : knn_params) (K : Kernels)
        (train_df test_df : DataFrame) (e : exn) :
  run T params K train_df test_df = Raise e ->
  (exists cause, e = NetworkSecurityException cause) /\
  (MissingTargetColumnError T e \/ NoFeatureColumnsError e \/ LibraryFailure e).
Proof.
  intros H.
  destruct (run_raise_inv _ _ _ _ _ _ H)
    as [[-> _] | (_ & _ & [-> | [[c ->] | [c ->]]])].
  - split; [eauto |]. left. reflexivity.
  - split; [eauto |]. right. left. reflexivity.
  - split; [eauto |]. right. right. exists c. reflexivity.
  - split; [eauto |]. right. right. exists c. reflexivity.
Qed.

(** X1. The check of the label column comes first and is exact: the run
    raises the exception that wraps the message "Missing target column
    '<label>' in input files." exactly when the label is not a column of
    the training frame or not a column of the test frame, whatever else the
    frames hold; and no other failure of a run has that message as its
    cause. *)
Theorem missing_target_column_iff (T : string) (params : knn_params) (K : Kernels)
        (train_df test_df : DataFrame) :
  ((~ In T (columns train_df) \/ ~ In T (columns test_df)) <->
   run T params K train_df test_df
   = Raise (NetworkSecurityException (missing_target_column T))) /\
  (forall e, run T params K train_df test_df = Raise e ->
             MissingTargetColumnError T e ->
             e = NetworkSecurityException (missing_target_column T)).
Proof.
  assert (Hfirst : mem T (columns train_df) = false \/ mem T (columns test_df) = false ->
                   run T params K train_df test_df
                   = Raise (NetworkSecurityException (missing_target_column T))).
  { intros Hm. unfold run.
    destruct (mem T (columns train_df)); [| reflexivity].
    destruct Hm as [Hm | Hm]; [discriminate |]. now rewrite Hm. }
  split; [split |].
  - intros [Hn | Hn]; apply Hfirst; [left | right]; now apply mem_false.
  - intros H. destruct (run_raise_inv _ _ _ _ _ _ H) as [[_ Hm] | (_ & _ & Hc)].
    + destruct Hm as [Hm | Hm]; [left | right]; now apply mem_false.
    + destruct Hc as [Hc | [[c Hc] | [c Hc]]]; discriminate Hc.
  - intros e H Hroot.
    destruct (run_raise_inv _ _ _ _ _ _ H) as [[-> _] | (_ & _ & Hc)]; [reflexivity |].
    unfold MissingTargetColumnError in Hroot.
    destruct Hc as [-> | [[c ->] | [c ->]]]; simpl in Hroot; discriminate Hroot.
Qed.

(** ** When the transformation is built *)

Lemma empty_skewed_regular (X : DataFrame) (regular : list string) :
  regular = filter (fun c => negb (mem c [])) (num_cols X) -> regular = num_cols X.
Proof.
  intros ->. induction (num_cols X) as [| c t IH]; [reflexivity |].
  cbn [filter mem existsb negb]. now f_equal.
Qed.

(** X4. On a frame with distinct column labels [_build_transformer] fails
    exactly when the frame has no numeric, boolean, text or categorical
    column; its only failure is the wrapped no-feature-columns error:
    profiling such a frame raises no library error. *)
Theorem build_transformer_fails_iff (params : knn_params) (X : DataFrame) :
  NoDup (columns X) ->
  ((num_cols X = [] /\ obj_cols X = []) <->
   _build_transformer params X
   = Raise (NetworkSecurityException no_valid_feature_columns)) /\
  (forall e, _build_transformer params X = Raise e ->
             e = NetworkSecurityException no_valid_feature_columns).
Proof.
  intros Hnd. destruct (profile_defined X Hnd) as (sk & rg & Hp).
  destruct (profile_inv _ _ _ _ Hp) as (_ & Hsk & Hrg & _).
  assert (Hinv : forall e, _build_transformer params X = Raise e ->
                           e = NetworkSecurityException no_valid_feature_columns /\
                           num_cols X = [] /\ obj_cols X = []).
  { intros e H. destruct (build_transformer_raise_inv _ _ _ H)
      as [[Hr _] | (-> & sk' & rg' & ob' & Hp' & -> & -> & ->)].
    - rewrite Hp in Hr. discriminate.
    - rewrite Hp in Hp'. injection Hp' as Hs Hr Ho.
      split; [reflexivity |]. split; [| exact Ho].
      rewrite Hs in Hrg. rewrite <- (empty_skewed_regular X rg Hrg). exact Hr. }
  split; [split |].
  - intros [Hn Ho]. unfold _build_transformer. rewrite Hp. cbn [bind].
    rewrite Hn in Hsk, Hrg. simpl in Hsk, Hrg. subst sk rg. rewrite Ho. reflexivity.
  - intros H. apply (Hinv _ H).
  - intros e H. apply (Hinv _ H).
Qed.

Lemma nonempty_true {A} (l : list A) : nonempty l = true <-> l <> [].
Proof. destruct l; simpl; split; congruence. Qed.

Lemma built_group_inv (params : knn_params) (X : DataFrame)
      (ct : ColumnTransformer) (name : string) (p : Pipeline) (cols : list string) :
  _build_transformer params X = Ok ct ->
  In (name, p, cols) (transformers ct) ->
  cols <> [] /\
  incl cols (columns X) /\
  ((name = "num_skewed" /\ p = numeric_skewed /\ incl cols (num_cols X)) \/
   (name = "num_regular" /\ p = numeric_knn params /\ incl cols (num_cols X)) \/
   (name = "cat" /\ p = categorical /\ cols = obj_cols X)).
Proof.
  intros Hb Hin.
  destruct (build_transformer_profile params X ct Hb) as (sk & rg & ob & Hp).
  pose proof (build_transformer_inv params X _ _ _ ct Hp Hb) as Ht.
  destruct (profile_inv _ _ _ _ Hp) as (_ & Hsk & Hrg & Hob).
  assert (Hs : incl sk (num_cols X))
    by (rewrite Hsk; intros c Hc; apply filter_In in Hc; tauto).
  assert (Hr : incl rg (num_cols X))
    by (rewrite Hrg; intros c Hc; apply filter_In in Hc; tauto).
  rewrite Ht in Hin.
  apply in_app_or in Hin. destruct Hin as [Hin | Hin];
    [| apply in_app_or in Hin; destruct Hin as [Hin | Hin]].
  - destruct (nonempty sk) eqn:Hne; [| contradiction].
    destruct Hin as [Hin | []]. inversion Hin; subst name p cols.
    split; [now apply nonempty_true |].
    split; [intros c Hc; apply num_cols_columns; auto | auto].
  - destruct (nonempty rg) eqn:Hne; [| contradiction].
    destruct Hin as [Hin | []]. inversion Hin; subst name p cols.
    split; [now apply nonempty_true |].
    split; [intros c Hc; apply num_cols_columns; auto | auto].
  - destruct (nonempty ob) eqn:Hne; [| contradiction].
    destruct Hin as [Hin | []]. inversion Hin; subst name p cols.
    split; [now apply nonempty_true |].
    split; [intros c Hc; apply obj_cols_columns; now rewrite <- Hob | auto].
Qed.

(** X5. The transformation that [_build_transformer] returns is well
    formed: it has at least one transformer; the names are distinct; no
    transformer has an empty column list; every column named is a column of
    the frame; and each transformer is the skewed pipeline on numeric
    columns under "num_skewed", the nearest-neighbour pipeline on numeric
    columns under "num_regular", or the categorical pipeline on the text and
    categorical columns under "cat".  The pipeline [numeric_normal] (mean
    imputation, then scaling), which the method also defines, is used by
    none. *)
Theorem built_transformer_well_formed (params : knn_params) (X : DataFrame)
        (ct : ColumnTransformer) :
  _build_transformer params X = Ok ct ->
  transformers ct <> [] /\
  NoDup (map (fun t => fst (fst t)) (transformers ct)) /\
  forall name p cols,
    In (name, p, cols) (transformers ct) ->
    cols <> [] /\
    incl cols (columns X) /\
    p <> numeric_normal /\
    ((name = "num_skewed" /\ p = numeric_skewed /\ incl cols (num_cols X)) \/
     (name = "num_regular" /\ p = numeric_knn params /\ incl cols (num_cols X)) \/
     (name = "cat" /\ p = categorical /\ cols = obj_cols X)).
Proof.
  intros Hb. destruct (build_transformer_profile params X ct Hb) as (sk & rg & ob & Hp).
  pose proof (build_transformer_inv params X _ _ _ ct Hp Hb) as Ht.
  split; [| split].
  - rewrite Ht. apply nonempty_true.
    unfold _build_transformer in Hb. rewrite Hp in Hb. cbn [bind] in Hb.
    match type of Hb with
    | try_wrap (if ?b then _ else _) = _ => destruct b; [reflexivity | discriminate]
    end.
  - rewrite Ht. destruct (nonempty sk), (nonempty rg), (nonempty ob); simpl;
      repeat constructor; simpl; intuition discriminate.
  - intros name p cols Hin.
    destruct (built_group_inv params X ct name p cols Hb Hin) as (Hne & Hincl & Hcase).
    split; [exact Hne |]. split; [exact Hincl |]. split; [| exact Hcase].
    destruct Hcase as [(_ & -> & _) | [(_ & -> & _) | (_ & -> & _)]]; discriminate.
Qed.

(** ** Skewed columns and infinite values *)





Lemma finite_values_dropna (v : list float64) :
  finite_values (filter (fun x => negb (isnan x)) v) = finite_values v.
Proof.
  induction v as [| [q | | |] t IH]; simpl; try reflexivity.
  - now rewrite IH.
  - exact IH.
Qed.

Lemma finite_values_length (v : list float64) (xs : list Q) :
  finite_values v = Some xs -> (List.length xs <= List.length v)%nat.
Proof.
  revert xs. induction v as [| [q | | |] t IH]; intros xs H; simpl in H; try discriminate.
  - inversion H. simpl. lia.
  - destruct (finite_values t) as [r |]; [| discriminate]. inversion H; subst.
    simpl. specialize (IH r eq_refl). lia.
  - specialize (IH xs H). simpl. lia.
Qed.



Lemma in_skewed_inv (X : DataFrame) (skewed regular objs : list string)
      (c : string) :
  profile X = Ok (skewed, regular, objs) -> In c skewed ->
  exists s, getitem X c = Ok s /\ is_numeric_dtype s = true /\
            gt (abs (sample_skewness s)) skew_threshold = true.
Proof.
  intros Hp Hc. destruct (profile_inv _ _ _ _ Hp) as (Hdef & Hsk & _ & _).
  rewrite Hsk in Hc. apply filter_In in Hc. destruct Hc as [Hnum Hh].
  destruct (Hdef c Hnum) as [b Hb].
  apply in_num_cols in Hnum. destruct Hnum as (s & Hin & Hs).
  assert (Hg : getitem X c = Ok s).
  { unfold is_skewed in Hb. destruct (getitem X c) as [s' |] eqn:Hg; [| discriminate].
    now rewrite (getitem_unique _ _ _ _ Hg Hin). }
  exists s. split; [assumption |]. split; [assumption |].
  unfold holds in Hh. now rewrite (is_skewed_rule _ _ _ Hg Hs) in Hh.
Qed.


Lemma mapM_raise_some {A B} (f : A -> result B) (l : list A) :
  (exists x e, In x l /\ f x = Raise e) -> exists e, mapM f l = Raise e.
Proof.
  induction l as [| x t IH]; intros (x0 & e & Hin & He); [contradiction |].
  simpl. destruct (f x) as [y |] eqn:Hx; [| simpl; eauto].
  destruct Hin as [-> | Hin]; [congruence |].
  destruct IH as [e' He']; [eauto |]. rewrite He'. simpl. eauto.
Qed.

Lemma isinf_skew_nan (v : list float64) :
  existsb isinf v = true -> finite_values v = None.
Proof.
  induction v as [| [q | | |] t IH]; simpl; intros H; try discriminate; try reflexivity.
  - now rewrite IH.
  - auto.
Qed.

Lemma check_array_infinity (B : matrix) (v : list float64) :
  In v B -> existsb isinf v = true ->
  check_array B = Raise (LibraryError ValueError_infinity).
Proof.
  intros Hin Hv. unfold check_array.
  assert (H : existsb (existsb isinf) B = true) by (apply existsb_exists; eauto).
  now rewrite H.
Qed.

Lemma numeric_block_ok (X : DataFrame) (cols : list string) :
  NoDup (columns X) -> incl cols (num_cols X) ->
  exists B, numeric_block X cols = Ok B /\
            forall c s v, In c cols -> In (c, s) X -> as_float s = Some v -> In v B.
Proof.
  intros Hnd. induction cols as [| c t IH]; intros Hincl.
  - exists []. split; [reflexivity |]. intros c s v [].
  - destruct IH as (B & HB & Hin); [intros x Hx; apply Hincl; now right |].
    assert (Hc : In c (num_cols X)) by (apply Hincl; now left).
    apply in_num_cols in Hc. destruct Hc as (s & Hs & Hnum).
    destruct (as_float_numeric _ Hnum) as [v Hv].
    exists (v :: B). split.
    + unfold numeric_block in *. cbn [mapM]. rewrite (getitem_NoDup _ _ _ Hnd Hs).
      cbn [bind]. rewrite Hv. cbn [bind]. rewrite HB. reflexivity.
    + intros c' s' v' [<- | Hc'] Hs' Hv'.
      * rewrite (NoDup_columns_unique _ _ _ _ Hnd Hs' Hs) in Hv'. left. congruence.
      * right. eauto.
Qed.

(** X7. An infinite value in a numeric training feature aborts the run:
    its column has no defined skewness and falls in the regular group, and
    the nearest-neighbour sub-pipeline refuses the infinity when it is
    fitted ("Input contains infinity"). *)
Theorem infinite_training_value_aborts (T : string) (params : knn_params) (K : Kernels)
        (train_df test_df : DataFrame) (c : string) (v : list float64) :
  NoDup (columns train_df) ->
  In (c, FloatSeries v) train_df ->
  c <> T ->
  existsb isinf v = true ->
  (exists skewed regular objs,
      profile (drop train_df T) = Ok (skewed, regular, objs) /\
      In c regular /\
      fit_pipeline K (numeric_knn params) (drop train_df T) regular
      = Raise (LibraryError ValueError_infinity)) /\
  exists e, run T params K train_df test_df = Raise e.
Proof.
  intros Hnd Hin Hne Hinf.
  set (X := drop train_df T).
  assert (HndX : NoDup (columns X)) by (apply NoDup_columns_filter; exact Hnd).
  assert (HinX : In (c, FloatSeries v) X).
  { apply filter_In. split; [exact Hin |]. simpl.
    destruct (String.eqb_spec c T); [contradiction | reflexivity]. }
  destruct (profile_defined X HndX) as (sk & rg & Hp).
  destruct (profile_inv _ _ _ _ Hp) as (_ & Hsk & Hrg & _).
  assert (Hnum : In c (num_cols X)).
  { apply in_num_cols. exists (FloatSeries v). split; [exact HinX | reflexivity]. }
  assert (Hreg : In c rg).
  { rewrite Hrg. apply filter_In. split; [exact Hnum |].
    apply negb_true_iff, mem_false. intros Hc.
    destruct (in_skewed_inv _ _ _ _ _ Hp Hc) as (s & Hg & _ & Hgt).
    pose proof (getitem_unique _ _ _ _ Hg HinX) as E. subst s.
    unfold sample_skewness in Hgt. simpl in Hgt.
    unfold nanskew in Hgt. rewrite finite_values_dropna in Hgt.
    rewrite (isinf_skew_nan v Hinf) in Hgt. discriminate. }
  assert (Hfitp : fit_pipeline K (numeric_knn params) X rg
                  = Raise (LibraryError ValueError_infinity)).
  { destruct (numeric_block_ok X rg HndX) as (B & HB & HvB).
    { rewrite Hrg. intros x Hx. apply filter_In in Hx. tauto. }
    unfold fit_pipeline, numeric_knn. rewrite HB. cbn [bind fit_steps].
    unfold fit_step.
    rewrite (check_array_infinity B v (HvB c _ v Hreg HinX eq_refl) Hinf).
    reflexivity. }
  split; [exists sk, rg, (obj_cols X); auto |].
  destruct (run T params K train_df test_df) as [p | e] eqn:Hrun; [| eauto].
  exfalso.
  destruct (run_inv _ _ _ _ _ _ Hrun) as (y & y' & ct & _ & _ & Hb & _ & Hf & _).
  fold X in Hb, Hf.
  pose proof (build_transformer_inv params X _ _ _ ct Hp Hb) as Ht.
  destruct (mapM_raise_some
              (fun t : string * Pipeline * list string =>
                 let '(name, p, cols) := t in
                 f <- fit_pipeline K p X cols ;; Ok (name, f, cols))
              (transformers ct)) as [e He].
  - exists ("num_regular", numeric_knn params, rg), (LibraryError ValueError_infinity).
    split.
    + rewrite Ht. apply in_or_app. right. apply in_or_app. left.
      destruct rg; [contradiction | now left].
    + now rewrite Hfitp.
  - unfold fit in Hf. rewrite He in Hf. discriminate.
Qed.

(** ** Fitting, then applying *)

Lemma fit_steps_replay (K : Kernels) (steps : list (string * estimator)) (B : matrix)
      (fs : list fitted_estimator) :
  fit_steps K steps B = Ok fs -> exists out, transform_steps K fs B = Ok out.
Proof.
  revert B fs. induction steps as [| [name e] rest IH]; intros B fs H.
  - simpl in H. inversion H. simpl. eauto.
  - destruct (fit_steps_cons K _ _ _ _ _ H) as (f & Xt & fs' & _ & Ht & Hr & ->).
    simpl. rewrite Ht. cbn [bind]. eauto.
Qed.

Lemma fit_categorical_replay (B : list (list (option string))) (f : fitted_categorical) :
  fit_categorical B = Ok f ->
  transform_categorical f B = Ok (categorical_output f B).
Proof.
  intros H. pose proof H as H0. unfold fit_categorical in H.
  bind_inv H. bind_inv H. bind_inv H. bind_inv H. inversion H; subst f. clear H.
  unfold transform_categorical. cbn [statistics_ categories_].
  rewrite E0. cbn [bind]. rewrite E2.
  destruct (impute_mode_inv _ _ _ E0) as [_ ->].
  destruct (onehot_inv _ _ _ E2) as [_ ->].
  f_equal.
  exact (categorical_output_eq
           {| statistics_ := map most_frequent B;
              categories_ := map unique_sorted (imputed (map most_frequent B) B) |} B).
Qed.

Lemma fit_pipeline_replay (K : Kernels) (p : Pipeline) (X : DataFrame)
      (cols : list string) (f : fitted_pipeline) :
  fit_pipeline K p X cols = Ok f -> exists blk, transform_pipeline K f X cols = Ok blk.
Proof.
  destruct p as [steps |]; simpl; intros H.
  - bind_inv H. bind_inv H. inversion H; subst f. simpl. rewrite E. cbn [bind].
    exact (fit_steps_replay K _ _ _ E0).
  - bind_inv H. bind_inv H. inversion H; subst f. simpl. rewrite E. cbn [bind].
    rewrite (fit_categorical_replay _ _ E0). eauto.
Qed.

Lemma mapM_ok_Forall2 {A B C} (R : A -> B -> Prop) (g : B -> result C)
      (l : list A) (r : list B) :
  Forall2 R l r -> (forall a b, R a b -> exists y, g b = Ok y) ->
  exists out, mapM g r = Ok out.
Proof.
  intros HF HR. apply mapM_ok. intros b Hb.
  destruct (Forall2_In_r _ _ _ _ HF Hb) as (a & _ & Hab). eauto.
Qed.

(** X10. A fitted transformation applies to the frame it was fitted on:
    when [preprocessor.fit(X_train)] (line 124) has returned,
    [preprocessor_fitted.transform(X_train)] (line 125) returns. *)
Theorem fit_then_transform_returns (K : Kernels) (ct : ColumnTransformer)
        (X : DataFrame) (fct : FittedColumnTransformer) :
  fit K ct X = Ok fct ->
  exists out, transform K fct X = Ok out.
Proof.
  intros H. pose proof (fit_inv K ct X fct H) as HF.
  unfold transform.
  destruct (mapM_ok_Forall2 _
              (fun t : string * fitted_pipeline * list string =>
                 let '(_, f, cols) := t in transform_pipeline K f X cols)
              _ _ HF) as [blocks Hb].
  - intros [[n p] cols] [[n' f] cols'] (_ & Hc & Hf). simpl in *. subst cols'.
    exact (fit_pipeline_replay K p X cols f Hf).
  - rewrite Hb. cbn [bind]. eauto.
Qed.

(** ** Rows of the transformed arrays *)

Lemma as_float_length (s : Series) (v : list float64) :
  as_float s = Some v -> List.length v = size s.
Proof.
  destruct s; simpl; intros H; inversion H; subst; rewrite ?length_map; reflexivity.
Qed.

Lemma numeric_block_rows (n : nat) (X : DataFrame) (cols : list string) (B : matrix) :
  rectangular n X -> numeric_block X cols = Ok B -> rows n B.
Proof.
  intros HX H. apply mapM_Forall2 in H. apply Forall_forall. intros v Hv.
  destruct (Forall2_In_r _ _ _ _ H Hv) as (c & _ & Hc).
  bind_inv Hc. destruct (as_float a) eqn:Ha; inversion Hc as [Hv'].
  rewrite <- Hv', (as_float_length _ _ Ha). apply (HX c). now apply getitem_In.
Qed.

Lemma object_block_rows (n : nat) (X : DataFrame) (cols : list string)
      (B : list (list (option string))) :
  rectangular n X -> object_block X cols = Ok B ->
  Forall (fun col => List.length col = n) B.
Proof.
  intros HX H. apply mapM_Forall2 in H. apply Forall_forall. intros v Hv.
  destruct (Forall2_In_r _ _ _ _ H Hv) as (c & _ & Hc).
  bind_inv Hc. apply getitem_In in E. specialize (HX c a E).
  destruct a; inversion Hc as [Hv']; rewrite <- Hv'; exact HX.
Qed.

Lemma transform_step_rows (K : Kernels) (n : nat) (f : fitted_estimator) (X Y : matrix) :
  rows n X -> transform_step K f X = Ok Y -> rows n Y.
Proof.
  unfold rows. rewrite !Forall_forall. intros HX H y Hy.
  unfold transform_step in H. bind_inv H.
  destruct f; bind_inv H; inversion H; subst Y; clear H.
  - apply keep_In in Hy. unfold mapi in Hy.
    apply mapi_from_In in Hy. destruct Hy as (j & x & Hx & ->).
    unfold mapi. rewrite mapi_from_length. now apply HX.
  - apply keep_In in Hy. apply in_map_iff in Hy. destruct Hy as ([s x] & <- & Hin).
    rewrite length_map. apply HX. simpl. now apply in_combine_r in Hin.
  - apply in_map_iff in Hy. destruct Hy as ([s x] & <- & Hin).
    rewrite length_map. apply HX. simpl. now apply in_combine_r in Hin.
  - apply in_map_iff in Hy. destruct Hy as ([s x] & <- & Hin).
    rewrite length_map. apply HX. simpl. now apply in_combine_r in Hin.
Qed.

Lemma transform_steps_rows (K : Kernels) (n : nat) (fs : list fitted_estimator)
      (X Y : matrix) :
  rows n X -> transform_steps K fs X = Ok Y -> rows n Y.
Proof.
  revert X. induction fs as [| f rest IH]; intros X HX H; simpl in H.
  - now inversion H; subst.
  - bind_inv H. apply (IH a); [| exact H].
    exact (transform_step_rows K n f X a HX E).
Qed.

Lemma transform_categorical_rows (n : nat) (f : fitted_categorical)
      (B : list (list (option string))) (out : matrix) :
  Forall (fun col => List.length col = n) B ->
  transform_categorical f B = Ok out -> rows n out.
Proof.
  intros HB H. unfold transform_categorical in H. bind_inv H.
  destruct (impute_mode_inv _ _ _ E) as [_ ->].
  destruct (onehot_inv _ _ _ H) as [_ ->].
  apply Forall_forall. intros y Hy. unfold onehot_blocks in Hy.
  apply in_flat_map in Hy. destruct Hy as ([cats c] & Hin & Hy). simpl in Hy.
  unfold onehot_column in Hy. apply in_map_iff in Hy. destruct Hy as (k & <- & _).
  unfold indicator. rewrite length_map.
  apply in_combine_r in Hin.
  destruct (keep_In_fill _ _ _ Hin) as (m & col & Hc & ->).
  simpl. rewrite length_map. apply in_combine_r in Hc.
  rewrite Forall_forall in HB. now apply HB.
Qed.

Lemma transform_rows (K : Kernels) (n : nat) (fct : FittedColumnTransformer)
      (X : DataFrame) (out : matrix) :
  rectangular n X -> transform K fct X = Ok out -> rows n out.
Proof.
  intros HX H. destruct (transform_inv K fct X out H) as (blocks & HF & ->).
  apply Forall_forall. intros y Hy. apply in_concat in Hy.
  destruct Hy as (blk & Hblk & Hy).
  destruct (Forall2_In_r _ _ _ _ HF Hblk) as ([[name p] cols] & _ & Hp).
  simpl in Hp. revert y Hy. apply Forall_forall. fold (rows n blk).
  destruct p as [fs | f]; simpl in Hp; bind_inv Hp.
  - apply (transform_steps_rows K n fs a); [| exact Hp].
    exact (numeric_block_rows n X cols a HX E).
  - apply (transform_categorical_rows n f a); [| exact Hp].
    exact (object_block_rows n X cols a HX E).
Qed.

Lemma rectangular_drop (n : nat) (X : DataFrame) (c : string) :
  rectangular n X -> rectangular n (drop X c).
Proof. intros H c' s Hin. apply filter_In in Hin. apply (H c'), Hin. Qed.

Lemma replace_m1_0_size (y : Series) : size (replace_m1_0 y) = size y.
Proof. destruct y; simpl; rewrite ?length_map; reflexivity. Qed.

Lemma as_object_length (y : Series) (labels : list (option string)) :
  as_object y = Some labels -> List.length labels = size y.
Proof. destruct y; simpl; intros H; inversion H; reflexivity. Qed.

Lemma encode_target_sizes (y_train y_test a b : Series)
      (enc : option (list (option string))) :
  encode_target y_train y_test = Ok (a, b, enc) ->
  size a = size y_train /\ size b = size y_test.
Proof.
  intros H. destruct (is_numeric_dtype y_train) eqn:Hnum.
  - rewrite (encode_target_numeric _ _ Hnum) in H. inversion H; subst. auto.
  - rewrite (encode_target_non_numeric _ _ Hnum) in H. unfold encode in H.
    destruct (as_object y_train) as [labels |] eqn:Hl; [| discriminate].
    bind_inv H. bind_inv H. inversion H; subst; clear H. simpl. split.
    + unfold LabelEncoder_transform in E. rewrite (mapM_ok_length _ _ _ E).
      now apply as_object_length.
    + unfold transform_labels in E0.
      destruct (as_object y_test) as [w |] eqn:Hw.
      * destruct (same_kind y_train y_test).
        -- unfold LabelEncoder_transform in E0. rewrite (mapM_ok_length _ _ _ E0).
           now apply as_object_length.
        -- destruct (Nat.eqb_spec (size y_test) 0); inversion E0; subst. simpl. lia.
      * destruct (Nat.eqb_spec (size y_test) 0); inversion E0; subst. simpl. lia.
Qed.

(** X11. The arrays of a run are aligned.  When the training file has [n]
    rows and the test file [m], every column of the transformed training
    features has [n] entries and so has the training label column, and the
    same with [m] for the test file: the two [np.c_] concatenations of lines
    133-134 put together arrays with the same number of rows. *)
Theorem run_arrays_aligned (T : string) (params : knn_params) (K : Kernels)
        (train_df test_df : DataFrame) (p : Persisted) (n m : nat) :
  run T params K train_df test_df = Ok p ->
  rectangular n train_df ->
  rectangular m test_df ->
  rows n (fst (train_arr p)) /\ size (snd (train_arr p)) = n /\
  rows m (fst (test_arr p)) /\ size (snd (test_arr p)) = m.
Proof.
  intros H Hn Hm.
  destruct (run_inv _ _ _ _ _ _ H) as (y & y' & ct & Hy & Hy' & _ & He & _ & Ht & Hs).
  destruct (encode_target_sizes _ _ _ _ _ He) as [Ha Hb].
  assert (Hy1 : size (fst (normalize_labels y y')) = size y)
    by (unfold normalize_labels; destruct (is_numeric_dtype y); simpl;
        rewrite ?replace_m1_0_size; reflexivity).
  assert (Hy2 : size (snd (normalize_labels y y')) = size y')
    by (unfold normalize_labels; destruct (is_numeric_dtype y); simpl;
        rewrite ?replace_m1_0_size; reflexivity).
  repeat split.
  - exact (transform_rows K n _ _ _ (rectangular_drop n _ T Hn) Ht).
  - rewrite Ha, Hy1. apply (Hn T). now apply getitem_In.
  - exact (transform_rows K m _ _ _ (rectangular_drop m _ T Hm) Hs).
  - rewrite Hb, Hy2. apply (Hm T). now apply getitem_In.
Qed.

(** ** One-hot rows and label codes *)

Lemma StronglySorted_NoDup {A} (R : A -> A -> Prop) (l : list A) :
  (forall x, ~ R x x) -> StronglySorted R l -> NoDup l.
Proof.
  intros Hirr. induction 1 as [| a l HS IH Hall]; constructor; [| exact IH].
  intros Hin. rewrite Forall_forall in Hall. exact (Hirr a (Hall a Hin)).
Qed.

Lemma unique_sorted_NoDup (l : list string) : NoDup (unique_sorted l).
Proof.
  apply (StronglySorted_NoDup string_lt); [apply string_lt_irrefl |].
  apply unique_sorted_sorted.
Qed.

Lemma combine_map_In {A B} (h : A -> B) (l : list A) (a : A) (b : B) :
  In (b, a) (combine (map h l) l) -> b = h a.
Proof.
  induction l as [| x t IH]; simpl; [contradiction |].
  intros [H | H]; [now inversion H | auto].
Qed.

Lemma indicator_row (k : string) (c : list string) (i : nat) (v : string) :
  nth_error c i = Some v ->
  nth_error (indicator k c) i = Some (Fin (if String.eqb v k then 1 else 0)).
Proof.
  intros H. unfold indicator. now rewrite nth_error_map, H.
Qed.

Lemma onehot_row_zeros (cats : list string) (c : list string) (i : nat) (v : string) :
  nth_error c i = Some v -> ~ In v cats ->
  row i (onehot_column cats c) = zeros (List.length cats).
Proof.
  intros Hi. induction cats as [| k t IH]; intros Hn; [reflexivity |].
  unfold row, onehot_column, zeros in *. cbn [map List.length repeat].
  rewrite (indicator_row k c i v Hi).
  destruct (String.eqb_spec v k) as [-> | _]; [exfalso; apply Hn; now left |].
  f_equal. apply IH. intros H. apply Hn. now right.
Qed.

Lemma onehot_row_unit (pre post : list string) (c : list string) (i : nat) (v : string) :
  nth_error c i = Some v -> NoDup (pre ++ v :: post) ->
  row i (onehot_column (pre ++ v :: post) c)
  = zeros (List.length pre) ++ Some (Fin 1) :: zeros (List.length post).
Proof.
  intros Hi Hnd.
  assert (Hpre : ~ In v pre).
  { intros H. apply NoDup_remove_2 in Hnd. apply Hnd. apply in_or_app. now left. }
  assert (Hpost : ~ In v post).
  { intros H. apply NoDup_remove_2 in Hnd. apply Hnd. apply in_or_app. now right. }
  unfold row, onehot_column. rewrite !map_app. cbn [map].
  f_equal; [exact (onehot_row_zeros pre c i v Hi Hpre) |].
  rewrite (indicator_row v c i v Hi), String.eqb_refl.
  f_equal. exact (onehot_row_zeros post c i v Hi Hpost).
Qed.

(** X12. On the frame it was fitted on, the categorical sub-pipeline
    returns, and every row is one-hot in every categorical column that has a
    value at fit time: the value of the row (the most frequent value where
    the cell is missing) is one of the fit-time categories, its indicator is
    1 and the indicators of the categories before and after it are 0. *)
Theorem training_rows_are_one_hot (B : list (list (option string)))
        (f : fitted_categorical) :
  fit_categorical B = Ok f ->
  transform_categorical f B = Ok (categorical_output f B) /\
  forall cats m col i,
    In (cats, (m, col)) (combine (categories_ f) (kept_columns (statistics_ f) B)) ->
    (i < List.length col)%nat ->
    exists v pre post,
      nth_error (fill (Some m) col) i = Some v /\
      cats = pre ++ v :: post /\
      row i (onehot_column cats (fill (Some m) col))
      = zeros (List.length pre) ++ Some (Fin 1) :: zeros (List.length post).
Proof.
  intros H. split; [exact (fit_categorical_replay B f H) |].
  intros cats m col i Hin Hi.
  destruct (fit_categorical_inv B f H) as (_ & Hc & _).
  rewrite Hc, imputed_kept, map_map in Hin.
  apply combine_map_In in Hin. cbn [fst snd] in Hin.
  destruct (nth_error (fill (Some m) col) i) as [v |] eqn:Hv.
  2:{ apply nth_error_None in Hv. simpl in Hv. rewrite length_map in Hv. lia. }
  assert (Hv' : In v cats).
  { rewrite Hin. apply unique_sorted_In. exact (nth_error_In _ _ Hv). }
  destruct (in_split _ _ Hv') as (pre & post & Hsplit).
  exists v, pre, post. split; [reflexivity |]. split; [exact Hsplit |].
  rewrite Hsplit. apply onehot_row_unit; [exact Hv |].
  rewrite <- Hsplit, Hin. apply unique_sorted_NoDup.
Qed.

Lemma index_of_decode (classes : list (option string)) (v : option string) (i : Z) :
  index_of classes v = Some i -> decode classes i = Some v.
Proof.
  revert i. induction classes as [| k t IH]; intros i H; simpl in H; [discriminate |].
  destruct (label_eqb k v) eqn:Hk.
  - inversion H; subst. apply label_eqb_eq in Hk. subst. reflexivity.
  - destruct (index_of t v) as [j |] eqn:Hj; [| discriminate]. inversion H; subst.
    pose proof (index_of_nonneg _ _ _ Hj) as Hnn.
    specialize (IH j eq_refl). unfold decode in *.
    destruct (Z.ltb_spec j 0); [lia |].
    destruct (Z.ltb_spec (Z.succ j) 0); [lia |].
    rewrite Z2Nat.inj_succ by assumption. exact IH.
Qed.

Lemma LabelEncoder_transform_decode (classes y : list (option string)) (codes : list Z) :
  LabelEncoder_transform classes y = Ok codes ->
  map (decode classes) codes = map Some y.
Proof.
  intros H. apply LabelEncoder_transform_codes in H.
  induction H as [| v i y codes Hi _ IH]; [reflexivity |].
  simpl. now rewrite (index_of_decode _ _ _ Hi), IH.
Qed.

Lemma LabelEncoder_fit_NoDup (y : list (option string)) : NoDup (LabelEncoder_fit y).
Proof.
  apply (StronglySorted_NoDup label_lt); [apply label_lt_irrefl |].
  apply LabelEncoder_fit_sorted.
Qed.

(** X9. The label codes of a run identify the labels.  In a run that
    returns on text training labels, the persisted encoder lists distinct
    classes, and reading the classes at the persisted codes gives back the
    training labels and the test labels, position by position. *)
Theorem label_codes_decode (T : string) (params : knn_params) (K : Kernels)
        (train_df test_df : DataFrame) (p : Persisted) (y_train y_test : Series) :
  run T params K train_df test_df = Ok p ->
  getitem train_df T = Ok y_train ->
  getitem test_df T = Ok y_test ->
  is_numeric_dtype y_train = false ->
  exists labels classes codes_train codes_test,
    as_object y_train = Some labels /\
    y_encoder p = Some classes /\
    snd (train_arr p) = IntSeries codes_train /\
    snd (test_arr p) = IntSeries codes_test /\
    NoDup classes /\
    map (decode classes) codes_train = map Some labels /\
    (forall w, as_object y_test = Some w ->
               map (decode classes) codes_test = map Some w).
Proof.
  intros H Hy Hy' Hnum.
  destruct (run_inv _ _ _ _ _ _ H) as (y & y' & ct & Hy0 & Hy0' & _ & He & _).
  rewrite Hy in Hy0. rewrite Hy' in Hy0'. inversion Hy0; inversion Hy0'; subst y y'.
  unfold normalize_labels in He. rewrite Hnum in He. cbn [fst snd] in He.
  rewrite (encode_target_non_numeric _ _ Hnum) in He. unfold encode in He.
  destruct (as_object y_train) as [labels |] eqn:Hl; [| discriminate].
  bind_inv He. bind_inv He. inversion He as [[Ha Hb Hc]]. clear He.
  exists labels, (LabelEncoder_fit labels), a, a0.
  repeat split; try reflexivity.
  - apply LabelEncoder_fit_NoDup.
  - exact (LabelEncoder_transform_decode _ _ _ E).
  - intros w Hw. unfold transform_labels in E0. rewrite Hw in E0.
    destruct (same_kind y_train y_test).
    + exact (LabelEncoder_transform_decode _ _ _ E0).
    + destruct (Nat.eqb_spec (size y_test) 0) as [Hz |]; [| discriminate].
      inversion E0; subst. rewrite <- (as_object_length _ _ Hw) in Hz.
      destruct w; [reflexivity | discriminate].
Qed.

(** ** Columns that no transformer names *)

Lemma getitem_skip (X1 X2 : DataFrame) (c c' : string) (s : Series) :
  c' <> c -> getitem (X1 ++ (c, s) :: X2) c' = getitem (X1 ++ X2) c'.
Proof.
  intros Hne. unfold getitem. rewrite !filter_app. cbn [filter fst].
  destruct (String.eqb_spec c c') as [-> | _]; [contradiction | reflexivity].
Qed.

Lemma mapM_ext_in {A B} (f g : A -> result B) (l : list A) :
  (forall x, In x l -> f x = g x) -> mapM f l = mapM g l.
Proof.
  induction l as [| x t IH]; intros H; [reflexivity |].
  simpl. rewrite (H x) by now left. rewrite IH by (intros; apply H; now right).
  reflexivity.
Qed.

Lemma transform_skip (K : Kernels) (fct : FittedColumnTransformer)
      (X1 X2 : DataFrame) (c : string) (s : Series) :
  (forall name p cols, In (name, p, cols) fct -> ~ In c cols) ->
  transform K fct (X1 ++ (c, s) :: X2) = transform K fct (X1 ++ X2).
Proof.
  intros H. unfold transform. f_equal. apply mapM_ext_in.
  intros [[name p] cols] Hin. specialize (H name p cols Hin).
  assert (Hg : forall c', In c' cols ->
                          getitem (X1 ++ (c, s) :: X2) c' = getitem (X1 ++ X2) c').
  { intros c' Hc'. apply getitem_skip. intros ->. contradiction. }
  destruct p as [fs | f]; simpl; f_equal.
  - apply mapM_ext_in. intros c' Hc'. now rewrite Hg.
  - apply mapM_ext_in. intros c' Hc'. now rewrite Hg.
Qed.

Lemma drop_skip (X1 X2 : DataFrame) (c T : string) (s : Series) :
  c <> T ->
  drop (X1 ++ (c, s) :: X2) T = drop X1 T ++ (c, s) :: drop X2 T.
Proof.
  intros Hne. unfold drop. rewrite filter_app. cbn [filter fst].
  destruct (String.eqb_spec c T) as [-> | _]; [contradiction | reflexivity].
Qed.

Lemma drop_app (X1 X2 : DataFrame) (T : string) :
  drop (X1 ++ X2) T = drop X1 T ++ drop X2 T.
Proof. unfold drop. apply filter_app. Qed.

Lemma columns_drop (X : DataFrame) (T c : string) :
  In c (columns (drop X T)) -> In c (columns X).
Proof.
  unfold columns, drop. rewrite !in_map_iff. intros ([c' s] & <- & Hin).
  apply filter_In in Hin. exists (c', s). tauto.
Qed.

Lemma mem_skip (X1 X2 : DataFrame) (c T : string) (s : Series) :
  c <> T ->
  mem T (columns (X1 ++ (c, s) :: X2)) = mem T (columns (X1 ++ X2)).
Proof.
  intros Hne. unfold mem, columns. rewrite !map_app, !existsb_app. cbn [map existsb fst].
  destruct (String.eqb_spec T c) as [-> | _]; [contradiction | reflexivity].
Qed.

Lemma fitted_columns (K : Kernels) (params : knn_params) (X : DataFrame)
      (ct : ColumnTransformer) (fct : FittedColumnTransformer)
      (name : string) (f : fitted_pipeline) (cols : list string) :
  _build_transformer params X = Ok ct ->
  fit K ct X = Ok fct ->
  In (name, f, cols) fct -> incl cols (columns X).
Proof.
  intros Hb Hf Hin.
  destruct (Forall2_In_r _ _ _ _ (fit_inv K ct X fct Hf) Hin)
    as ([[name' p] cols'] & Ht & (_ & Hc & _)).
  simpl in Hc. subst cols'.
  apply (built_group_inv params X ct name' p cols Hb Ht).
Qed.

(** X13. A column of the test file whose label the training file does not
    have has no effect on the run: with and without it, wherever it stands,
    the run raises the same exception or persists the same arrays, fitted
    transformation and encoder ([remainder="drop"] at apply time). *)
Theorem unknown_test_column_ignored (T : string) (params : knn_params) (K : Kernels)
        (train_df X1 X2 : DataFrame) (c : string) (s : Series) :
  ~ In c (columns train_df) ->
  run T params K train_df (X1 ++ (c, s) :: X2) = run T params K train_df (X1 ++ X2).
Proof.
  intros Hc. unfold run.
  destruct (mem T (columns train_df)) eqn:Hm; [| reflexivity].
  assert (Hne : c <> T) by (intros ->; apply Hc; now apply mem_In).
  rewrite (mem_skip X1 X2 c T s Hne).
  rewrite (getitem_skip X1 X2 c T s (not_eq_sym Hne)).
  rewrite (drop_skip X1 X2 c T s Hne), drop_app.
  f_equal.
  destruct (negb true || negb (mem T (columns (X1 ++ X2)))); [reflexivity |].
  destruct (getitem train_df T) as [y |]; [| reflexivity].
  destruct (getitem (X1 ++ X2) T) as [y' |]; [| reflexivity].
  cbn [bind]. destruct (normalize_labels y y') as [y1 y2].
  destruct (_build_transformer params (drop train_df T)) as [ct |] eqn:Hb; [| reflexivity].
  cbn [bind]. destruct (encode_target y1 y2) as [[[a b] enc] |]; [| reflexivity].
  cbn [bind]. destruct (fit K ct (drop train_df T)) as [f |] eqn:Hf; [| reflexivity].
  cbn [bind]. destruct (transform K f (drop train_df T)) as [Xt |]; [| reflexivity].
  cbn [bind]. rewrite transform_skip; [reflexivity |].
  intros name p cols Hin Hcol. apply Hc.
  apply (columns_drop train_df T).
  exact (fitted_columns K params _ ct f name p cols Hb Hf Hin c Hcol).
Qed.

(** ** The DAG *)

(** X14. The transformation task of the DAG never returns.  Whatever dict
    the validation task hands over, [run_data_transformation] fails; when
    the dict has the three keys and the configuration is built, the failure
    is the [AttributeError] of [transformer.initiate_data_transformation]:
    the class [DataTransformation] defines [run] and no method of that
    name.  So no run of [ml_data_pipeline] returns, and [DataTransformation.run]
    is never reached from it. *)
Theorem transformation_task_never_returns
        (read_csv : value -> result DataFrame)
        (T : string) (params : knn_params) (K : Kernels)
        (ingestion : result DataIngestionArtifact)
        (validation : DataIngestionArtifact -> result DataValidationArtifact)
        (config : result DataTransformationConfig) (val : dict) :
  (exists e, run_data_transformation T params K read_csv config val = Failed e) /\
  (forall dv_art dt_config,
      rebuild_validation_artifact val = Returned dv_art ->
      config = Ok dt_config ->
      run_data_transformation T params K read_csv config val
      = Failed (AttributeError "initiate_data_transformation")) /\
  (forall d, ml_data_pipeline T params K read_csv ingestion validation config
             <> Returned d).
Proof.
  assert (H1 : exists e, run_data_transformation T params K read_csv config val = Failed e).
  { unfold run_data_transformation.
    destruct (rebuild_validation_artifact val); [| simpl; eauto].
    destruct config; simpl; eauto. }
  split; [exact H1 |]. split.
  - intros dv_art dt_config Hr ->. unfold run_data_transformation. rewrite Hr. reflexivity.
  - intros d. unfold ml_data_pipeline.
    destruct (run_data_ingestion ingestion) as [ingest |]; [| discriminate].
    cbn [and_then].
    destruct (run_data_validation validation ingest) as [val' |]; [| discriminate].
    cbn [and_then].
    unfold run_data_transformation.
    destruct (rebuild_validation_artifact val'); [| discriminate].
    destruct config; simpl; discriminate.
Qed.

(** X15. The dicts that the tasks exchange carry what the next task reads.
    When the ingestion and the validation components return, the validation
    component is given the artifact of the ingestion component, no lookup of
    a key fails, and the artifact that the transformation task rebuilds has
    the valid train and test paths and the drift report path of the
    validation artifact and the truth value of its status; the default of
    [val.get("validation_status", True)] is not used, and the two invalid
    paths are [None]. *)
Theorem xcom_artifacts_round_trip
        (ingestion : result DataIngestionArtifact)
        (validation : DataIngestionArtifact -> result DataValidationArtifact)
        (art : DataIngestionArtifact) (dv_art : DataValidationArtifact) :
  ingestion = Ok art ->
  validation art = Ok dv_art ->
  exists ingest val,
    run_data_ingestion ingestion = Returned ingest /\
    run_data_validation validation ingest = Returned val /\
    rebuild_validation_artifact val
    = Returned {| validation_status := VBool (truth (validation_status dv_art));
                  valid_train_file_path := valid_train_file_path dv_art;
                  valid_test_file_path := valid_test_file_path dv_art;
                  invalid_train_file_path := VNone;
                  invalid_test_file_path := VNone;
                  drift_report_file_path := drift_report_file_path dv_art |}.
Proof.
  intros Hi Hv. unfold run_data_ingestion. rewrite Hi. cbn [of_result and_then].
  eexists. eexists. split; [reflexivity |].
  unfold run_data_validation. cbn.
  destruct art as [tr te]. cbn [trained_file_path test_file_path]. rewrite Hv.
  cbn [of_result and_then]. split; [reflexivity |].
  unfold rebuild_validation_artifact. cbn.
  now destruct (truth (validation_status dv_art)).
Qed.

Lemma xcom_artifacts_round_trip_witness :
  exists ingest val,
    run_data_ingestion (Ok sample_ingestion_artifact) = Returned ingest /\
    run_data_validation (fun _ => Ok sample_validation_artifact) ingest = Returned val /\
    rebuild_validation_artifact val
    = Returned {| validation_status := VBool false;
                  valid_train_file_path := VStr "Artifacts/data_validation/validated/train.csv";
                  valid_test_file_path := VStr "Artifacts/data_validation/validated/test.csv";
                  invalid_train_file_path := VNone;
                  invalid_test_file_path := VNone;
                  drift_report_file_path :=
                    VStr "Artifacts/data_validation/drift_report/report.yaml" |}.
Proof.
  exact (xcom_artifacts_round_trip
           (Ok sample_ingestion_artifact) (fun _ => Ok sample_validation_artifact)
           sample_ingestion_artifact sample_validation_artifact eq_refl eq_refl).
Defined.

(** ** The further properties at work on the sample files *)


Lemma run_numeric_labels_witness :
  exists p,
    run "Result" sample_params sample_kernels sample_train sample_test = Ok p /\
    getitem sample_train "Result" = Ok (IntSeries [-1; 1; 1; -1; 1; -1]%Z) /\
    getitem sample_test "Result" = Ok (IntSeries [1; -1]%Z) /\
    is_numeric_dtype (IntSeries [-1; 1; 1; -1; 1; -1]%Z) = true /\
    (snd (train_arr p) = replace_m1_0 (IntSeries [-1; 1; 1; -1; 1; -1]%Z) /\
     snd (test_arr p) = replace_m1_0 (IntSeries [1; -1]%Z) /\
     y_encoder p = None).
Proof.
  eexists. split; [vm_compute; reflexivity |].
  split; [reflexivity |]. split; [reflexivity |]. split; [reflexivity |].
  apply (run_numeric_labels "Result" sample_params sample_kernels sample_train sample_test);
    vm_compute; reflexivity.
Defined.

Lemma run_error_taxonomy_witness :
  exists e,
    run "Result" sample_params sample_kernels text_train text_test = Raise e /\
    ((exists cause, e = NetworkSecurityException cause) /\
     (MissingTargetColumnError "Result" e \/ NoFeatureColumnsError e \/ LibraryFailure e)).
Proof.
  eexists. split; [vm_compute; reflexivity |].
  apply (run_error_taxonomy "Result" sample_params sample_kernels text_train text_test).
  vm_compute. reflexivity.
Defined.

Lemma build_transformer_fails_iff_witness :
  NoDup (columns sample_frame) /\
  ((num_cols sample_frame = [] /\ obj_cols sample_frame = [] <->
    _build_transformer sample_params sample_frame
    = Raise (NetworkSecurityException no_valid_feature_columns)) /\
   (forall e, _build_transformer sample_params sample_frame = Raise e ->
              e = NetworkSecurityException no_valid_feature_columns)).
Proof.
  assert (H : NoDup (columns sample_frame)) by apply sample_frame_is_feature_frame.
  split; [exact H |].
  exact (build_transformer_fails_iff sample_params sample_frame H).
Defined.

Lemma built_transformer_well_formed_witness :
  _build_transformer sample_params sample_frame = Ok sample_transformer /\
  (transformers sample_transformer <> [] /\
   NoDup (map (fun t => fst (fst t)) (transformers sample_transformer)) /\
   forall name p cols,
     In (name, p, cols) (transformers sample_transformer) ->
     cols <> [] /\
     incl cols (columns sample_frame) /\
     p <> numeric_normal /\
     ((name = "num_skewed" /\ p = numeric_skewed /\ incl cols (num_cols sample_frame)) \/
      (name = "num_regular" /\ p = numeric_knn sample_params /\
       incl cols (num_cols sample_frame)) \/
      (name = "cat" /\ p = categorical /\ cols = obj_cols sample_frame))).
Proof.
  split; [exact sample_transformer_built |].
  exact (built_transformer_well_formed sample_params sample_frame sample_transformer
           sample_transformer_built).
Defined.


Lemma infinite_training_value_aborts_witness :
  NoDup (columns infinite_train) /\
  In ("rate", FloatSeries [Fin 1; PInf; Fin 2; Fin 50]) infinite_train /\
  "rate" <> "Result" /\
  existsb isinf [Fin 1; PInf; Fin 2; Fin 50] = true /\
  ((exists skewed regular objs,
       profile (drop infinite_train "Result") = Ok (skewed, regular, objs) /\
       In "rate" regular /\
       fit_pipeline sample_kernels (numeric_knn sample_params)
                    (drop infinite_train "Result") regular
       = Raise (LibraryError ValueError_infinity)) /\
   exists e, run "Result" sample_params sample_kernels infinite_train sample_test = Raise e).
Proof.
  assert (H1 : NoDup (columns infinite_train)).
  { repeat constructor; simpl; intuition discriminate. }
  assert (H2 : In ("rate", FloatSeries [Fin 1; PInf; Fin 2; Fin 50]) infinite_train)
    by (simpl; auto).
  assert (H3 : "rate" <> "Result") by discriminate.
  assert (H4 : existsb isinf [Fin 1; PInf; Fin 2; Fin 50] = true) by reflexivity.
  split; [exact H1 |]. split; [exact H2 |]. split; [exact H3 |]. split; [exact H4 |].
  exact (infinite_training_value_aborts "Result" sample_params sample_kernels
           infinite_train sample_test "rate" _ H1 H2 H3 H4).
Defined.

Lemma label_codes_decode_witness :
  exists p,
    run "Result" sample_params sample_kernels text_train text_test_seen = Ok p /\
    getitem text_train "Result" = Ok text_labels /\
    getitem text_test_seen "Result" = Ok (ObjectSeries [Some "benign"; Some "phishing"]) /\
    is_numeric_dtype text_labels = false /\
    exists labels classes codes_train codes_test,
      as_object text_labels = Some labels /\
      y_encoder p = Some classes /\
      snd (train_arr p) = IntSeries codes_train /\
      snd (test_arr p) = IntSeries codes_test /\
      NoDup classes /\
      map (decode classes) codes_train = map Some labels /\
      (forall w, as_object (ObjectSeries [Some "benign"; Some "phishing"]) = Some w ->
                 map (decode classes) codes_test = map Some w).
Proof.
  eexists. split; [vm_compute; reflexivity |].
  split; [reflexivity |]. split; [reflexivity |]. split; [reflexivity |].
  apply (label_codes_decode "Result" sample_params sample_kernels text_train text_test_seen);
    vm_compute; reflexivity.
Defined.

Lemma fit_then_transform_returns_witness :
  exists fct,
    fit sample_kernels sample_transformer sample_frame = Ok fct /\
    exists out, transform sample_kernels fct sample_frame = Ok out.
Proof.
  eexists. split; [vm_compute; reflexivity |].
  apply (fit_then_transform_returns sample_kernels sample_transformer sample_frame).
  vm_compute. reflexivity.
Defined.

Lemma run_arrays_aligned_witness :
  exists p,
    run "Result" sample_params sample_kernels sample_train sample_test = Ok p /\
    rectangular 6 sample_train /\
    rectangular 2 sample_test /\
    (rows 6 (fst (train_arr p)) /\ size (snd (train_arr p)) = 6%nat /\
     rows 2 (fst (test_arr p)) /\ size (snd (test_arr p)) = 2%nat).
Proof.
  assert (H1 : rectangular 6 sample_train).
  { intros c s H. simpl in H.
    repeat (destruct H as [H | H]; [inversion H; reflexivity |]). contradiction. }
  assert (H2 : rectangular 2 sample_test).
  { intros c s H. simpl in H.
    repeat (destruct H as [H | H]; [inversion H; reflexivity |]). contradiction. }
  eexists. split; [vm_compute; reflexivity |].
  split; [exact H1 |]. split; [exact H2 |].
  apply (run_arrays_aligned "Result" sample_params sample_kernels sample_train sample_test);
    [vm_compute; reflexivity | exact H1 | exact H2].
Defined.

Lemma training_rows_are_one_hot_witness :
  exists f,
    fit_categorical
      [[Some "http"; Some "https"; None; Some "https"; Some "ftp"; Some "https"]] = Ok f /\
    (transform_categorical f
       [[Some "http"; Some "https"; None; Some "https"; Some "ftp"; Some "https"]]
     = Ok (categorical_output f
             [[Some "http"; Some "https"; None; Some "https"; Some "ftp"; Some "https"]]) /\
     forall cats m col i,
       In (cats, (m, col))
          (combine (categories_ f)
             (kept_columns (statistics_ f)
                [[Some "http"; Some "https"; None; Some "https"; Some "ftp"; Some "https"]])) ->
       (i < List.length col)%nat ->
       exists v pre post,
         nth_error (fill (Some m) col) i = Some v /\
         cats = pre ++ v :: post /\
         row i (onehot_column cats (fill (Some m) col))
         = zeros (List.length pre) ++ Some (Fin 1) :: zeros (List.length post)).
Proof.
  eexists. split; [vm_compute; reflexivity |].
  apply (training_rows_are_one_hot
           [[Some "http"; Some "https"; None; Some "https"; Some "ftp"; Some "https"]]).
  vm_compute. reflexivity.
Defined.

Lemma unknown_test_column_ignored_witness :
  ~ In "checked_at" (columns sample_train) /\
  run "Result" sample_params sample_kernels sample_train
      (sample_test_features
       ++ ("checked_at", ObjectSeries [Some "2024-01-01"; Some "2024-01-02"])
       :: [("Result", IntSeries [1; -1]%Z)])
  = run "Result" sample_params sample_kernels sample_train
        (sample_test_features ++ [("Result", IntSeries [1; -1]%Z)]).
Proof.
  assert (H : ~ In "checked_at" (columns sample_train)).
  { simpl. intuition discriminate. }
  split; [exact H |].
  exact (unknown_test_column_ignored "Result" sample_params sample_kernels sample_train
           sample_test_features [("Result", IntSeries [1; -1]%Z)] "checked_at" _ H).
Defined.
